(** * KNX2 integration: telegram translation and administrative services

    A shallow embedding of the telegram callback of [KNX2Module]
    (src/__init__.py), of the integration services (src/services.py), of the
    websocket decorator [provide_knx2] (src/websocket.py) and of the
    state-restoring entities (src/switch.py, src/text.py, src/date.py,
    src/datetime.py, src/binary_sensor.py), together with the properties the
    specification states about them. *)

From stdpp Require Import base ssreflect numbers strings pretty list gmap.

(* stdpp's solvers clear hypotheses that proof search has already used *)
Local Set Warnings "-clear-no-such-hyp".

Local Open Scope string_scope.
Local Open Scope list_scope.

(** ** Exceptions *)

(** The exception classes the modelled code raises or catches.  The first two
    come from [homeassistant.exceptions], the next two from [xknx.exceptions],
    the others are Python built-ins. *)
Inductive Exn :=
| HomeAssistantError (msg : string)
| ServiceValidationError (msg : string)
| ConversionError (msg : string)
| CouldNotParseTelegram (msg : string)
| ValueError (msg : string)
| TypeError (msg : string)
| AttributeError (msg : string)
| KeyError (msg : string).

(** [str(err)] *)
Definition exn_str (e : Exn) : string :=
  match e with
  | HomeAssistantError m | ServiceValidationError m | ConversionError m
  | CouldNotParseTelegram m | ValueError m | TypeError m | AttributeError m
  | KeyError m => m
  end.

(** ** Addresses, payloads and telegrams (the data of [xknx.telegram]) *)

(** [DeviceGroupAddress = GroupAddress | InternalGroupAddress]; equality and
    hashing are by the raw value, so the type serves as a dictionary key. *)
Inductive DeviceGroupAddress :=
| GroupAddress (raw : N)
| InternalGroupAddress (raw : string).

(** A telegram's destination or source: a group address or an individual
    (device) address. *)
Inductive TelegramAddress :=
| GroupDestination (ga : DeviceGroupAddress)
| IndividualAddress (raw : N).

#[global] Instance DeviceGroupAddress_eq_dec : EqDecision DeviceGroupAddress.
Proof. solve_decision. Defined.

#[global] Instance DeviceGroupAddress_countable : Countable DeviceGroupAddress.
Proof.
  refine (inj_countable'
    (λ a, match a with GroupAddress r => inl r | InternalGroupAddress s => inr s end)
    (λ x, match x with inl r => GroupAddress r | inr s => InternalGroupAddress s end) _).
  by intros [].
Defined.

#[global] Instance TelegramAddress_eq_dec : EqDecision TelegramAddress.
Proof. solve_decision. Defined.

(** [isinstance(address, (GroupAddress, InternalGroupAddress))] *)
Definition as_device_group_address (a : TelegramAddress) : option DeviceGroupAddress :=
  match a with
  | GroupDestination ga => Some ga
  | IndividualAddress _ => None
  end.

(** The raw payload of a group value: [DPTBinary] wraps one small integer,
    [DPTArray] a tuple of bytes. *)
Inductive DPTPayload :=
| DPTBinary (value : Z)
| DPTArray (value : list Z).

(** The serializable form [payload.value.value : int | tuple[int, ...]]. *)
Inductive RawData :=
| RawInt (value : Z)
| RawTuple (value : list Z).

Definition dpt_value (p : DPTPayload) : RawData :=
  match p with
  | DPTBinary v => RawInt v
  | DPTArray v => RawTuple v
  end.

(** [DPTBinary.APCI_BITMASK], the largest value that fits the six bits a
    [DPTBinary] has. *)
Definition APCI_BITMASK : Z := 63.

(** The call [DPTBinary(value)] on an integer: [xknx] refuses a value above
    [APCI_BITMASK] with a [ConversionError]. *)
Definition DPTBinary_init (value : Z) : Exn + DPTPayload :=
  if decide (value > APCI_BITMASK)%Z
  then inl (ConversionError "Could not init DPTBinary")
  else inr (DPTBinary value).

(** The application-layer payload of a telegram.  [GroupValueWrite] and
    [GroupValueResponse] carry a value the callback tests against [None]. *)
Inductive APCI :=
| GroupValueRead
| GroupValueWrite (value : option DPTPayload)
| GroupValueResponse (value : option DPTPayload)
| OtherAPCI (class_name : string).

(** [payload.__class__.__name__] *)
Definition apci_class_name (p : APCI) : string :=
  match p with
  | GroupValueRead => "GroupValueRead"
  | GroupValueWrite _ => "GroupValueWrite"
  | GroupValueResponse _ => "GroupValueResponse"
  | OtherAPCI n => n
  end.

(** [isinstance(payload, (GroupValueWrite, GroupValueResponse))] *)
Definition is_write_or_response (p : APCI) : bool :=
  match p with
  | GroupValueWrite _ | GroupValueResponse _ => true
  | _ => false
  end.

(** [payload.value] when the payload is a write or a response and the value
    is not [None]. *)
Definition write_or_response_value (p : APCI) : option DPTPayload :=
  match p with
  | GroupValueWrite v | GroupValueResponse v => v
  | _ => None
  end.

Inductive TelegramDirection := INCOMING | OUTGOING.

Record Telegram := {
  destination_address : TelegramAddress;
  direction : TelegramDirection;
  payload : APCI;
  source_address : TelegramAddress;
}.

(** ** The collaborators outside the repository

    What the code uses without defining it: of [xknx], transcoder classes with
    their codec, address filters, address parsing and printing; of const.py,
    the key under which the module is stored in [hass.data]. *)
Class Collaborators := {
  (** a transcoder class, [type[DPTBase]] *)
  Transcoder : Type;
  (** a decoded or to-be-encoded Python value *)
  Value : Type;
  AddressFilter : Type;
  (** [transcoder.__name__] *)
  transcoder_name : Transcoder → string;
  (** [transcoder.from_knx(payload)] *)
  from_knx : Transcoder → DPTPayload → Exn + Value;
  (** What evaluating [transcoder.to_knx2(value)] gives.  The transcoder
      classes of [xknx] encode with [to_knx] and have no attribute
      [to_knx2], so with them it is an [AttributeError] for every
      transcoder and value. *)
  to_knx2 : Transcoder → Value → Exn + DPTPayload;
  (** [DPTBase.parse_transcoder(dpt)] *)
  parse_transcoder : string → option Transcoder;
  (** [_filter.match(address)] *)
  filter_match : AddressFilter → DeviceGroupAddress → bool;
  (** [parse_device_group_address(address)], on addresses accepted by
      [ga_validator] *)
  parse_device_group_address : string → DeviceGroupAddress;
  (** [str(address)] *)
  address_str : TelegramAddress → string;
  (** [direction.value] *)
  direction_value : TelegramDirection → string;
  (** the direction of a telegram built without one *)
  default_direction : TelegramDirection;
  (** [KNX2_MODULE_KEY] of const.py *)
  KNX2_MODULE_KEY : string;
}.

(** ** A state and exception monad

    [M S A] is a computation over a mutable state [S] that returns an [A] or
    raises; what was mutated before a raise stays mutated, as in Python. *)
Definition M (S A : Type) : Type := S → (Exn + A) * S.

#[global] Instance M_ret {S} : MRet (M S) := λ A a s, (inr a, s).

#[global] Instance M_bind {S} : MBind (M S) := λ A B k c s,
  match c s with
  | (inl e, s') => (inl e, s')
  | (inr a, s') => k a s'
  end.

Definition raise {S A} (e : Exn) : M S A := λ s, (inl e, s).

(** [try: c  except <classes selected by h>: handler] *)
Definition try_except {S A} (c : M S A) (h : Exn → option (M S A)) : M S A := λ s,
  match c s with
  | (inl e, s') =>
      match h e with
      | Some handler => handler s'
      | None => (inl e, s')
      end
  | r => r
  end.

(** A pure computation that may raise. *)
Definition lift_result {S A} (r : Exn + A) : M S A := λ s, (r, s).

Definition modify {S} (f : S → S) : M S unit := λ s, (inr (), f s).

Definition gets {S A} (f : S → A) : M S A := λ s, (inr (f s), s).

(** [for x in l: body x] *)
Fixpoint for_each {S A} (l : list A) (body : A → M S unit) : M S unit :=
  match l with
  | [] => mret ()
  | x :: l' => body x ;; for_each l' body
  end.

Section Model.
Context `{Collaborators}.

(** ** The state of the integration *)

(** An exposure object as [create_knx2_exposure] returns it: [exposure_id]
    stands for the object's identity, [device_name] for
    [exposure.device.name]. *)
Record Exposure := {
  exposure_id : nat;
  exposure_address : string;
  device_name : string;
}.

(** A call made on an exposure object: its creation by
    [create_knx2_exposure], or its [async_remove()]. *)
Inductive ExposureCall :=
| exposure_created (exposure : Exposure)
| exposure_removed (exposure : Exposure).

(** [TelegramQueue.Callback]: the filters and the group addresses the
    [knx2_event] callback is subscribed to. *)
Record Callback := {
  address_filters : list AddressFilter;
  group_addresses : list DeviceGroupAddress;
}.

(** [KNX2Module], with the parts of its [xknx] object the services act on.
    [_address_filter_transcoder] is a dict read in insertion order, hence an
    association list; [xknx_telegrams] is the outgoing queue
    [xknx.telegrams]; [xknx_exposures] holds the exposures the
    exposure_register service has attached to the bus and not yet removed,
    [exposure_calls] the calls made on exposure objects, in order, and
    [exposures_created] counts the exposure objects made so far. *)
Record KNX2Module := {
  entry_id : string;
  service_exposures : gmap string Exposure;
  _address_filter_transcoder : list (AddressFilter * Transcoder);
  group_address_transcoder : gmap DeviceGroupAddress Transcoder;
  knx2_event_callback : Callback;
  xknx_telegrams : list Telegram;
  xknx_current_address : TelegramAddress;
  xknx_exposures : list Exposure;
  exposure_calls : list ExposureCall;
  exposures_created : nat;
}.

(** The payload of a [knx2_event]. *)
Record Knx2Event := {
  ev_data : option RawData;
  ev_destination : string;
  ev_direction : string;
  ev_value : option Value;
  ev_source : string;
  ev_telegramtype : string;
}.

(** What [hass.bus.async_fire] is called with. *)
Inductive BusEvent :=
| knx2_event (event_data : Knx2Event)
| event_reloaded.

(** The records of the module loggers, by format string and arguments. *)
Inductive LogRecord :=
| warning_decode_error (type_name : string) (telegram : Telegram) (err : Exn)
| warning_could_not_remove_event (group_address : string)
| debug_registered_event (group_address : string)
| warning_replacing_exposure (group_address : string) (name : string)
| debug_registered_exposure (group_address : string) (name : string).

(** A message sent on the websocket connection. *)
Inductive WsMessage :=
| send_error (msg_id : nat) (code : string) (message : string)
| send_result (msg_id : nat).

(** The host as the integration acts on it: [hass.data] (the entries holding
    a module), the events fired on [hass.bus], the config entries asked to
    reload, and with them the records logged and the messages sent on the
    websocket connection of the current command. *)
Record HomeAssistant := {
  data : gmap string KNX2Module;
  bus : list BusEvent;
  reloaded : list string;
  logger : list LogRecord;
  connection : list WsMessage;
}.

(** The state a method of the module runs in: the module object [self] it
    holds a reference to, and the host. *)
Record Env := {
  self : KNX2Module;
  hass : HomeAssistant;
}.

Definition set_group_address_transcoder
    (f : gmap DeviceGroupAddress Transcoder → gmap DeviceGroupAddress Transcoder)
    (m : KNX2Module) : KNX2Module :=
  {| entry_id := entry_id m;
     service_exposures := service_exposures m;
     _address_filter_transcoder := _address_filter_transcoder m;
     group_address_transcoder := f (group_address_transcoder m);
     knx2_event_callback := knx2_event_callback m;
     xknx_telegrams := xknx_telegrams m;
     xknx_current_address := xknx_current_address m;
     xknx_exposures := xknx_exposures m;
     exposure_calls := exposure_calls m;
     exposures_created := exposures_created m |}.

Definition set_address_filter_transcoder
    (f : list (AddressFilter * Transcoder) → list (AddressFilter * Transcoder))
    (m : KNX2Module) : KNX2Module :=
  {| entry_id := entry_id m;
     service_exposures := service_exposures m;
     _address_filter_transcoder := f (_address_filter_transcoder m);
     group_address_transcoder := group_address_transcoder m;
     knx2_event_callback := knx2_event_callback m;
     xknx_telegrams := xknx_telegrams m;
     xknx_current_address := xknx_current_address m;
     xknx_exposures := xknx_exposures m;
     exposure_calls := exposure_calls m;
     exposures_created := exposures_created m |}.

Definition set_group_addresses
    (f : list DeviceGroupAddress → list DeviceGroupAddress)
    (m : KNX2Module) : KNX2Module :=
  {| entry_id := entry_id m;
     service_exposures := service_exposures m;
     _address_filter_transcoder := _address_filter_transcoder m;
     group_address_transcoder := group_address_transcoder m;
     knx2_event_callback :=
       {| address_filters := address_filters (knx2_event_callback m);
          group_addresses := f (group_addresses (knx2_event_callback m)) |};
     xknx_telegrams := xknx_telegrams m;
     xknx_current_address := xknx_current_address m;
     xknx_exposures := xknx_exposures m;
     exposure_calls := exposure_calls m;
     exposures_created := exposures_created m |}.

Definition set_xknx_telegrams (f : list Telegram → list Telegram)
    (m : KNX2Module) : KNX2Module :=
  {| entry_id := entry_id m;
     service_exposures := service_exposures m;
     _address_filter_transcoder := _address_filter_transcoder m;
     group_address_transcoder := group_address_transcoder m;
     knx2_event_callback := knx2_event_callback m;
     xknx_telegrams := f (xknx_telegrams m);
     xknx_current_address := xknx_current_address m;
     xknx_exposures := xknx_exposures m;
     exposure_calls := exposure_calls m;
     exposures_created := exposures_created m |}.

Definition set_service_exposures
    (f : gmap string Exposure → gmap string Exposure)
    (m : KNX2Module) : KNX2Module :=
  {| entry_id := entry_id m;
     service_exposures := f (service_exposures m);
     _address_filter_transcoder := _address_filter_transcoder m;
     group_address_transcoder := group_address_transcoder m;
     knx2_event_callback := knx2_event_callback m;
     xknx_telegrams := xknx_telegrams m;
     xknx_current_address := xknx_current_address m;
     xknx_exposures := xknx_exposures m;
     exposure_calls := exposure_calls m;
     exposures_created := exposures_created m |}.

Definition set_xknx_exposures (f : list Exposure → list Exposure)
    (call : ExposureCall) (created : nat) (m : KNX2Module) : KNX2Module :=
  {| entry_id := entry_id m;
     service_exposures := service_exposures m;
     _address_filter_transcoder := _address_filter_transcoder m;
     group_address_transcoder := group_address_transcoder m;
     knx2_event_callback := knx2_event_callback m;
     xknx_telegrams := xknx_telegrams m;
     xknx_current_address := xknx_current_address m;
     xknx_exposures := f (xknx_exposures m);
     exposure_calls := exposure_calls m ++ [call];
     exposures_created := created |}.

Definition set_data (f : gmap string KNX2Module → gmap string KNX2Module)
    (h : HomeAssistant) : HomeAssistant :=
  {| data := f (data h); bus := bus h; reloaded := reloaded h;
     logger := logger h; connection := connection h |}.

Definition set_bus (f : list BusEvent → list BusEvent)
    (h : HomeAssistant) : HomeAssistant :=
  {| data := data h; bus := f (bus h); reloaded := reloaded h;
     logger := logger h; connection := connection h |}.

Definition set_reloaded (f : list string → list string)
    (h : HomeAssistant) : HomeAssistant :=
  {| data := data h; bus := bus h; reloaded := f (reloaded h);
     logger := logger h; connection := connection h |}.

Definition set_logger (f : list LogRecord → list LogRecord)
    (h : HomeAssistant) : HomeAssistant :=
  {| data := data h; bus := bus h; reloaded := reloaded h;
     logger := f (logger h); connection := connection h |}.

Definition set_connection (f : list WsMessage → list WsMessage)
    (h : HomeAssistant) : HomeAssistant :=
  {| data := data h; bus := bus h; reloaded := reloaded h;
     logger := logger h; connection := f (connection h) |}.

(** Mutation of the module object a method holds. *)
Definition update_self (f : KNX2Module → KNX2Module) : M Env unit :=
  modify (λ e, {| self := f (self e); hass := hass e |}).

Definition update_hass (f : HomeAssistant → HomeAssistant) : M Env unit :=
  modify (λ e, {| self := self e; hass := f (hass e) |}).

(** [_LOGGER.warning(...)] and [_LOGGER.debug(...)] *)
Definition _LOGGER (r : LogRecord) : M Env unit :=
  update_hass (set_logger (λ l, l ++ [r])).

(** [hass.bus.async_fire(...)] *)
Definition async_fire (ev : BusEvent) : M Env unit :=
  update_hass (set_bus (λ l, l ++ [ev])).

(** ** [KNX2Module.telegram_received_cb] (src/__init__.py) *)

(** [next((_transcoder for _filter, _transcoder in items if
    _filter.match(address)), None)] *)
Fixpoint next_filter_transcoder (items : list (AddressFilter * Transcoder))
    (address : DeviceGroupAddress) : option Transcoder :=
  match items with
  | [] => None
  | (_filter, _transcoder) :: items' =>
      if filter_match _filter address then Some _transcoder
      else next_filter_transcoder items' address
  end.

(** [group_address_transcoder.get(address) or next(...)]: a transcoder is a
    class object and so is truthy; only a missing entry falls through to the
    filters. *)
Definition lookup_transcoder (m : KNX2Module) (address : DeviceGroupAddress)
    : option Transcoder :=
  match group_address_transcoder m !! address with
  | Some transcoder => Some transcoder
  | None => next_filter_transcoder (_address_filter_transcoder m) address
  end.

(** The [try] block of the callback: the decoded value, or [None] with a
    warning when decoding raises [ConversionError] or
    [CouldNotParseTelegram]; any other exception propagates. *)
Definition decode_value (transcoder : Transcoder) (telegram : Telegram)
    (value : DPTPayload) : M Env (option Value) :=
  try_except
    (v ← lift_result (from_knx transcoder value); mret (Some v))
    (λ err,
       match err with
       | ConversionError _ | CouldNotParseTelegram _ =>
           Some (_LOGGER (warning_decode_error (transcoder_name transcoder)
                            telegram err);;
                 mret None)
       | _ => None
       end).

(** The dictionary the callback fires as [knx2_event]. *)
Definition knx2_event_data (telegram : Telegram) (data : option RawData)
    (value : option Value) : Knx2Event :=
  {| ev_data := data;
     ev_destination := address_str (destination_address telegram);
     ev_direction := direction_value (direction telegram);
     ev_value := value;
     ev_source := address_str (source_address telegram);
     ev_telegramtype := apci_class_name (payload telegram) |}.

Definition telegram_received_cb (telegram : Telegram) : M Env unit :=
  '(data, value) ←
    match write_or_response_value (payload telegram),
          as_device_group_address (destination_address telegram) with
    | Some payload_value, Some destination =>
        let data := Some (dpt_value payload_value) in
        m ← gets self;
        match lookup_transcoder m destination with
        | Some transcoder =>
            value ← decode_value transcoder telegram payload_value;
            mret (data, value)
        | None => mret (data, None)
        end
    | _, _ => mret (None, None)
    end;
  async_fire (knx2_event (knx2_event_data telegram data value)).

(** The exceptions the specification counts as decode failures:
    [ConversionError] and the parse error [CouldNotParseTelegram]. *)
Definition is_decode_error (err : Exn) : bool :=
  match err with
  | ConversionError _ | CouldNotParseTelegram _ => true
  | _ => false
  end.

(** The environment after [ev] was fired on the bus, and after [r] was
    logged. *)
Definition fired (ev : BusEvent) (e : Env) : Env :=
  {| self := self e; hass := set_bus (λ l, l ++ [ev]) (hass e) |}.

Definition logged (r : LogRecord) (e : Env) : Env :=
  {| self := self e; hass := set_logger (λ l, l ++ [r]) (hass e) |}.

(** ** The services (src/services.py) *)

(** [get_knx2_module]: [hass.data[KNX2_MODULE_KEY]], a [KeyError] becoming
    a [HomeAssistantError]. *)
Definition get_knx2_module (h : HomeAssistant) : Exn + KNX2Module :=
  match data h !! KNX2_MODULE_KEY with
  | Some knx2_module => inr knx2_module
  | None => inl (HomeAssistantError "KNX2 entry not loaded")
  end.

(** Running code that holds the reference [knx2_module] obtained from
    [hass.data]: the object is shared, so what the code mutates on it is what
    [hass.data] holds afterwards, whether the code returns or raises. *)
Definition on_module {A} (knx2_module : KNX2Module) (body : M Env A)
    : M HomeAssistant A := λ h,
  let '(r, e) := body {| self := knx2_module; hass := h |} in
  (r, set_data (λ d, <[KNX2_MODULE_KEY := self e]> d) (hass e)).

(** The common opening of every service: [knx2_module = get_knx2_module(hass)],
    then the body on that module. *)
Definition with_knx2_module {A} (body : M Env A) : M HomeAssistant A := λ h,
  match get_knx2_module h with
  | inl err => (inl err, h)
  | inr knx2_module => on_module knx2_module body h
  end.

(** [await knx2_module.xknx.telegrams.put(telegram)] *)
Definition telegrams_put (telegram : Telegram) : M Env unit :=
  update_self (set_xknx_telegrams (λ q, q ++ [telegram])).

(** [call.data] of the send service as [SERVICE_KNX2_SEND_SCHEMA] accepts it:
    with a type and any payload, or without a type and a payload that is a
    non-negative integer or a list of them. *)
Inductive SendData :=
| send_typed (address : list string) (attr_payload : Value) (type : string)
    (response : bool)
| send_raw (address : list string) (attr_payload : Z + list Z) (response : bool).

Definition send_address (d : SendData) : list string :=
  match d with send_typed a _ _ _ | send_raw a _ _ => a end.

(** [call.data.get(SERVICE_KNX2_ATTR_TYPE)] *)
Definition send_type (d : SendData) : option string :=
  match d with send_typed _ _ t _ => Some t | send_raw _ _ _ => None end.

Definition send_response (d : SendData) : bool :=
  match d with send_typed _ _ _ r | send_raw _ _ r => r end.

(** The payload of [service_send_to_knx2_bus]: through the transcoder when a
    type is given, else [DPTBinary] for an integer and [DPTArray] for a
    list.  Only the call of the transcoder is inside the [try]; the
    [ConversionError] of [DPTBinary] is not caught. *)
Definition send_payload (d : SendData) : M Env DPTPayload :=
  match d with
  | send_typed _ attr_payload attr_type _ =>
      match parse_transcoder attr_type with
      | None =>
          raise (ServiceValidationError
                   ("Invalid type for knx2.send service: " +:+ attr_type))
      | Some transcoder =>
          try_except (lift_result (to_knx2 transcoder attr_payload))
            (λ err,
               match err with
               | ConversionError _ =>
                   Some (raise (ServiceValidationError
                     ("Invalid payload for knx2.send service: " +:+ exn_str err)))
               | _ => None
               end)
      end
  | send_raw _ (inl attr_payload) _ => lift_result (DPTBinary_init attr_payload)
  | send_raw _ (inr attr_payload) _ => mret (DPTArray attr_payload)
  end.

(** [Telegram(destination_address=..., payload=..., source_address=...)] *)
Definition new_telegram (destination : DeviceGroupAddress) (payload : APCI)
    (source : TelegramAddress) : Telegram :=
  {| destination_address := GroupDestination destination;
     direction := default_direction;
     payload := payload;
     source_address := source |}.

(** [GroupValueResponse(payload) if attr_response else GroupValueWrite(payload)] *)
Definition send_apci (payload : DPTPayload) (attr_response : bool) : APCI :=
  if attr_response then GroupValueResponse (Some payload)
  else GroupValueWrite (Some payload).

(** The body of the sending loop, for one address. *)
Definition send_telegram (payload : DPTPayload) (attr_response : bool)
    (address : string) : M Env unit :=
  source ← gets (λ e, xknx_current_address (self e));
  telegrams_put
    (new_telegram (parse_device_group_address address)
       (send_apci payload attr_response) source).

Definition service_send_to_knx2_bus (call : SendData) : M HomeAssistant unit :=
  with_knx2_module
    (payload ← send_payload call;
     for_each (send_address call) (send_telegram payload (send_response call))).

Definition service_read_to_knx2_bus (address : list string) : M HomeAssistant unit :=
  with_knx2_module
    (for_each address (λ address,
       source ← gets (λ e, xknx_current_address (self e));
       telegrams_put
         (new_telegram (parse_device_group_address address) GroupValueRead
            source))).

(** [l.remove(x)]: the list without the first occurrence of [x], [None]
    standing for the [ValueError] raised when there is none. *)
Fixpoint list_remove `{EqDecision A} (x : A) (l : list A) : option (list A) :=
  match l with
  | [] => None
  | y :: l' => if decide (x = y) then Some l' else (y ::.) <$> list_remove x l'
  end.

(** [call.data] of the event_register service. *)
Record EventRegisterData := {
  event_address : list string;
  event_type : option string;
  event_remove : bool;
}.

(** The body of the removing loop, for one group address. *)
Definition event_remove_address (group_address : DeviceGroupAddress) : M Env unit :=
  try_except
    (subscribed ← gets (λ e, group_addresses (knx2_event_callback (self e)));
     match list_remove group_address subscribed with
     | Some l => update_self (set_group_addresses (λ _, l))
     | None => raise (ValueError "list.remove(x): x not in list")
     end)
    (λ err,
       match err with
       | ValueError _ =>
           Some (_LOGGER (warning_could_not_remove_event
                            (address_str (GroupDestination group_address))))
       | _ => None
       end);;
  transcoders ← gets (λ e, group_address_transcoder (self e));
  if decide (is_Some (transcoders !! group_address))
  then update_self (set_group_address_transcoder (delete group_address))
  else mret ().

(** The body of the adding loop, for one group address. *)
Definition event_add_address (group_address : DeviceGroupAddress) : M Env unit :=
  subscribed ← gets (λ e, group_addresses (knx2_event_callback (self e)));
  if decide (group_address ∈ subscribed) then mret ()
  else
    update_self (set_group_addresses (λ l, l ++ [group_address]));;
    _LOGGER (debug_registered_event (address_str (GroupDestination group_address))).

(** [(dpt := call.data.get(CONF_TYPE)) and (transcoder := parse_transcoder(dpt))]:
    a missing or empty type is falsy. *)
Definition event_transcoder (dpt : option string) : option Transcoder :=
  match dpt with
  | None => None
  | Some dpt => if decide (dpt = "") then None else parse_transcoder dpt
  end.

Definition service_event_register_modify (call : EventRegisterData)
    : M HomeAssistant unit :=
  with_knx2_module
    (let group_addresses := parse_device_group_address <$> event_address call in
     if event_remove call then
       for_each group_addresses event_remove_address
     else
       match event_transcoder (event_type call) with
       | Some transcoder =>
           update_self (set_group_address_transcoder (λ d,
             foldl (λ d _address, <[_address := transcoder]> d) d group_addresses))
       | None => mret ()
       end;;
       for_each group_addresses event_add_address).

(** [call.data] of the exposure_register service; [exposure_data_name] stands for
    the rest of the exposure's configuration, which names its device. *)
Record ExposureData := {
  exposure_data_address : string;
  exposure_data_remove : bool;
  exposure_data_name : string;
}.

(** The exposure made for [config] when [created] exposure objects exist. *)
Definition new_exposure (config : ExposureData) (created : nat) : Exposure :=
  {| exposure_id := created;
     exposure_address := exposure_data_address config;
     device_name := exposure_data_name config |}.

(** Modelled from the spec: [create_knx2_exposure] of expose.py, which is not
    under src/.  An exposure is "an outbound-only binding that mirrors an
    application-side value onto the bus", and registering adds "a live
    outbound exposure binding": a new exposure object is made for the
    configuration and attached. *)
Definition create_knx2_exposure (config : ExposureData) : M Env Exposure :=
  created ← gets (λ e, exposures_created (self e));
  let exposure := new_exposure config created in
  update_self (set_xknx_exposures (λ l, l ++ [exposure])
                 (exposure_created exposure) (S created));;
  mret exposure.

#[global] Instance Exposure_eq_dec : EqDecision Exposure.
Proof. solve_decision. Defined.

(** Modelled from the spec: [async_remove] of the exposure classes of
    expose.py, which is not under src/: the live binding is removed. *)
Definition async_remove (exposure : Exposure) : M Env unit :=
  created ← gets (λ e, exposures_created (self e));
  update_self (set_xknx_exposures (filter (λ x, x ≠ exposure))
                 (exposure_removed exposure) created).

Definition service_exposure_register_modify (call : ExposureData)
    : M HomeAssistant unit :=
  with_knx2_module
    (let group_address := exposure_data_address call in
     exposures ← gets (λ e, service_exposures (self e));
     if exposure_data_remove call then
       match exposures !! group_address with
       | None =>
           raise (ServiceValidationError
             ("Could not find exposure for '" +:+ group_address +:+ "' to remove."))
       | Some removed_exposure =>
           update_self (set_service_exposures (delete group_address));;
           async_remove removed_exposure
       end
     else
       match exposures !! group_address with
       | Some replaced_exposure =>
           update_self (set_service_exposures (delete group_address));;
           _LOGGER (warning_replacing_exposure group_address
                      (device_name replaced_exposure));;
           async_remove replaced_exposure
       | None => mret ()
       end;;
       exposure ← create_knx2_exposure call;
       update_self (set_service_exposures (<[group_address := exposure]>));;
       _LOGGER (debug_registered_exposure group_address (device_name exposure))).

(** The invariant of the service-exposure map: the exposures attached
    through the service are distinct objects made earlier, each is the
    map's entry for its own address, and the map holds nothing else. *)
Definition exposures_consistent (m : KNX2Module) : Prop :=
  NoDup (xknx_exposures m)
  ∧ (∀ x, x ∈ xknx_exposures m → exposure_id x < exposures_created m)
  ∧ (∀ x, x ∈ xknx_exposures m →
          service_exposures m !! exposure_address x = Some x)
  ∧ (∀ a x, service_exposures m !! a = Some x →
            exposure_address x = a ∧ x ∈ xknx_exposures m).

(** [hass.config_entries.async_reload(entry_id)] then the reloaded event. *)
Definition service_reload_integration : M HomeAssistant unit :=
  with_knx2_module
    (entry ← gets (λ e, entry_id (self e));
     update_hass (set_reloaded (λ l, l ++ [entry]));;
     async_fire event_reloaded).

(** ** The websocket decorator [provide_knx2] (src/websocket.py) *)

(** [websocket_api.const.ERR_HOME_ASSISTANT_ERROR] *)
Definition ERR_HOME_ASSISTANT_ERROR : string := "home_assistant_error".

(** A websocket command message, with its ["id"]. *)
Record WsCommand := {
  ws_id : nat;
  ws_type : string;
}.

Definition _send_not_loaded_error (msg_id : nat) : M HomeAssistant unit :=
  modify (set_connection (λ l,
    l ++ [send_error msg_id ERR_HOME_ASSISTANT_ERROR "KNX2 integration not loaded."])).

(** [with_knx2], the wrapper the decorator returns (the coroutine and the
    plain variant differ only in awaiting [func]): a [KeyError] on
    [hass.data[KNX2_MODULE_KEY]] sends the error and returns, else [func]
    runs with the module. *)
Definition provide_knx2 (func : WsCommand → M Env unit) (msg : WsCommand)
    : M HomeAssistant unit := λ h,
  match data h !! KNX2_MODULE_KEY with
  | None => _send_not_loaded_error (ws_id msg) h
  | Some knx2 => on_module knx2 (func msg) h
  end.

(** The administrative operations: the five services registered by
    [register_knx2_services] and the websocket commands wrapped in
    [provide_knx2]. *)
Inductive AdminOperation :=
| op_send (call : SendData)
| op_read (address : list string)
| op_event_register (call : EventRegisterData)
| op_exposure_register (call : ExposureData)
| op_reload
| op_websocket (func : WsCommand → M Env unit) (msg : WsCommand).

Definition run_operation (op : AdminOperation) : M HomeAssistant unit :=
  match op with
  | op_send call => service_send_to_knx2_bus call
  | op_read address => service_read_to_knx2_bus address
  | op_event_register call => service_event_register_modify call
  | op_exposure_register call => service_exposure_register_modify call
  | op_reload => service_reload_integration
  | op_websocket func msg => provide_knx2 func msg
  end.

End Model.

(** ** The entities that restore their state *)

(** [homeassistant.const] *)
Definition STATE_ON : string := "on".
Definition STATE_UNKNOWN : string := "unknown".
Definition STATE_UNAVAILABLE : string := "unavailable".

(** What the entities use of Python's [datetime] module, of
    [homeassistant.util.dt] and of [xknx]; a [None] of the two parsers
    stands for the [ValueError] they raise on a string that is not in ISO
    format. *)
Class DateLibrary := {
  dt_date : Type;
  datetime : Type;
  XKNXDate : Type;
  XKNXDateTime : Type;
  date_fromisoformat : string → option dt_date;
  datetime_fromisoformat : string → option datetime;
  (** [.astimezone(dt_util.get_default_time_zone())] *)
  astimezone_default : datetime → datetime;
  XKNXDate_from_date : dt_date → XKNXDate;
  XKNXDateTime_from_datetime : datetime → XKNXDateTime;
  (** [to_knx] of the remote value of a text, a date and a datetime
      device: the payload, or the exception raised, which is a
      [ConversionError] for a value the type of the device cannot carry
      (a text that is too long, a date out of its range). *)
  text_to_knx : string → Exn + DPTPayload;
  date_to_knx : XKNXDate → Exn + DPTPayload;
  datetime_to_knx : XKNXDateTime → Exn + DPTPayload;
}.

Section Entities.
Context `{DateLibrary}.

(** A value held by a device's remote value, by the type of the device. *)
Inductive DeviceValue :=
| switch_value (on : bool)
| text_value (text : string)
| date_value (d : XKNXDate)
| datetime_value (d : XKNXDateTime).

(** The remote value of an [xknx] device the entities act on
    ([_device.switch] of a switch, [_device.remote_value] of the others):
    [readable] says that it has a state address to read from, [value] is
    [None] until a value is known. *)
Record RemoteValue := {
  readable : bool;
  value : option DeviceValue;
}.

(** An entity with its device: whether the entity's update callback is
    registered on the device, and whether the device is among
    [xknx.devices]. *)
Record Entity := {
  _device : RemoteValue;
  device_updated_cb : bool;
  in_xknx_devices : bool;
}.

(** The assignment [self._value = value] with which the setter of
    [RemoteValue.value] ends. *)
Definition set_value (v : DeviceValue) (e : Entity) : Entity :=
  {| _device := {| readable := readable (_device e); value := Some v |};
     device_updated_cb := device_updated_cb e;
     in_xknx_devices := in_xknx_devices e |}.

(** [RemoteValue.to_knx] by the type of the device; the remote value of a
    switch encodes both booleans. *)
Definition RemoteValue_to_knx (v : DeviceValue) : Exn + DPTPayload :=
  match v with
  | switch_value on => inr (DPTBinary (if on then 1 else 0)%Z)
  | text_value text => text_to_knx text
  | date_value d => date_to_knx d
  | datetime_value d => datetime_to_knx d
  end.

(** The setter of the property [RemoteValue.value], through which
    [update_value] sets too: it encodes the value first, so that a value
    the device cannot carry is refused with the exception of the encoder,
    and stores it only then. *)
Definition RemoteValue_value_setter (v : DeviceValue) (e : Entity)
    : Exn + Entity :=
  match RemoteValue_to_knx v with
  | inl err => inl err
  | inr _ => inr (set_value v e)
  end.

(** [_Knx2EntityBase.async_added_to_hass] (src/entity.py), which every
    override below calls first through [super()]. *)
Definition _Knx2EntityBase_async_added_to_hass (e : Entity) : Entity :=
  {| _device := _device e; device_updated_cb := true; in_xknx_devices := true |}.

(** [state not in (STATE_UNKNOWN, STATE_UNAVAILABLE)] *)
Definition known_state (state : string) : bool :=
  bool_decide (state ∉ [STATE_UNKNOWN; STATE_UNAVAILABLE]).

(** [_Knx2Switch.async_added_to_hass] (src/switch.py); [last_state] is the
    state of what [async_get_last_state()] returns, if it returns one. *)
Definition _Knx2Switch_async_added_to_hass (e : Entity) (last_state : option string)
    : Exn + Entity :=
  let e := _Knx2EntityBase_async_added_to_hass e in
  if negb (readable (_device e)) then
    match last_state with
    | Some state =>
        if known_state state
        then RemoteValue_value_setter
               (switch_value (bool_decide (state = STATE_ON))) e
        else inr e
    | None => inr e
    end
  else inr e.

(** [KNX2Text.async_added_to_hass] (src/text.py) *)
Definition KNX2Text_async_added_to_hass (e : Entity) (last_state : option string)
    : Exn + Entity :=
  let e := _Knx2EntityBase_async_added_to_hass e in
  if negb (readable (_device e)) then
    match last_state with
    | Some state =>
        if known_state state
        then RemoteValue_value_setter (text_value state) e
        else inr e
    | None => inr e
    end
  else inr e.

(** [KNX2DateEntity.async_added_to_hass] (src/date.py) *)
Definition KNX2DateEntity_async_added_to_hass (e : Entity) (last_state : option string)
    : Exn + Entity :=
  let e := _Knx2EntityBase_async_added_to_hass e in
  if negb (readable (_device e)) then
    match last_state with
    | Some state =>
        if known_state state then
          match date_fromisoformat state with
          | Some d =>
              RemoteValue_value_setter (date_value (XKNXDate_from_date d)) e
          | None => inl (ValueError ("Invalid isoformat string: '" +:+ state +:+ "'"))
          end
        else inr e
    | None => inr e
    end
  else inr e.

(** [KNX2DateTimeEntity.async_added_to_hass] (src/datetime.py) *)
Definition KNX2DateTimeEntity_async_added_to_hass (e : Entity)
    (last_state : option string) : Exn + Entity :=
  let e := _Knx2EntityBase_async_added_to_hass e in
  if negb (readable (_device e)) then
    match last_state with
    | Some state =>
        if known_state state then
          match datetime_fromisoformat state with
          | Some d =>
              RemoteValue_value_setter
                (datetime_value
                   (XKNXDateTime_from_datetime (astimezone_default d)))
                e
          | None => inl (ValueError ("Invalid isoformat string: '" +:+ state +:+ "'"))
          end
        else inr e
    | None => inr e
    end
  else inr e.

(** [KNX2BinarySensor.async_added_to_hass] (src/binary_sensor.py), which
    restores whether or not the state address is readable;
    [remote_value.update_value] sets the value. *)
Definition KNX2BinarySensor_async_added_to_hass (e : Entity)
    (last_state : option string) : Exn + Entity :=
  let e := _Knx2EntityBase_async_added_to_hass e in
  match last_state with
  | Some state =>
      if known_state state
      then RemoteValue_value_setter
             (switch_value (bool_decide (state = STATE_ON))) e
      else inr e
  | None => inr e
  end.

(** The entity classes that derive from [RestoreEntity], the only ones for
    which the host keeps a last state. *)
Inductive RestoreEntityClass :=
| _Knx2Switch
| KNX2Text
| KNX2DateEntity
| KNX2DateTimeEntity
| KNX2BinarySensor.

(** Method dispatch on the entity's class. *)
Definition async_added_to_hass (c : RestoreEntityClass)
    : Entity → option string → Exn + Entity :=
  match c with
  | _Knx2Switch => _Knx2Switch_async_added_to_hass
  | KNX2Text => KNX2Text_async_added_to_hass
  | KNX2DateEntity => KNX2DateEntity_async_added_to_hass
  | KNX2DateTimeEntity => KNX2DateTimeEntity_async_added_to_hass
  | KNX2BinarySensor => KNX2BinarySensor_async_added_to_hass
  end.

(** A persisted state read as a value of the device of class [c]: the
    reading the specification calls the seed value.  A state of a date or
    datetime entity has one when it is in ISO format. *)
Definition seed_value (c : RestoreEntityClass) (state : string) : option DeviceValue :=
  match c with
  | _Knx2Switch | KNX2BinarySensor =>
      Some (switch_value (bool_decide (state = "on")))
  | KNX2Text => Some (text_value state)
  | KNX2DateEntity =>
      d ← date_fromisoformat state; Some (date_value (XKNXDate_from_date d))
  | KNX2DateTimeEntity =>
      d ← datetime_fromisoformat state;
      Some (datetime_value (XKNXDateTime_from_datetime (astimezone_default d)))
  end.

End Entities.

(** ** A concrete installation

    Two transcoders in the manner of [xknx]'s one-bit switch and one-byte
    percentage types, address filters as ranges of raw group addresses, and a
    loaded module with one exact binding under one overlapping filter.  The
    examples below evaluate the model on it. *)

Inductive SampleTranscoder := DPTSwitch | DPTScaling.

Definition sample_from_knx (t : SampleTranscoder) (p : DPTPayload) : Exn + Z :=
  match t, p with
  | DPTSwitch, DPTBinary v =>
      if decide (v = 0 ∨ v = 1)%Z then inr v
      else inl (ConversionError "Could not parse DPTSwitch")
  | DPTScaling, DPTArray [b] =>
      if decide (0 ≤ b ≤ 255)%Z then inr ((b * 100 + 127) `div` 255)%Z
      else inl (ConversionError "Could not parse DPTScaling")
  | _, _ => inl (CouldNotParseTelegram "Invalid payload")
  end.

Definition sample_transcoder_name (t : SampleTranscoder) : string :=
  match t with
  | DPTSwitch => "DPTSwitch"
  | DPTScaling => "DPTScaling"
  end.

(** As the classes of [xknx], the two transcoders have no attribute
    [to_knx2]: evaluating [transcoder.to_knx2(value)] raises. *)
Definition sample_to_knx2 (t : SampleTranscoder) (v : Z) : Exn + DPTPayload :=
  inl (AttributeError ("type object '" +:+ sample_transcoder_name t
                       +:+ "' has no attribute 'to_knx2'")).

Definition sample_parse_transcoder (dpt : string) : option SampleTranscoder :=
  if decide (dpt = "switch") then Some DPTSwitch
  else if decide (dpt = "percent") then Some DPTScaling
  else None.

(** A filter [(lo, hi)] matches the group addresses with a raw value in
    the range. *)
Definition sample_filter_match (f : N * N) (a : DeviceGroupAddress) : bool :=
  match a with
  | GroupAddress raw => bool_decide (f.1 ≤ raw ≤ f.2)%N
  | InternalGroupAddress _ => false
  end.

(** The value of a string of decimal digits. *)
Fixpoint digits_value (acc : N) (s : string) : option N :=
  match s with
  | EmptyString => Some acc
  | String c s' =>
      let d := Ascii.N_of_ascii c in
      if decide (48 ≤ d ≤ 57)%N then digits_value (acc * 10 + (d - 48))%N s'
      else None
  end.

(** Free-format group addresses are written as numbers; every other
    accepted string names an internal group address. *)
Definition sample_parse_address (s : string) : DeviceGroupAddress :=
  match s with
  | EmptyString => InternalGroupAddress s
  | _ => match digits_value 0 s with
         | Some raw => GroupAddress raw
         | None => InternalGroupAddress s
         end
  end.

Definition sample_address_str (a : TelegramAddress) : string :=
  match a with
  | GroupDestination (GroupAddress raw) => pretty raw
  | GroupDestination (InternalGroupAddress s) => s
  | IndividualAddress raw => "device " +:+ pretty raw
  end.

Definition sample : Collaborators :=
  {| Transcoder := SampleTranscoder;
     Value := Z;
     AddressFilter := N * N;
     transcoder_name := sample_transcoder_name;
     from_knx := sample_from_knx;
     to_knx2 := sample_to_knx2;
     parse_transcoder := sample_parse_transcoder;
     filter_match := sample_filter_match;
     parse_device_group_address := sample_parse_address;
     address_str := sample_address_str;
     direction_value := λ d, match d with
                             | INCOMING => "Incoming"
                             | OUTGOING => "Outgoing"
                             end;
     default_direction := OUTGOING;
     KNX2_MODULE_KEY := "knx2" |}.

(** Group address 1/2/5, and the filter 1/2/* that covers it. *)
Definition ga_1_2_5 : DeviceGroupAddress := GroupAddress 2565.
Definition filter_1_2 : N * N := (2560, 2815)%N.

(** The filter table and the direct mapping of the sample module: 1/2/* is
    bound to the percentage type, 1/2/5 itself to the switch type. *)
Definition sample_filters : list (@AddressFilter sample * @Transcoder sample) :=
  [(filter_1_2, DPTScaling)].

Definition sample_bindings : gmap DeviceGroupAddress (@Transcoder sample) :=
  {[ ga_1_2_5 := DPTSwitch ]}.

Definition sample_callback : @Callback sample :=
  {| address_filters := ([filter_1_2] : list (@AddressFilter sample));
     group_addresses := [ga_1_2_5] |}.

Definition sample_module : @KNX2Module sample :=
  {| entry_id := "entry";
     service_exposures := ∅;
     _address_filter_transcoder := sample_filters;
     group_address_transcoder := sample_bindings;
     knx2_event_callback := sample_callback;
     xknx_telegrams := [];
     xknx_current_address := IndividualAddress 4353;
     xknx_exposures := [];
     exposure_calls := [];
     exposures_created := 0 |}.

Definition sample_hass : @HomeAssistant sample :=
  {| data := {[ "knx2" := sample_module ]};
     bus := []; reloaded := []; logger := []; connection := [] |}.

Definition sample_env : @Env sample :=
  {| self := sample_module; hass := sample_hass |}.

(** A host in which the integration is not loaded. *)
Definition unloaded_hass : @HomeAssistant sample :=
  {| data := ∅; bus := []; reloaded := []; logger := []; connection := [] |}.

(** A write of [value] to 1/2/5 arriving from device 1.1.7. *)
Definition write_1_2_5 (value : DPTPayload) : Telegram :=
  {| destination_address := GroupDestination ga_1_2_5;
     direction := INCOMING;
     payload := GroupValueWrite (Some value);
     source_address := IndividualAddress 4359 |}.

(** A read request for 1/2/5. *)
Definition read_1_2_5 : Telegram :=
  {| destination_address := GroupDestination ga_1_2_5;
     direction := INCOMING;
     payload := GroupValueRead;
     source_address := IndividualAddress 4359 |}.

(** A response from 0/0/7, an address neither bound nor matched. *)
Definition response_0_0_7 : Telegram :=
  {| destination_address := GroupDestination (GroupAddress 7);
     direction := INCOMING;
     payload := GroupValueResponse (Some (DPTArray [12; 34]%Z));
     source_address := IndividualAddress 4359 |}.

(** Dates as ISO strings of the form YYYY-MM-DD, read only by their length
    and separators.  As in [xknx], a text device carries at most 14
    characters and a date device the years 1990 to 2089; a datetime device
    carries the years 1900 to 2099 here.  The payloads, which the setter
    does not keep, are left empty. *)
Definition sample_text_to_knx (text : string) : Exn + DPTPayload :=
  if decide (String.length text ≤ 14)%nat
  then inr (DPTArray [])
  else inl (ConversionError "Could not serialize DPTString").

Definition sample_date_to_knx (d : string) : Exn + DPTPayload :=
  if decide (String.substring 0 3 d
             ∈ ["199"; "200"; "201"; "202"; "203"; "204"; "205"; "206";
                "207"; "208"])
  then inr (DPTArray [])
  else inl (ConversionError "Could not serialize DPTDate").

Definition sample_datetime_to_knx (d : string) : Exn + DPTPayload :=
  if decide (String.substring 0 2 d ∈ ["19"; "20"])
  then inr (DPTArray [])
  else inl (ConversionError "Could not serialize DPTDateTime").

Definition sample_dates : DateLibrary :=
  {| dt_date := string;
     datetime := string;
     XKNXDate := string;
     XKNXDateTime := string;
     date_fromisoformat := λ s,
       if decide (String.length s = 10 ∧ String.substring 4 1 s = "-"
                  ∧ String.substring 7 1 s = "-")
       then Some s else None;
     datetime_fromisoformat := λ s,
       if decide (String.length s = 19 ∧ String.substring 10 1 s = "T")
       then Some s else None;
     astimezone_default := id;
     XKNXDate_from_date := id;
     XKNXDateTime_from_datetime := id;
     text_to_knx := sample_text_to_knx;
     date_to_knx := sample_date_to_knx;
     datetime_to_knx := sample_datetime_to_knx |}.

(** A module with one exposure registered for 1/2/5 through the service. *)
Definition sample_exposure : Exposure :=
  {| exposure_id := 0; exposure_address := "2565"; device_name := "sun" |}.

Definition exposing_module : @KNX2Module sample :=
  {| entry_id := "entry";
     service_exposures := {[ "2565" := sample_exposure ]};
     _address_filter_transcoder := sample_filters;
     group_address_transcoder := sample_bindings;
     knx2_event_callback := sample_callback;
     xknx_telegrams := [];
     xknx_current_address := IndividualAddress 4353;
     xknx_exposures := [sample_exposure];
     exposure_calls := [exposure_created sample_exposure];
     exposures_created := 1 |}.

Definition exposing_hass : @HomeAssistant sample :=
  {| data := {[ "knx2" := exposing_module ]};
     bus := []; reloaded := []; logger := []; connection := [] |}.

(** An entity just made, on a device without a state address to read. *)
Definition sample_entity : @Entity sample_dates :=
  {| _device := {| readable := false; value := None |};
     device_updated_cb := false;
     in_xknx_devices := false |}.

(** * Further parts of the code

    Definitions for the properties proved in the second half of the file. *)

Section ServiceModel.
Context `{Collaborators}.

(** The module after the binding step of an adding call: the listed
    addresses bound to the transcoder of the call's type, if it has one. *)
Definition bound_by_call (call : EventRegisterData) (m : KNX2Module) : KNX2Module :=
  match event_transcoder (event_type call) with
  | Some transcoder =>
      set_group_address_transcoder (λ d,
        foldl (λ d _address, <[_address := transcoder]> d) d
          (parse_device_group_address <$> event_address call)) m
  | None => m
  end.

(** The services that act on the module itself: send, read,
    event_register and exposure_register. *)
Definition is_module_service (op : AdminOperation) : bool :=
  match op with
  | op_send _ | op_read _ | op_event_register _ | op_exposure_register _ => true
  | op_reload | op_websocket _ _ => false
  end.

(** The host after the operations [ops], called one after the other; an
    operation that raises ends that call only. *)
Definition after_operations (ops : list AdminOperation) (h : HomeAssistant)
    : HomeAssistant :=
  foldl (λ h op, (run_operation op h).2) h ops.

(** The two invariants of the module the services rely on. *)
Definition module_invariant (m : KNX2Module) : Prop :=
  NoDup (group_addresses (knx2_event_callback m)) ∧ exposures_consistent m.

(** What the services leave alone ([h], [m] before, [h'], [m'] after):
    the entry, the filter table and the filters of the callback, the
    interface's address, the event bus, the reloads and the websocket
    connection; the telegram queue and the log only grow. *)
Definition service_frame (h : HomeAssistant) (m : KNX2Module)
    (h' : HomeAssistant) (m' : KNX2Module) : Prop :=
  entry_id m' = entry_id m
  ∧ _address_filter_transcoder m' = _address_filter_transcoder m
  ∧ address_filters (knx2_event_callback m')
    = address_filters (knx2_event_callback m)
  ∧ xknx_current_address m' = xknx_current_address m
  ∧ xknx_telegrams m `prefix_of` xknx_telegrams m'
  ∧ bus h' = bus h
  ∧ reloaded h' = reloaded h
  ∧ connection h' = connection h
  ∧ logger h `prefix_of` logger h'.

End ServiceModel.


(** ** The event callback of the configuration (src/__init__.py) *)

Section ConstructionModel.
Context `{Collaborators} {filter_eq_dec : EqDecision AddressFilter}.

(** [d[k] = v] on a dictionary held as its items in insertion order: the
    value of a key that is present is replaced where it stands, a new key
    goes to the end.  The elements of [AddressFilter] are the filter
    objects: [xknx] gives the class no equality of its own, so two filters
    are the same key exactly when they are the same object. *)
Fixpoint dict_set {K V} `{EqDecision K} (k : K) (v : V) (items : list (K * V))
    : list (K * V) :=
  match items with
  | [] => [(k, v)]
  | (k', v') :: items' =>
      if decide (k = k') then (k', v) :: items'
      else (k', v') :: dict_set k v items'
  end.

(** [d.update({k: v for k in keys})] *)
Definition dict_update_all {K V} `{EqDecision K} (keys : list K) (v : V)
    (items : list (K * V)) : list (K * V) :=
  foldl (λ items k, dict_set k v items) items keys.

(** One entry of [config_yaml[CONF_EVENT]]: [filter_set_filters] is
    [list(map(AddressFilter, filter_set[KNX2_ADDRESS]))], the filter
    objects made from its patterns, and [filter_set_type] is
    [filter_set.get(CONF_TYPE)].  Every pattern gets an object of its own,
    so no object occurs twice in a configuration. *)
Record EventFilterSet := {
  filter_set_filters : list AddressFilter;
  filter_set_type : option string;
}.

(** One turn of the loop of [register_event_callback], on the local
    [address_filters] and on [self._address_filter_transcoder]. *)
Definition register_filter_set
    (acc : list AddressFilter * list (AddressFilter * Transcoder))
    (filter_set : EventFilterSet)
    : list AddressFilter * list (AddressFilter * Transcoder) :=
  let _filters := filter_set_filters filter_set in
  (acc.1 ++ _filters,
   match event_transcoder (filter_set_type filter_set) with
   | Some transcoder => dict_update_all _filters transcoder acc.2
   | None => acc.2
   end).

(** [KNX2Module.register_event_callback]: the callback registered with
    the telegram queue, and the module with its filter table filled. *)
Definition register_event_callback (config_event : list EventFilterSet)
    (m : KNX2Module) : Callback * KNX2Module :=
  let acc := foldl register_filter_set ([], _address_filter_transcoder m)
               config_event in
  ({| address_filters := acc.1; group_addresses := [] |},
   set_address_filter_transcoder (λ _, acc.2) m).

(** The bindings a filter set asks for: each of its filters with the
    transcoder of its type, none when the type is missing, empty or names
    no transcoder. *)
Definition filter_set_bindings (filter_set : EventFilterSet)
    : list (AddressFilter * Transcoder) :=
  match event_transcoder (filter_set_type filter_set) with
  | Some transcoder => (λ _filter, (_filter, transcoder))
                         <$> filter_set_filters filter_set
  | None => []
  end.

End ConstructionModel.

(** ** The connection configuration (src/__init__.py) *)

(** A value of the config entry's data: [None], a boolean, an integer or
    a string, which is what the configuration flow stores there. *)
Inductive ConfigValue :=
| cv_none
| cv_bool (b : bool)
| cv_int (n : Z)
| cv_str (s : string).

#[global] Instance ConfigValue_eq_dec : EqDecision ConfigValue.
Proof. solve_decision. Defined.

(** Code that only returns or raises. *)
#[global] Instance Exn_ret : MRet (sum Exn) := λ A a, inr a.

#[global] Instance Exn_bind : MBind (sum Exn) := λ A B k c,
  match c with
  | inl err => inl err
  | inr a => k a
  end.

(** The members of [xknx.io.ConnectionType] the code names. *)
Inductive ConnectionType :=
| ROUTING
| ROUTING_SECURE
| TUNNELING
| TUNNELING_TCP
| TUNNELING_TCP_SECURE.

#[global] Instance ConnectionType_eq_dec : EqDecision ConnectionType.
Proof. solve_decision. Defined.

(** The keyword arguments of a call of [SecureConfig], under the names the
    code gives them: [None] for an argument the call does not pass. *)
Record SecureConfig_kwargs := {
  user_id : option ConfigValue;
  user_password : option ConfigValue;
  device_authentication_password : option ConfigValue;
  knx2keys_password : option ConfigValue;
  knx2keys_file_path : option ConfigValue;
  backbone_key : option ConfigValue;
  latency_ms : option ConfigValue;
}.

(** The keys and connection types of const.py and of
    [homeassistant.const], [hass.config.path(STORAGE_DIR, filename)], and
    the class [SecureConfig] of [xknx.io] with its constructor. *)
Class ConnectionConstants := {
  CONF_KNX2_CONNECTION_TYPE : string;
  CONF_KNX2_KNX2KEY_FILENAME : string;
  CONF_KNX2_KNX2KEY_PASSWORD : string;
  CONF_KNX2_INDIVIDUAL_ADDRESS : string;
  CONF_KNX2_MCAST_GRP : string;
  CONF_KNX2_MCAST_PORT : string;
  CONF_KNX2_LOCAL_IP : string;
  CONF_KNX2_ROUTE_BACK : string;
  CONF_HOST : string;
  CONF_PORT : string;
  CONF_KNX2_SECURE_USER_ID : string;
  CONF_KNX2_SECURE_USER_PASSWORD : string;
  CONF_KNX2_SECURE_DEVICE_AUTHENTICATION : string;
  CONF_KNX2_ROUTING_BACKBONE_KEY : string;
  CONF_KNX2_ROUTING_SYNC_LATENCY_TOLERANCE : string;
  CONF_KNX2_ROUTING : string;
  CONF_KNX2_TUNNELING : string;
  CONF_KNX2_TUNNELING_TCP : string;
  CONF_KNX2_TUNNELING_TCP_SECURE : string;
  CONF_KNX2_ROUTING_SECURE : string;
  storage_path : ConfigValue → string;
  SecureConfig : Type;
  (** What the call [SecureConfig(...)] with these keyword arguments
      gives: the object, or the exception the constructor raises.  The
      constructor of [xknx] names its keyring parameters
      [knxkeys_password] and [knxkeys_file_path]; as any Python function
      it raises a [TypeError] for a keyword that is none of its
      parameters. *)
  SecureConfig_init : SecureConfig_kwargs → Exn + SecureConfig;
}.

Section ConnectionModel.
Context `{ConnectionConstants}.

(** The object [ConnectionConfig(...)] makes, given by the keyword
    arguments of the call: [None] for an argument the call does not
    pass. *)
Record ConnectionConfig := {
  connection_type : option ConnectionType;
  individual_address : option ConfigValue;
  multicast_group : option ConfigValue;
  multicast_port : option ConfigValue;
  gateway_ip : option ConfigValue;
  gateway_port : option ConfigValue;
  local_ip : option ConfigValue;
  route_back : option ConfigValue;
  auto_reconnect : option ConfigValue;
  secure_config : option SecureConfig;
  threaded : option ConfigValue;
}.

(** [entry.data[key]] *)
Definition entry_item (entry_data : gmap string ConfigValue) (key : string)
    : Exn + ConfigValue :=
  match entry_data !! key with
  | Some v => inr v
  | None => inl (KeyError key)
  end.

(** [entry.data.get(key)] and [entry.data.get(key, default)] *)
Definition entry_get (entry_data : gmap string ConfigValue) (key : string)
    : ConfigValue :=
  default cv_none (entry_data !! key).

Definition entry_get_default (entry_data : gmap string ConfigValue)
    (key : string) (d : ConfigValue) : ConfigValue :=
  default d (entry_data !! key).

(** [_knx2keys_file]: the path of the key file in the storage directory
    when a file name is configured, else [None]. *)
Definition knx2keys_file (entry_data : gmap string ConfigValue) : ConfigValue :=
  if decide (entry_get entry_data CONF_KNX2_KNX2KEY_FILENAME ≠ cv_none)
  then cv_str (storage_path (entry_get entry_data CONF_KNX2_KNX2KEY_FILENAME))
  else cv_none.

(** The keyword arguments
    [knx2keys_password=..., knx2keys_file_path=_knx2keys_file], which every
    call of [SecureConfig] in [connection_config] passes; three of the
    calls pass no other. *)
Definition keyring_kwargs (entry_data : gmap string ConfigValue)
    : SecureConfig_kwargs :=
  {| user_id := None;
     user_password := None;
     device_authentication_password := None;
     knx2keys_password := Some (entry_get entry_data CONF_KNX2_KNX2KEY_PASSWORD);
     knx2keys_file_path := Some (knx2keys_file entry_data);
     backbone_key := None;
     latency_ms := None |}.

(** [KNX2Module.connection_config] on [self.entry.data].  The arguments
    of a call are evaluated in the order they are written, so the
    [KeyError] of a missing key comes before the call of [SecureConfig]. *)
Definition connection_config (entry_data : gmap string ConfigValue)
    : Exn + ConnectionConfig :=
  _conn_type ← entry_item entry_data CONF_KNX2_CONNECTION_TYPE;
  if decide (_conn_type = cv_str CONF_KNX2_ROUTING) then
    _individual_address ← entry_item entry_data CONF_KNX2_INDIVIDUAL_ADDRESS;
    _multicast_group ← entry_item entry_data CONF_KNX2_MCAST_GRP;
    _multicast_port ← entry_item entry_data CONF_KNX2_MCAST_PORT;
    _secure_config ← SecureConfig_init (keyring_kwargs entry_data);
    mret {| connection_type := Some ROUTING;
            individual_address := Some _individual_address;
            multicast_group := Some _multicast_group;
            multicast_port := Some _multicast_port;
            gateway_ip := None;
            gateway_port := None;
            local_ip := Some (entry_get entry_data CONF_KNX2_LOCAL_IP);
            route_back := None;
            auto_reconnect := Some (cv_bool true);
            secure_config := Some _secure_config;
            threaded := Some (cv_bool true) |}
  else if decide (_conn_type = cv_str CONF_KNX2_TUNNELING) then
    _gateway_ip ← entry_item entry_data CONF_HOST;
    _gateway_port ← entry_item entry_data CONF_PORT;
    _secure_config ← SecureConfig_init (keyring_kwargs entry_data);
    mret {| connection_type := Some TUNNELING;
            individual_address := None;
            multicast_group := None;
            multicast_port := None;
            gateway_ip := Some _gateway_ip;
            gateway_port := Some _gateway_port;
            local_ip := Some (entry_get entry_data CONF_KNX2_LOCAL_IP);
            route_back :=
              Some (entry_get_default entry_data CONF_KNX2_ROUTE_BACK
                      (cv_bool false));
            auto_reconnect := Some (cv_bool true);
            secure_config := Some _secure_config;
            threaded := Some (cv_bool true) |}
  else if decide (_conn_type = cv_str CONF_KNX2_TUNNELING_TCP) then
    _gateway_ip ← entry_item entry_data CONF_HOST;
    _gateway_port ← entry_item entry_data CONF_PORT;
    _secure_config ← SecureConfig_init (keyring_kwargs entry_data);
    mret {| connection_type := Some TUNNELING_TCP;
            individual_address := None;
            multicast_group := None;
            multicast_port := None;
            gateway_ip := Some _gateway_ip;
            gateway_port := Some _gateway_port;
            local_ip := None;
            route_back := None;
            auto_reconnect := Some (cv_bool true);
            secure_config := Some _secure_config;
            threaded := Some (cv_bool true) |}
  else if decide (_conn_type = cv_str CONF_KNX2_TUNNELING_TCP_SECURE) then
    _gateway_ip ← entry_item entry_data CONF_HOST;
    _gateway_port ← entry_item entry_data CONF_PORT;
    _secure_config ←
      SecureConfig_init
        {| user_id := Some (entry_get entry_data CONF_KNX2_SECURE_USER_ID);
           user_password :=
             Some (entry_get entry_data CONF_KNX2_SECURE_USER_PASSWORD);
           device_authentication_password :=
             Some (entry_get entry_data CONF_KNX2_SECURE_DEVICE_AUTHENTICATION);
           knx2keys_password :=
             Some (entry_get entry_data CONF_KNX2_KNX2KEY_PASSWORD);
           knx2keys_file_path := Some (knx2keys_file entry_data);
           backbone_key := None;
           latency_ms := None |};
    mret {| connection_type := Some TUNNELING_TCP_SECURE;
            individual_address := None;
            multicast_group := None;
            multicast_port := None;
            gateway_ip := Some _gateway_ip;
            gateway_port := Some _gateway_port;
            local_ip := None;
            route_back := None;
            auto_reconnect := Some (cv_bool true);
            secure_config := Some _secure_config;
            threaded := Some (cv_bool true) |}
  else if decide (_conn_type = cv_str CONF_KNX2_ROUTING_SECURE) then
    _individual_address ← entry_item entry_data CONF_KNX2_INDIVIDUAL_ADDRESS;
    _multicast_group ← entry_item entry_data CONF_KNX2_MCAST_GRP;
    _multicast_port ← entry_item entry_data CONF_KNX2_MCAST_PORT;
    _secure_config ←
      SecureConfig_init
        {| user_id := None;
           user_password := None;
           device_authentication_password := None;
           knx2keys_password :=
             Some (entry_get entry_data CONF_KNX2_KNX2KEY_PASSWORD);
           knx2keys_file_path := Some (knx2keys_file entry_data);
           backbone_key :=
             Some (entry_get entry_data CONF_KNX2_ROUTING_BACKBONE_KEY);
           latency_ms :=
             Some (entry_get entry_data
                     CONF_KNX2_ROUTING_SYNC_LATENCY_TOLERANCE) |};
    mret {| connection_type := Some ROUTING_SECURE;
            individual_address := Some _individual_address;
            multicast_group := Some _multicast_group;
            multicast_port := Some _multicast_port;
            gateway_ip := None;
            gateway_port := None;
            local_ip := Some (entry_get entry_data CONF_KNX2_LOCAL_IP);
            route_back := None;
            auto_reconnect := Some (cv_bool true);
            secure_config := Some _secure_config;
            threaded := Some (cv_bool true) |}
  else
    _secure_config ← SecureConfig_init (keyring_kwargs entry_data);
    mret {| connection_type := None;
            individual_address := None;
            multicast_group := None;
            multicast_port := None;
            gateway_ip := None;
            gateway_port := None;
            local_ip := None;
            route_back := None;
            auto_reconnect := Some (cv_bool true);
            secure_config := Some _secure_config;
            threaded := Some (cv_bool true) |}.

End ConnectionModel.

(** ** Further sample data

    Installations and inputs on which the properties of the second half of
    the file are evaluated. *)

(** A module without direct bindings whose filter table has three
    filters: 0/0/0-0/0/100 as switches, 1/2/* as percentages and, after it
    and overlapping it, 2000-3000 as switches. *)
Definition layered_filters : list (@AddressFilter sample * @Transcoder sample) :=
  [((0, 100)%N, DPTSwitch); (filter_1_2, DPTScaling); ((2000, 3000)%N, DPTSwitch)].

Definition layered_callback : @Callback sample :=
  {| address_filters :=
       ([(0, 100)%N; filter_1_2; (2000, 3000)%N] : list (@AddressFilter sample));
     group_addresses := [] |}.

Definition layered_module : @KNX2Module sample :=
  {| entry_id := "entry";
     service_exposures := ∅;
     _address_filter_transcoder := layered_filters;
     group_address_transcoder := ∅;
     knx2_event_callback := layered_callback;
     xknx_telegrams := [];
     xknx_current_address := IndividualAddress 4353;
     xknx_exposures := [];
     exposure_calls := [];
     exposures_created := 0 |}.

Definition layered_env : @Env sample :=
  {| self := layered_module;
     hass := {| data := {[ "knx2" := layered_module ]};
                bus := []; reloaded := []; logger := []; connection := [] |} |}.

(** A write of [value] to 1/2/6, and one to 0/0/7. *)
Definition write_1_2_6 (value : DPTPayload) : Telegram :=
  {| destination_address := GroupDestination (GroupAddress 2566);
     direction := INCOMING;
     payload := GroupValueWrite (Some value);
     source_address := IndividualAddress 4359 |}.

Definition write_0_0_7 (value : DPTPayload) : Telegram :=
  {| destination_address := GroupDestination (GroupAddress 7);
     direction := INCOMING;
     payload := GroupValueWrite (Some value);
     source_address := IndividualAddress 4359 |}.

(** A module that subscribes to 0/0/7 and binds it to the switch type;
    its one filter, 1/2/*, does not match that address. *)
Definition lonely_bindings : gmap DeviceGroupAddress (@Transcoder sample) :=
  {[ GroupAddress 7 := DPTSwitch ]}.

Definition lonely_callback : @Callback sample :=
  {| address_filters := ([filter_1_2] : list (@AddressFilter sample));
     group_addresses := [GroupAddress 7] |}.

Definition lonely_module : @KNX2Module sample :=
  {| entry_id := "entry";
     service_exposures := ∅;
     _address_filter_transcoder := sample_filters;
     group_address_transcoder := lonely_bindings;
     knx2_event_callback := lonely_callback;
     xknx_telegrams := [];
     xknx_current_address := IndividualAddress 4353;
     xknx_exposures := [];
     exposure_calls := [];
     exposures_created := 0 |}.

Definition lonely_hass : @HomeAssistant sample :=
  {| data := {[ "knx2" := lonely_module ]};
     bus := []; reloaded := []; logger := []; connection := [] |}.

(** Service calls, one after the other: a send, an event registration, the
    removal of an exposure that does not exist, which raises, and a
    read. *)
Definition sample_operations : list (@AdminOperation sample) :=
  [op_send (send_raw ["2565"] (inl 1%Z) false);
   op_event_register {| event_address := ["7"; "2565"];
                        event_type := Some "switch";
                        event_remove := false |};
   op_exposure_register {| exposure_data_address := "7";
                           exposure_data_remove := true;
                           exposure_data_name := "" |};
   op_read ["2565"]].

(** An entity whose device has a state address to read, and has read
    "off" from it. *)
Definition readable_entity : @Entity sample_dates :=
  {| _device := {| readable := true;
                   value := Some (@switch_value sample_dates false) |};
     device_updated_cb := false;
     in_xknx_devices := false |}.

(** Equality of the sample's filters. *)
#[global] Instance sample_filter_eq_dec : EqDecision (@AddressFilter sample).
Proof. unfold AddressFilter, sample. apply _. Defined.

(** An event configuration of three filter sets: 1000-3000 without a
    type, 0/0/0-0/0/100 as switches, and 0/0/0-0/0/50 with 2000-3000 as
    percentages. *)
Definition sample_config_event : list (@EventFilterSet sample) :=
  [ {| filter_set_filters := ([(1000, 3000)%N] : list (@AddressFilter sample));
       filter_set_type := None |};
    {| filter_set_filters := ([(0, 100)%N] : list (@AddressFilter sample));
       filter_set_type := Some "switch" |};
    {| filter_set_filters :=
         ([(0, 50)%N; (2000, 3000)%N] : list (@AddressFilter sample));
       filter_set_type := Some "percent" |} ].

(** The sample module before its tables are filled. *)
Definition empty_module : @KNX2Module sample :=
  {| entry_id := "entry";
     service_exposures := ∅;
     _address_filter_transcoder :=
       ([] : list (@AddressFilter sample * @Transcoder sample));
     group_address_transcoder := (∅ : gmap DeviceGroupAddress (@Transcoder sample));
     knx2_event_callback :=
       {| address_filters := ([] : list (@AddressFilter sample));
          group_addresses := [] |};
     xknx_telegrams := [];
     xknx_current_address := IndividualAddress 4353;
     xknx_exposures := [];
     exposure_calls := [];
     exposures_created := 0 |}.

Definition empty_hass : @HomeAssistant sample :=
  {| data := ∅; bus := []; reloaded := []; logger := []; connection := [] |}.

(** A write of [value] to 0/5/220, which only 1000-3000 matches. *)
Definition write_0_5_220 (value : DPTPayload) : Telegram :=
  {| destination_address := GroupDestination (GroupAddress 1500);
     direction := INCOMING;
     payload := GroupValueWrite (Some value);
     source_address := IndividualAddress 4359 |}.

(** The keys and connection types as Home Assistant's KNX integration
    names them; files of the storage directory are named by their path
    under it. *)
Definition sample_storage_path (filename : ConfigValue) : string :=
  match filename with
  | cv_str name => ".storage/" +:+ name
  | _ => ".storage/"
  end.

(** The constructor of [SecureConfig] as [xknx] has it: no parameter is
    called [knx2keys_password] or [knx2keys_file_path], and a call that
    passes one of them is refused.  An object is given by the arguments it
    was made from. *)
Definition sample_SecureConfig_init (kwargs : SecureConfig_kwargs)
    : Exn + SecureConfig_kwargs :=
  if decide (is_Some (knx2keys_password kwargs)) then
    inl (TypeError "SecureConfig.__init__() got an unexpected keyword argument 'knx2keys_password'")
  else if decide (is_Some (knx2keys_file_path kwargs)) then
    inl (TypeError "SecureConfig.__init__() got an unexpected keyword argument 'knx2keys_file_path'")
  else inr kwargs.

Definition sample_constants : ConnectionConstants :=
  {| CONF_KNX2_CONNECTION_TYPE := "connection_type";
     CONF_KNX2_KNX2KEY_FILENAME := "knxkeys_filename";
     CONF_KNX2_KNX2KEY_PASSWORD := "knxkeys_password";
     CONF_KNX2_INDIVIDUAL_ADDRESS := "individual_address";
     CONF_KNX2_MCAST_GRP := "multicast_group";
     CONF_KNX2_MCAST_PORT := "multicast_port";
     CONF_KNX2_LOCAL_IP := "local_ip";
     CONF_KNX2_ROUTE_BACK := "route_back";
     CONF_HOST := "host";
     CONF_PORT := "port";
     CONF_KNX2_SECURE_USER_ID := "user_id";
     CONF_KNX2_SECURE_USER_PASSWORD := "user_password";
     CONF_KNX2_SECURE_DEVICE_AUTHENTICATION := "device_authentication";
     CONF_KNX2_ROUTING_BACKBONE_KEY := "backbone_key";
     CONF_KNX2_ROUTING_SYNC_LATENCY_TOLERANCE := "sync_latency_tolerance";
     CONF_KNX2_ROUTING := "routing";
     CONF_KNX2_TUNNELING := "tunneling";
     CONF_KNX2_TUNNELING_TCP := "tunneling_tcp";
     CONF_KNX2_TUNNELING_TCP_SECURE := "tunneling_tcp_secure";
     CONF_KNX2_ROUTING_SECURE := "routing_secure";
     storage_path := sample_storage_path;
     SecureConfig := SecureConfig_kwargs;
     SecureConfig_init := sample_SecureConfig_init |}.

(** The data of an entry for a secure TCP tunnel with a keyring file, and
    of an entry for routing that lacks the multicast port. *)
Definition secure_tunnel_entry : gmap string ConfigValue :=
  list_to_map
    [("connection_type", cv_str "tunneling_tcp_secure");
     ("host", cv_str "192.168.0.2");
     ("port", cv_int 3671);
     ("user_id", cv_int 2);
     ("user_password", cv_str "secret");
     ("knxkeys_filename", cv_str "house.knxkeys");
     ("knxkeys_password", cv_str "keyring")].

Definition routing_entry : gmap string ConfigValue :=
  list_to_map
    [("connection_type", cv_str "routing");
     ("individual_address", cv_str "1.1.10");
     ("multicast_group", cv_str "224.0.23.12")].

(** The data of an entry for a plain tunnel that has kept the keys of an
    earlier routing connection. *)
Definition complete_entry : gmap string ConfigValue :=
  list_to_map
    [("connection_type", cv_str "tunneling");
     ("individual_address", cv_str "1.1.10");
     ("multicast_group", cv_str "224.0.23.12");
     ("multicast_port", cv_int 3671);
     ("host", cv_str "192.168.0.2");
     ("port", cv_int 3671)].

(** * Properties *)

Section Properties.
Context `{Collaborators}.

(** ** The telegram callback *)

Lemma next_filter_transcoder_none (items : list (AddressFilter * Transcoder))
    (address : DeviceGroupAddress) :
  (∀ f t, (f, t) ∈ items → filter_match f address = false) →
  next_filter_transcoder items address = None.
Proof.
  induction items as [|[f t] items IH]; intros Hno; first done.
  simpl. rw (Hno f t); last by left.
  apply IH. intros f' t' Hin. apply (Hno f' t'). by right.
Qed.

Lemma lookup_transcoder_exact (m : KNX2Module) (address : DeviceGroupAddress)
    (exact : Transcoder) :
  group_address_transcoder m !! address = Some exact →
  lookup_transcoder m address = Some exact.
Proof. intros Hexact. unfold lookup_transcoder. by rw Hexact. Qed.

(** What the callback does once the transcoder is chosen reads and writes
    the host only: on two environments with the same host it has the same
    outcome and leaves the same host. *)
Lemma decode_and_fire_host_only (transcoder : Transcoder) (telegram : Telegram)
    (e1 e2 : Env) :
  hass e1 = hass e2 →
  let run := λ e,
    (value ← match write_or_response_value (payload telegram) with
             | Some payload_value => decode_value transcoder telegram payload_value
             | None => mret None
             end;
     async_fire (knx2_event (knx2_event_data telegram
       (dpt_value <$> write_or_response_value (payload telegram)) value))) e in
  (run e1).1 = (run e2).1 ∧ hass (run e1).2 = hass (run e2).2.
Proof.
  intros Hhass. destruct e1 as [m1 h1], e2 as [m2 h2]. simpl in Hhass. subst h2.
  rw /mbind /M_bind /=.
  destruct (write_or_response_value (payload telegram)) as [payload_value|];
    last done.
  rw /decode_value /try_except /lift_result /mbind /M_bind /=.
  destruct (from_knx transcoder payload_value) as [err|v]; last done.
  by destruct err.
Qed.

(** C1: when the destination of a received telegram has an entry in the
    direct address-to-transcoder mapping, that entry is the transcoder the
    callback selects, and whatever the callback decodes it decodes with it:
    the callback is the decoding of the payload value by the exact
    transcoder followed by the firing of the event; a payload value that
    the exact transcoder decodes is the event's value; and with any other
    filter table in place of the module's, matching or not, the callback
    has the same outcome and leaves the same host (events and log). *)
Theorem exact_binding_takes_priority (telegram : Telegram) (e : Env)
    (destination : DeviceGroupAddress) (exact : Transcoder) :
  destination_address telegram = GroupDestination destination →
  group_address_transcoder (self e) !! destination = Some exact →
  lookup_transcoder (self e) destination = Some exact
  ∧ telegram_received_cb telegram e =
      (value ← match write_or_response_value (payload telegram) with
               | Some payload_value => decode_value exact telegram payload_value
               | None => mret None
               end;
       async_fire (knx2_event (knx2_event_data telegram
         (dpt_value <$> write_or_response_value (payload telegram)) value))) e
  ∧ (∀ payload_value v,
       write_or_response_value (payload telegram) = Some payload_value →
       from_knx exact payload_value = inr v →
       telegram_received_cb telegram e =
         (inr (),
          fired (knx2_event (knx2_event_data telegram
                   (Some (dpt_value payload_value)) (Some v))) e))
  ∧ (∀ items,
       let e' := {| self := set_address_filter_transcoder (λ _, items) (self e);
                    hass := hass e |} in
       (telegram_received_cb telegram e').1 = (telegram_received_cb telegram e).1
       ∧ hass (telegram_received_cb telegram e').2
         = hass (telegram_received_cb telegram e).2).
Proof.
  intros Hdest Hexact.
  assert (∀ e0, group_address_transcoder (self e0) !! destination = Some exact →
            telegram_received_cb telegram e0 =
              (value ← match write_or_response_value (payload telegram) with
                       | Some payload_value =>
                           decode_value exact telegram payload_value
                       | None => mret None
                       end;
               async_fire (knx2_event (knx2_event_data telegram
                 (dpt_value <$> write_or_response_value (payload telegram))
                 value))) e0) as Hcb.
  { intros e0 Hexact0.
    pose proof (lookup_transcoder_exact _ _ _ Hexact0) as Hsel.
    unfold telegram_received_cb. rw Hdest /=.
    destruct (write_or_response_value (payload telegram)) as [payload_value|];
      last done.
    rw /mbind /M_bind /gets /= Hsel.
    by destruct (decode_value exact telegram payload_value e0)
      as [[err|value] e']. }
  split; first by apply lookup_transcoder_exact.
  split; first by apply Hcb.
  split.
  - intros payload_value v Hvalue Hdecode.
    rw (Hcb e Hexact) Hvalue /mbind /M_bind /=.
    by rw /decode_value /try_except /lift_result /mbind /M_bind /= Hdecode.
  - intros items e'. rw (Hcb e Hexact) (Hcb e' Hexact).
    by apply decode_and_fire_host_only.
Qed.

(** C2: when the decoding of a received telegram's payload fails, with a
    [ConversionError] or a [CouldNotParseTelegram], the callback returns
    without raising, has logged one warning naming the transcoder, the
    telegram and the error, and has fired the [knx2_event] with the raw data
    of the payload and a null decoded value. *)
Theorem decode_failure_is_recovered (telegram : Telegram) (e : Env)
    (payload_value : DPTPayload) (destination : DeviceGroupAddress)
    (transcoder : Transcoder) (err : Exn) :
  write_or_response_value (payload telegram) = Some payload_value →
  as_device_group_address (destination_address telegram) = Some destination →
  lookup_transcoder (self e) destination = Some transcoder →
  from_knx transcoder payload_value = inl err →
  is_decode_error err = true →
  telegram_received_cb telegram e =
    (inr (),
     fired (knx2_event (knx2_event_data telegram
                          (Some (dpt_value payload_value)) None))
       (logged (warning_decode_error (transcoder_name transcoder) telegram err)
          e)).
Proof.
  intros Hvalue Hdest Hsel Hraise Herr.
  unfold telegram_received_cb.
  rw Hvalue Hdest /mbind /M_bind /gets /= Hsel.
  rw /decode_value /try_except /lift_result /mbind /M_bind /= Hraise.
  by destruct err.
Qed.

(** A payload has no value to decode exactly when it is not a write or a
    response carrying one. *)
Lemma write_or_response_value_None (p : APCI) :
  write_or_response_value p = None ↔
    is_write_or_response p = false
    ∨ p = GroupValueWrite None ∨ p = GroupValueResponse None.
Proof.
  destruct p as [|[v|]|[v|]|name]; simpl; split; try done; try tauto;
    by intros [?|[?|?]].
Qed.

(** C3: a received telegram whose payload is not a group-value write or
    response carrying a value, or whose destination is not a group address,
    makes the callback fire an event whose data and value are both null (and
    log nothing). *)
Theorem ineligible_telegram_has_null_data (telegram : Telegram) (e : Env) :
  write_or_response_value (payload telegram) = None
  ∨ as_device_group_address (destination_address telegram) = None →
  telegram_received_cb telegram e =
    (inr (), fired (knx2_event (knx2_event_data telegram None None)) e).
Proof.
  intros [Hvalue|Hdest]; unfold telegram_received_cb.
  - by rw Hvalue.
  - rw Hdest. by destruct (write_or_response_value (payload telegram)).
Qed.

(** C4: a received write or response telegram to a group address that has
    no entry in the direct mapping and that no registered filter matches
    makes the callback fire an event with a null decoded value and with the
    raw data of the payload as its data (and log nothing). *)
Theorem unbound_destination_keeps_raw_data (telegram : Telegram) (e : Env)
    (destination : DeviceGroupAddress) :
  is_write_or_response (payload telegram) = true →
  destination_address telegram = GroupDestination destination →
  group_address_transcoder (self e) !! destination = None →
  (∀ f t, (f, t) ∈ _address_filter_transcoder (self e) →
          filter_match f destination = false) →
  telegram_received_cb telegram e =
    (inr (),
     fired (knx2_event (knx2_event_data telegram
              (dpt_value <$> write_or_response_value (payload telegram)) None))
       e).
Proof.
  intros _ Hdest Hexact Hfilters.
  unfold telegram_received_cb. rw Hdest /=.
  destruct (write_or_response_value (payload telegram)) as [payload_value|];
    last done.
  rw /mbind /M_bind /gets /= /lookup_transcoder Hexact.
  by rw next_filter_transcoder_none.
Qed.

(** ** The services *)

Lemma set_data_insert_id (h : HomeAssistant) (m : KNX2Module) :
  data h !! KNX2_MODULE_KEY = Some m →
  set_data (λ d, <[KNX2_MODULE_KEY := m]> d) h = h.
Proof.
  intros Hm. destruct h as [d b r l c]. rw /set_data /=. f_equal.
  by apply insert_id.
Qed.

Lemma with_knx2_module_loaded {A} (body : M Env A) (h : HomeAssistant)
    (m : KNX2Module) :
  data h !! KNX2_MODULE_KEY = Some m →
  with_knx2_module body h = on_module m body h.
Proof. intros Hm. by rw /with_knx2_module /get_knx2_module Hm. Qed.

Lemma with_knx2_module_not_loaded {A} (body : M Env A) (h : HomeAssistant) :
  data h !! KNX2_MODULE_KEY = None →
  with_knx2_module body h = (inl (HomeAssistantError "KNX2 entry not loaded"), h).
Proof. intros Hm. by rw /with_knx2_module /get_knx2_module Hm. Qed.

(** A body that leaves its environment as it found it leaves the host as it
    was. *)
Lemma on_module_unchanged {A} (body : M Env A) (h : HomeAssistant)
    (m : KNX2Module) (r : Exn + A) :
  data h !! KNX2_MODULE_KEY = Some m →
  body {| self := m; hass := h |} = (r, {| self := m; hass := h |}) →
  on_module m body h = (r, h).
Proof.
  intros Hm Hbody. rw /on_module Hbody /=. by rw set_data_insert_id.
Qed.

Lemma set_xknx_telegrams_id (m : KNX2Module) :
  set_xknx_telegrams (λ q, q ++ []) m = m.
Proof. destruct m. rw /set_xknx_telegrams /=. by rw app_nil_r. Qed.

(** The sending loop queues, in order, one telegram for each address. *)
Lemma for_each_send_telegram (payload : DPTPayload) (response : bool)
    (address : list string) (e : Env) :
  for_each address (send_telegram payload response) e =
    (inr (),
     {| self :=
          set_xknx_telegrams (λ q, q ++
            ((λ a, new_telegram (parse_device_group_address a)
                     (send_apci payload response)
                     (xknx_current_address (self e))) <$> address))
            (self e);
        hass := hass e |}).
Proof.
  revert e. induction address as [|a address IH]; intros [m h]; simpl.
  - by rw set_xknx_telegrams_id.
  - rw /mbind /M_bind /send_telegram /= /mbind /M_bind /= IH /=.
    do 2 f_equal. destruct m. rw /set_xknx_telegrams /=. f_equal.
    by rw -app_assoc.
Qed.

(** C5, amended: in a loaded integration, a send call without a type
    encodes a list payload as [DPTArray] and an integer payload of at most
    [APCI_BITMASK], which is 63, as [DPTBinary], and puts on the queue, in
    the order of the address list, exactly one telegram per address, a
    write or (when a response is asked for) a response carrying that
    payload; nothing else changes.  An integer payload above 63 does not
    fit a [DPTBinary]: the call raises the [ConversionError] of
    [DPTBinary] to the caller and leaves the host as it was, so no telegram
    is queued. *)
Theorem send_without_type (h : HomeAssistant) (knx2_module : KNX2Module)
    (address : list string) (attr_payload : Z + list Z) (response : bool) :
  data h !! KNX2_MODULE_KEY = Some knx2_module →
  (match attr_payload with
   | inl n => (n ≤ APCI_BITMASK)%Z
   | inr _ => True
   end →
   service_send_to_knx2_bus (send_raw address attr_payload response) h =
     (inr (),
      set_data (λ d, <[KNX2_MODULE_KEY :=
        set_xknx_telegrams (λ q, q ++
          ((λ a, new_telegram (parse_device_group_address a)
                   (send_apci
                      match attr_payload with
                      | inl n => DPTBinary n
                      | inr l => DPTArray l
                      end response)
                   (xknx_current_address knx2_module)) <$> address))
          knx2_module]> d) h))
  ∧ (∀ n, attr_payload = inl n → (n > APCI_BITMASK)%Z →
       ∃ msg,
         service_send_to_knx2_bus (send_raw address attr_payload response) h =
           (inl (ConversionError msg), h)).
Proof.
  intros Hm. rw /service_send_to_knx2_bus (with_knx2_module_loaded _ _ _ Hm).
  split.
  - intros Hfits. rw /on_module /mbind /M_bind.
    destruct attr_payload as [n|l]; rw /= ?/lift_result ?/DPTBinary_init.
    + rw decide_False; last lia. by rw for_each_send_telegram.
    + by rw for_each_send_telegram.
  - intros n -> Hlarge. eexists. apply on_module_unchanged; first done.
    by rw /mbind /M_bind /= /lift_result /DPTBinary_init decide_True.
Qed.

(** C6: the encoder the send service calls does not exist.  In a loaded
    integration a send call whose type names no known transcoder raises a
    [ServiceValidationError] and leaves the host as it was; but for a type
    that names a transcoder, when [transcoder.to_knx2] is no attribute of
    the transcoder, as it is none of any transcoder of [xknx], the call
    raises that [AttributeError] whatever the payload: a payload the
    transcoder cannot encode is not answered with a validation error.  No
    telegram is queued in either case. *)
Theorem typed_send_fails_at_the_encoder (h : HomeAssistant)
    (knx2_module : KNX2Module) (address : list string) (attr_payload : Value)
    (type : string) (response : bool) :
  data h !! KNX2_MODULE_KEY = Some knx2_module →
  (parse_transcoder type = None →
   ∃ msg,
     service_send_to_knx2_bus (send_typed address attr_payload type response) h
     = (inl (ServiceValidationError msg), h))
  ∧ (∀ transcoder msg,
       parse_transcoder type = Some transcoder →
       to_knx2 transcoder attr_payload = inl (AttributeError msg) →
       service_send_to_knx2_bus (send_typed address attr_payload type response) h
       = (inl (AttributeError msg), h)).
Proof.
  intros Hm. rw /service_send_to_knx2_bus (with_knx2_module_loaded _ _ _ Hm).
  split.
  - intros Hparse. eexists. apply on_module_unchanged; first done.
    by rw /mbind /M_bind /= Hparse.
  - intros transcoder msg Hparse Hencode. apply on_module_unchanged; first done.
    by rw /mbind /M_bind /= Hparse /try_except /lift_result Hencode.
Qed.

(** C7: while the integration is not loaded, each of the five services
    raises the not-loaded [HomeAssistantError] and leaves the host as it
    was, and a websocket command wrapped in [provide_knx2] sends the
    not-loaded error on the connection and does nothing else: its handler
    does not run. *)
Theorem not_loaded_operation_fails (op : AdminOperation) (h : HomeAssistant) :
  data h !! KNX2_MODULE_KEY = None →
  run_operation op h =
    match op with
    | op_websocket _ msg =>
        (inr (),
         set_connection (λ l, l ++
           [send_error (ws_id msg) ERR_HOME_ASSISTANT_ERROR
              "KNX2 integration not loaded."]) h)
    | _ => (inl (HomeAssistantError "KNX2 entry not loaded"), h)
    end.
Proof.
  intros Hm.
  destruct op; simpl;
    try (by apply with_knx2_module_not_loaded).
  by rw /provide_knx2 Hm.
Qed.

(** *** Removing from the subscription list *)

Lemma list_remove_None `{EqDecision A} (x : A) (l : list A) :
  list_remove x l = None ↔ x ∉ l.
Proof.
  induction l as [|y l IH]; simpl.
  - split; [intros _; apply not_elem_of_nil | done].
  - destruct (decide (x = y)) as [->|Hne].
    + split; [done | intros Hnot; destruct Hnot; by left].
    + rw fmap_None IH not_elem_of_cons. naive_solver.
Qed.

Lemma list_remove_Some `{EqDecision A} (x : A) (l l' : list A) :
  NoDup l → list_remove x l = Some l' →
  NoDup l' ∧ ∀ y, y ∈ l' ↔ y ∈ l ∧ y ≠ x.
Proof.
  revert l'. induction l as [|z l IH]; intros l' Hnodup; simpl; first done.
  apply NoDup_cons in Hnodup as [Hz Hnodup].
  destruct (decide (x = z)) as [->|Hne].
  - intros [= <-]. split; first done.
    intros y. rw elem_of_cons. split; last naive_solver.
    intros Hy. split; [by right | by intros ->].
  - destruct (list_remove x l) as [l1|] eqn:Hrem; last done.
    intros [= <-]. destruct (IH l1 Hnodup eq_refl) as [Hnodup1 Hmem].
    split.
    + apply NoDup_cons. split; last done. rw Hmem. naive_solver.
    + intros y. rw !elem_of_cons Hmem. naive_solver.
Qed.

Lemma set_group_addresses_id (m : KNX2Module) :
  set_group_addresses (λ _, group_addresses (knx2_event_callback m)) m = m.
Proof. by destruct m as [? ? ? ? [? ?] ? ? ? ? ?]. Qed.

Lemma set_group_address_transcoder_delete_id (m : KNX2Module)
    (a : DeviceGroupAddress) :
  group_address_transcoder m !! a = None →
  set_group_address_transcoder (λ d, delete a d) m = m.
Proof.
  intros Hnone. destruct m. rw /set_group_address_transcoder /=. f_equal.
  by apply delete_id.
Qed.

Lemma set_logger_id (h : HomeAssistant) : set_logger (λ l, l ++ []) h = h.
Proof. destruct h. rw /set_logger /=. by rw app_nil_r. Qed.

(** One turn of the removing loop: the address leaves the subscription
    list, which stays duplicate-free, and its entry leaves the direct
    mapping. *)
Lemma event_remove_address_spec (group_address : DeviceGroupAddress) (e : Env) :
  NoDup (group_addresses (knx2_event_callback (self e))) →
  ∃ l' log,
    event_remove_address group_address e =
      (inr (),
       {| self :=
            set_group_address_transcoder (λ d, delete group_address d)
              (set_group_addresses (λ _, l') (self e));
          hass := set_logger (λ l, l ++ log) (hass e) |})
    ∧ NoDup l'
    ∧ ∀ y, y ∈ l' ↔
        y ∈ group_addresses (knx2_event_callback (self e)) ∧ y ≠ group_address.
Proof.
  intros Hnodup. destruct e as [m h].
  rw /event_remove_address /try_except /mbind /M_bind /gets /=.
  destruct (list_remove group_address
              (group_addresses (knx2_event_callback m))) as [l1|] eqn:Hrem.
  - destruct (list_remove_Some _ _ _ Hnodup Hrem) as [Hnodup1 Hmem].
    exists l1, []. split; last done.
    rw /= set_logger_id.
    case_decide as Hin; rw /=; first done.
    rw (set_group_address_transcoder_delete_id (set_group_addresses _ m));
      [done | by apply eq_None_not_Some].
  - apply list_remove_None in Hrem.
    exists (group_addresses (knx2_event_callback m)),
      [warning_could_not_remove_event
         (address_str (GroupDestination group_address))].
    split; last (split; first done; intros y; split;
                 [intros Hy; split; [done | by intros ->] | by intros [? _]]).
    rw /= set_group_addresses_id.
    case_decide as Hin; rw /=; first done.
    rw set_group_address_transcoder_delete_id;
      [done | by apply eq_None_not_Some].
Qed.

(** The removing loop as a whole. *)
Lemma for_each_event_remove_address (addresses : list DeviceGroupAddress)
    (e : Env) :
  NoDup (group_addresses (knx2_event_callback (self e))) →
  ∃ l' g' log,
    for_each addresses event_remove_address e =
      (inr (),
       {| self :=
            set_group_address_transcoder (λ _, g')
              (set_group_addresses (λ _, l') (self e));
          hass := set_logger (λ l, l ++ log) (hass e) |})
    ∧ NoDup l'
    ∧ (∀ y, y ∈ l' ↔
         y ∈ group_addresses (knx2_event_callback (self e)) ∧ y ∉ addresses)
    ∧ (∀ y, g' !! y =
         if decide (y ∈ addresses) then None
         else group_address_transcoder (self e) !! y).
Proof.
  revert e. induction addresses as [|a addresses IH]; intros e Hnodup.
  - exists (group_addresses (knx2_event_callback (self e))),
      (group_address_transcoder (self e)), [].
    split; last (split; first done; split;
                 [intros y; rw elem_of_nil; tauto
                 | intros y; case_decide as Hy;
                   [by apply elem_of_nil in Hy | done]]).
    destruct e as [m h]. rw /= set_logger_id set_group_addresses_id.
    by destruct m.
  - destruct (event_remove_address_spec a e Hnodup)
      as (l1 & log1 & Hstep & Hnodup1 & Hmem1).
    set (e1 := {| self := set_group_address_transcoder (λ d, delete a d)
                            (set_group_addresses (λ _, l1) (self e));
                  hass := set_logger (λ l, l ++ log1) (hass e) |}).
    destruct (IH e1) as (l2 & g2 & log2 & Hloop & Hnodup2 & Hmem2 & Hmap2);
      first done.
    exists l2, g2, (log1 ++ log2).
    split; last split; last split.
    + rw /= /mbind /M_bind Hstep -/e1 Hloop /=. do 2 f_equal.
      destruct e as [m [d b r l c]]. rw /set_logger /=. f_equal.
      by rw app_assoc.
    + done.
    + intros y. rw Hmem2 /= Hmem1 not_elem_of_cons. tauto.
    + intros y. rw Hmap2 /=.
      destruct (decide (y = a)) as [->|Hne]; repeat case_decide;
        rw ?lookup_delete_eq ?lookup_delete_ne //; set_solver.
Qed.

Lemma on_module_lookup {A} (body : M Env A) (h : HomeAssistant) (m : KNX2Module) :
  data (on_module m body h).2 !! KNX2_MODULE_KEY
  = Some (self (body {| self := m; hass := h |}).2).
Proof.
  rw /on_module. destruct (body _) as [r e]. by rw /= lookup_insert_eq.
Qed.

(** C8: in a loaded integration whose subscription list holds no address
    twice (as it does from the start and after every event_register call,
    see [event_register_keeps_NoDup]), an event_register call with remove
    set returns with every listed group address gone from the callback's
    subscription list and from the direct address-to-transcoder mapping;
    the other addresses keep their subscription and their binding, and the
    filter table, which is not the address's, is as it was. *)
Theorem event_register_remove_unbinds (h : HomeAssistant)
    (knx2_module : KNX2Module) (call : EventRegisterData) :
  data h !! KNX2_MODULE_KEY = Some knx2_module →
  NoDup (group_addresses (knx2_event_callback knx2_module)) →
  event_remove call = true →
  ∃ h' knx2_module',
    service_event_register_modify call h = (inr (), h')
    ∧ data h' !! KNX2_MODULE_KEY = Some knx2_module'
    ∧ (∀ address, address ∈ event_address call →
         (parse_device_group_address address
            ∉ group_addresses (knx2_event_callback knx2_module'))
         ∧ group_address_transcoder knx2_module'
             !! parse_device_group_address address = None)
    ∧ (∀ y, y ∉ parse_device_group_address <$> event_address call →
         (y ∈ group_addresses (knx2_event_callback knx2_module')
          ↔ y ∈ group_addresses (knx2_event_callback knx2_module))
         ∧ group_address_transcoder knx2_module' !! y
           = group_address_transcoder knx2_module !! y)
    ∧ _address_filter_transcoder knx2_module'
      = _address_filter_transcoder knx2_module.
Proof.
  intros Hm Hnodup Hremove.
  rw /service_event_register_modify (with_knx2_module_loaded _ _ _ Hm) Hremove.
  destruct (for_each_event_remove_address
              (parse_device_group_address <$> event_address call)
              {| self := knx2_module; hass := h |} Hnodup)
    as (l' & g' & log & Hloop & _ & Hmem & Hmap).
  eexists _, _. split; last split; last split; last split.
  - rw /on_module Hloop. reflexivity.
  - by rw /= lookup_insert_eq.
  - intros address Hin.
    assert (parse_device_group_address address
            ∈ parse_device_group_address <$> event_address call) as Hin'
      by by apply list_elem_of_fmap_2.
    split.
    + rw /= Hmem. tauto.
    + by rw /= Hmap decide_True.
  - intros y Hy. split.
    + rw /= Hmem. tauto.
    + by rw /= Hmap decide_False.
  - done.
Qed.

Lemma for_each_cons {S A} (x : A) (l : list A) (body : A → M S unit) (s : S) :
  for_each (x :: l) body s =
    match body x s with
    | (inl e, s') => (inl e, s')
    | (inr _, s') => for_each l body s'
    end.
Proof. done. Qed.

(** One turn of the adding loop appends the address when it is not yet
    subscribed, and skips it otherwise. *)
Lemma event_add_address_eq (a : DeviceGroupAddress) (e : Env) :
  event_add_address a e =
    (inr (),
     if decide (a ∈ group_addresses (knx2_event_callback (self e))) then e
     else {| self := set_group_addresses (λ l, l ++ [a]) (self e);
             hass := set_logger (λ l, l ++
               [debug_registered_event (address_str (GroupDestination a))])
               (hass e) |}).
Proof.
  rw /event_add_address /mbind /M_bind /gets /=. by case_decide.
Qed.

(** The adding loop as a whole. *)
Lemma for_each_event_add_address (addresses : list DeviceGroupAddress) (e : Env) :
  NoDup (group_addresses (knx2_event_callback (self e))) →
  ∃ l' log,
    for_each addresses event_add_address e =
      (inr (),
       {| self := set_group_addresses (λ _, l') (self e);
          hass := set_logger (λ l, l ++ log) (hass e) |})
    ∧ NoDup l'
    ∧ ∀ y, y ∈ l' ↔
        y ∈ group_addresses (knx2_event_callback (self e)) ∨ y ∈ addresses.
Proof.
  revert e. induction addresses as [|a addresses IH]; intros [m h] Hnodup.
  - exists (group_addresses (knx2_event_callback m)), [].
    split; last (split; first done; intros y; rw elem_of_nil; tauto).
    by rw /= set_logger_id set_group_addresses_id.
  - rw for_each_cons event_add_address_eq.
    case_decide as Hin.
    + destruct (IH {| self := m; hass := h |} Hnodup)
        as (l' & log & Hloop & Hnodup' & Hmem).
      exists l', log. split; first done.
      split; first done. intros y. rw Hmem elem_of_cons /=.
      split; last by intros [?|[->|?]]; auto. tauto.
    + set (l1 := group_addresses (knx2_event_callback m) ++ [a]).
      destruct (IH {| self := set_group_addresses (λ l, l ++ [a]) m;
                      hass := set_logger
                        (λ l, l ++ [debug_registered_event
                                      (address_str (GroupDestination a))]) h |})
        as (l' & log & Hloop & Hnodup' & Hmem).
      { rw /=. apply NoDup_app. split; first done.
        split; last by apply NoDup_singleton.
        by intros y Hy ->%list_elem_of_singleton. }
      exists l', (debug_registered_event (address_str (GroupDestination a)) :: log).
      split; last split.
      * rw Hloop /=. do 2 f_equal. destruct h. rw /set_logger /=. f_equal.
        by rw -app_assoc.
      * done.
      * intros y. rw Hmem /= elem_of_app list_elem_of_singleton elem_of_cons.
        tauto.
Qed.

(** The invariant C8 rests on: the event_register service, removing or
    adding, returns and leaves the subscription list without duplicates
    when it found it so; the list is empty when the module is made. *)
Lemma event_register_keeps_NoDup (h : HomeAssistant) (knx2_module : KNX2Module)
    (call : EventRegisterData) :
  data h !! KNX2_MODULE_KEY = Some knx2_module →
  NoDup (group_addresses (knx2_event_callback knx2_module)) →
  ∃ h' knx2_module',
    service_event_register_modify call h = (inr (), h')
    ∧ data h' !! KNX2_MODULE_KEY = Some knx2_module'
    ∧ NoDup (group_addresses (knx2_event_callback knx2_module')).
Proof.
  intros Hm Hnodup.
  rw /service_event_register_modify (with_knx2_module_loaded _ _ _ Hm).
  destruct (event_remove call).
  - destruct (for_each_event_remove_address
                (parse_device_group_address <$> event_address call)
                {| self := knx2_module; hass := h |} Hnodup)
      as (l' & g' & log & Hloop & Hnodup' & _).
    eexists _, _. split; last split.
    + rw /on_module Hloop. reflexivity.
    + by rw /= lookup_insert_eq.
    + done.
  - assert (∀ m1, NoDup (group_addresses (knx2_event_callback m1)) →
              ∃ e', for_each (parse_device_group_address <$> event_address call)
                      event_add_address {| self := m1; hass := h |} = (inr (), e')
                    ∧ NoDup (group_addresses (knx2_event_callback (self e'))))
      as Hloop.
    { intros m1 Hnodup1.
      destruct (for_each_event_add_address
                  (parse_device_group_address <$> event_address call)
                  {| self := m1; hass := h |} Hnodup1)
        as (l' & log & Hloop & Hnodup' & _).
      eexists. split; [exact Hloop | done]. }
    rw /on_module.
    destruct (event_transcoder (event_type call)) as [transcoder|];
      rw /mbind /M_bind /=.
    + destruct (Hloop (set_group_address_transcoder
                         (λ d, foldl (λ d _address, <[_address := transcoder]> d) d
                                 (parse_device_group_address <$> event_address call))
                         knx2_module) Hnodup) as (e' & -> & Hnodup').
      eexists _, _. split; first done. by rw /= lookup_insert_eq.
    + destruct (Hloop knx2_module Hnodup) as (e' & -> & Hnodup').
      eexists _, _. split; first done. by rw /= lookup_insert_eq.
Qed.

(** *** The exposure map *)

(** Under the invariant, an address has at most one attached exposure. *)
Lemma one_attached_exposure_per_address (m : KNX2Module) (x y : Exposure) :
  exposures_consistent m →
  x ∈ xknx_exposures m → y ∈ xknx_exposures m →
  exposure_address x = exposure_address y → x = y.
Proof.
  intros (_ & _ & Hown & _) Hx Hy Haddr.
  apply Hown in Hx. apply Hown in Hy. rw Haddr in Hx. congruence.
Qed.

Lemma exposures_consistent_remove (m : KNX2Module) (a : string) (x : Exposure) :
  exposures_consistent m →
  service_exposures m !! a = Some x →
  exposures_consistent
    (set_xknx_exposures (filter (λ y, y ≠ x)) (exposure_removed x)
       (exposures_created m) (set_service_exposures (delete a) m)).
Proof.
  intros (Hnodup & Hid & Hown & Hmap) Hx.
  destruct (Hmap _ _ Hx) as [Hax _].
  split; last split; last split; rw /=.
  - by apply NoDup_filter.
  - intros y [_ Hy]%list_elem_of_filter. by apply Hid.
  - intros y [Hne Hy]%list_elem_of_filter.
    rw lookup_delete_ne; first by apply Hown.
    intros ->. apply Hne. apply Hown in Hy. congruence.
  - intros a' y [Hne Hy]%lookup_delete_Some.
    destruct (Hmap _ _ Hy) as [Hay Hin]. split; first done.
    apply list_elem_of_filter. split; last done. congruence.
Qed.

Lemma exposures_consistent_add (m : KNX2Module) (config : ExposureData) :
  exposures_consistent m →
  service_exposures m !! exposure_data_address config = None →
  let exposure := new_exposure config (exposures_created m) in
  exposures_consistent
    (set_service_exposures (<[exposure_data_address config := exposure]>)
       (set_xknx_exposures (λ l, l ++ [exposure]) (exposure_created exposure)
          (S (exposures_created m)) m)).
Proof.
  intros (Hnodup & Hid & Hown & Hmap) Hfree exposure.
  split; last split; last split; rw /=.
  - apply NoDup_app. split; first done. split; last by apply NoDup_singleton.
    intros y Hy ->%list_elem_of_singleton. apply Hid in Hy. simpl in Hy. lia.
  - intros y [Hy| ->%list_elem_of_singleton]%elem_of_app.
    + apply Hid in Hy. lia.
    + simpl. lia.
  - intros y [Hy| ->%list_elem_of_singleton]%elem_of_app.
    + apply Hown in Hy. rw lookup_insert_ne; [done | congruence].
    + by rw /= lookup_insert_eq.
  - intros a y [[<- <-]|[Hne Hy]]%lookup_insert_Some.
    + split; first done. apply elem_of_app. right. by apply list_elem_of_singleton.
    + destruct (Hmap _ _ Hy). split; first done. apply elem_of_app. by left.
Qed.

(** The module after [async_remove] of the exposure registered for [a]. *)
Lemma exposure_register_remove_eq (h : HomeAssistant) (m : KNX2Module)
    (call : ExposureData) (x : Exposure) :
  data h !! KNX2_MODULE_KEY = Some m →
  exposure_data_remove call = true →
  service_exposures m !! exposure_data_address call = Some x →
  service_exposure_register_modify call h =
    (inr (),
     set_data (λ d, <[KNX2_MODULE_KEY :=
       set_xknx_exposures (filter (λ y, y ≠ x)) (exposure_removed x)
         (exposures_created m)
         (set_service_exposures (delete (exposure_data_address call)) m)]> d) h).
Proof.
  intros Hm Hremove Hx.
  rw /service_exposure_register_modify (with_knx2_module_loaded _ _ _ Hm).
  by rw /on_module /mbind /M_bind /gets /= Hremove Hx.
Qed.

Lemma exposure_register_add_eq (h : HomeAssistant) (m : KNX2Module)
    (call : ExposureData) :
  data h !! KNX2_MODULE_KEY = Some m →
  exposure_data_remove call = false →
  service_exposures m !! exposure_data_address call = None →
  let exposure := new_exposure call (exposures_created m) in
  service_exposure_register_modify call h =
    (inr (),
     set_data (λ d, <[KNX2_MODULE_KEY :=
       set_service_exposures (<[exposure_data_address call := exposure]>)
         (set_xknx_exposures (λ l, l ++ [exposure]) (exposure_created exposure)
            (S (exposures_created m)) m)]> d)
       (set_logger (λ l, l ++
          [debug_registered_exposure (exposure_data_address call)
             (device_name exposure)]) h)).
Proof.
  intros Hm Hremove Hfree exposure.
  rw /service_exposure_register_modify (with_knx2_module_loaded _ _ _ Hm).
  by rw /on_module /mbind /M_bind /gets /= Hremove Hfree.
Qed.

Lemma exposure_register_replace_eq (h : HomeAssistant) (m : KNX2Module)
    (call : ExposureData) (x : Exposure) :
  data h !! KNX2_MODULE_KEY = Some m →
  exposure_data_remove call = false →
  service_exposures m !! exposure_data_address call = Some x →
  let removed :=
    set_xknx_exposures (filter (λ y, y ≠ x)) (exposure_removed x)
      (exposures_created m)
      (set_service_exposures (delete (exposure_data_address call)) m) in
  let exposure := new_exposure call (exposures_created m) in
  service_exposure_register_modify call h =
    (inr (),
     set_data (λ d, <[KNX2_MODULE_KEY :=
       set_service_exposures (<[exposure_data_address call := exposure]>)
         (set_xknx_exposures (λ l, l ++ [exposure]) (exposure_created exposure)
            (S (exposures_created m)) removed)]> d)
       (set_logger (λ l, l ++
          [warning_replacing_exposure (exposure_data_address call) (device_name x);
           debug_registered_exposure (exposure_data_address call)
             (device_name exposure)]) h)).
Proof.
  intros Hm Hremove Hx removed exposure.
  rw /service_exposure_register_modify (with_knx2_module_loaded _ _ _ Hm).
  rw /on_module /mbind /M_bind /gets /= Hremove Hx /=.
  do 2 f_equal. destruct h. rw /set_logger /=. f_equal. by rw -app_assoc.
Qed.

(** C10: in a loaded integration whose exposure map is consistent, the
    exposure_register service keeps it so, whence at most one exposure is
    attached for a group address ([one_attached_exposure_per_address]);
    registering for an address that has an exposure removes that exposure
    and then creates and stores the new one in its place; and removing for
    an address without an exposure raises a [ServiceValidationError] and
    leaves the host, and with it the map, as it was. *)
Theorem service_exposures_one_per_address (h : HomeAssistant)
    (knx2_module : KNX2Module) (call : ExposureData) :
  data h !! KNX2_MODULE_KEY = Some knx2_module →
  exposures_consistent knx2_module →
  (∃ r h' knx2_module',
     service_exposure_register_modify call h = (r, h')
     ∧ data h' !! KNX2_MODULE_KEY = Some knx2_module'
     ∧ exposures_consistent knx2_module'
     ∧ ∀ x y, x ∈ xknx_exposures knx2_module' →
              y ∈ xknx_exposures knx2_module' →
              exposure_address x = exposure_address y → x = y)
  ∧ (exposure_data_remove call = false →
     ∀ replaced,
       service_exposures knx2_module !! exposure_data_address call
         = Some replaced →
       ∃ h' knx2_module' exposure,
         service_exposure_register_modify call h = (inr (), h')
         ∧ data h' !! KNX2_MODULE_KEY = Some knx2_module'
         ∧ service_exposures knx2_module'
           = <[exposure_data_address call := exposure]>
               (service_exposures knx2_module)
         ∧ exposure_calls knx2_module'
           = exposure_calls knx2_module
               ++ [exposure_removed replaced; exposure_created exposure]
         ∧ (replaced ∉ xknx_exposures knx2_module')
         ∧ exposure ∈ xknx_exposures knx2_module')
  ∧ (exposure_data_remove call = true →
     service_exposures knx2_module !! exposure_data_address call = None →
     ∃ msg,
       service_exposure_register_modify call h
         = (inl (ServiceValidationError msg), h)).
Proof.
  intros Hm Hinv. split; last split.
  - assert (∃ r h' knx2_module',
              service_exposure_register_modify call h = (r, h')
              ∧ data h' !! KNX2_MODULE_KEY = Some knx2_module'
              ∧ exposures_consistent knx2_module')
      as (r & h' & knx2_module' & Hcall & Hdata & Hinv').
    { destruct (exposure_data_remove call) eqn:Hremove;
        destruct (service_exposures knx2_module !! exposure_data_address call)
          as [x|] eqn:Hx.
      + eexists _, _, _. split; first by apply exposure_register_remove_eq.
        split; first by rw /= lookup_insert_eq.
        by apply exposures_consistent_remove.
      + exists (inl (ServiceValidationError
                  ("Could not find exposure for '"
                   +:+ exposure_data_address call +:+ "' to remove."))),
          h, knx2_module.
        split; last done.
        rw /service_exposure_register_modify (with_knx2_module_loaded _ _ _ Hm).
        apply on_module_unchanged; first done.
        by rw /mbind /M_bind /gets /= Hremove Hx.
      + eexists _, _, _. split; first by apply exposure_register_replace_eq.
        split; first by rw /= lookup_insert_eq.
        pose proof (exposures_consistent_remove _ _ _ Hinv Hx) as Hinv1.
        apply (exposures_consistent_add _ call Hinv1).
        by rw /= lookup_delete_eq.
      + eexists _, _, _. split; first by apply exposure_register_add_eq.
        split; first by rw /= lookup_insert_eq.
        by apply exposures_consistent_add. }
    exists r, h', knx2_module'. split; first done. split; first done.
    split; first done. intros x y. by apply one_attached_exposure_per_address.
  - intros Hremove replaced Hx.
    eexists _, _, _. split; first by apply exposure_register_replace_eq.
    split; first by rw /= lookup_insert_eq.
    rw /=. split; first by rw insert_delete_eq.
    split; first by rw -app_assoc.
    split.
    + intros [Hold| Hnew%list_elem_of_singleton]%elem_of_app.
      * apply list_elem_of_filter in Hold. by destruct Hold.
      * destruct Hinv as (_ & Hid & _ & Hmap).
        destruct (Hmap _ _ Hx) as [_ Hin%Hid]. rw Hnew /= in Hin. lia.
    + apply elem_of_app. right. by apply list_elem_of_singleton.
  - intros Hremove Hx. eexists.
    rw /service_exposure_register_modify (with_knx2_module_loaded _ _ _ Hm).
    apply on_module_unchanged; first done.
    by rw /mbind /M_bind /gets /= Hremove Hx.
Qed.

End Properties.

(** ** The restoring entities *)

Section EntityProperties.
Context `{DateLibrary}.

Lemma known_state_true (state : string) :
  state ≠ STATE_UNKNOWN → state ≠ STATE_UNAVAILABLE → known_state state = true.
Proof.
  intros Hunknown Hunavailable. apply bool_decide_eq_true.
  rw !not_elem_of_cons. split; [done | split; [done | apply not_elem_of_nil]].
Qed.

(** Every state of a switch, a binary sensor or a text has a seed value;
    a state of a date or datetime entity has one when it parses. *)
Lemma seed_value_is_Some (c : RestoreEntityClass) (state : string) :
  is_Some (seed_value c state) ↔
    match c with
    | KNX2DateEntity => is_Some (date_fromisoformat state)
    | KNX2DateTimeEntity => is_Some (datetime_fromisoformat state)
    | _ => True
    end.
Proof.
  destruct c; rw /seed_value /=; try (split; by eauto).
  - destruct (date_fromisoformat state); rw /=; split; by eauto || intros [].
  - destruct (datetime_fromisoformat state); rw /=; split; by eauto || intros [].
Qed.

(** Without a persisted state the device keeps the value it has, [None]
    for a device just made. *)
Lemma no_persisted_state_keeps_value (c : RestoreEntityClass) (e : Entity) :
  async_added_to_hass c e None = inr (_Knx2EntityBase_async_added_to_hass e).
Proof.
  destruct c;
    rw /= ?/_Knx2Switch_async_added_to_hass ?/KNX2Text_async_added_to_hass
      ?/KNX2DateEntity_async_added_to_hass
      ?/KNX2DateTimeEntity_async_added_to_hass
      ?/KNX2BinarySensor_async_added_to_hass /=;
    try done; by destruct (readable (_device e)).
Qed.

(** What adding an entity of class [c] does, in one form for the five
    classes: all but the binary sensor look at the persisted state only
    when the state address is not readable. *)
Lemma async_added_to_hass_eq (c : RestoreEntityClass) (e : Entity)
    (last_state : option string) :
  async_added_to_hass c e last_state =
    let e0 := _Knx2EntityBase_async_added_to_hass e in
    if match c with
       | KNX2BinarySensor => true
       | _ => negb (readable (_device e))
       end
    then
      match last_state with
      | Some state =>
          if known_state state then
            match seed_value c state with
            | Some seed => RemoteValue_value_setter seed e0
            | None => inl (ValueError ("Invalid isoformat string: '" +:+ state +:+ "'"))
            end
          else inr e0
      | None => inr e0
      end
    else inr e0.
Proof.
  destruct c;
    rw /= ?/_Knx2Switch_async_added_to_hass ?/KNX2Text_async_added_to_hass
      ?/KNX2DateEntity_async_added_to_hass
      ?/KNX2DateTimeEntity_async_added_to_hass
      ?/KNX2BinarySensor_async_added_to_hass /=;
    try done;
    destruct (readable (_device e)), last_state as [state|]; rw /=; try done;
    destruct (known_state state); try done.
  - by destruct (date_fromisoformat state).
  - by destruct (datetime_fromisoformat state).
Qed.


End EntityProperties.

(** * Further properties of the code *)

Section CallbackProperties.
Context `{Collaborators}.

Lemma next_filter_transcoder_first (before after : list (AddressFilter * Transcoder))
    (_filter : AddressFilter) (transcoder : Transcoder)
    (address : DeviceGroupAddress) :
  (∀ f t, (f, t) ∈ before → filter_match f address = false) →
  filter_match _filter address = true →
  next_filter_transcoder (before ++ (_filter, transcoder) :: after) address
  = Some transcoder.
Proof.
  intros Hbefore Hmatch. induction before as [|[f t] before IH]; simpl.
  - by rw Hmatch.
  - rw (Hbefore f t); last by left.
    apply IH. intros f' t' Hin. apply (Hbefore f' t'). by right.
Qed.

(** X1: among the filters, registration order decides: for a telegram to a
    group address without an exact entry, the callback decodes with the
    transcoder of the first filter of the table that matches the address,
    whatever filters follow it, and a value this transcoder decodes is the
    value of the event. *)
Theorem first_matching_filter_decides (telegram : Telegram) (e : Env)
    (destination : DeviceGroupAddress)
    (before after : list (AddressFilter * Transcoder))
    (_filter : AddressFilter) (transcoder : Transcoder) :
  destination_address telegram = GroupDestination destination →
  group_address_transcoder (self e) !! destination = None →
  _address_filter_transcoder (self e) = before ++ (_filter, transcoder) :: after →
  (∀ f t, (f, t) ∈ before → filter_match f destination = false) →
  filter_match _filter destination = true →
  telegram_received_cb telegram e =
    (value ← match write_or_response_value (payload telegram) with
             | Some payload_value => decode_value transcoder telegram payload_value
             | None => mret None
             end;
     async_fire (knx2_event (knx2_event_data telegram
       (dpt_value <$> write_or_response_value (payload telegram)) value))) e
  ∧ ∀ payload_value v,
      write_or_response_value (payload telegram) = Some payload_value →
      from_knx transcoder payload_value = inr v →
      telegram_received_cb telegram e =
        (inr (),
         fired (knx2_event (knx2_event_data telegram
                  (Some (dpt_value payload_value)) (Some v))) e).
Proof.
  intros Hdest Hexact Htable Hbefore Hmatch.
  assert (lookup_transcoder (self e) destination = Some transcoder) as Hsel.
  { rw /lookup_transcoder Hexact Htable.
    by apply next_filter_transcoder_first. }
  assert (telegram_received_cb telegram e =
    (value ← match write_or_response_value (payload telegram) with
             | Some payload_value => decode_value transcoder telegram payload_value
             | None => mret None
             end;
     async_fire (knx2_event (knx2_event_data telegram
       (dpt_value <$> write_or_response_value (payload telegram)) value))) e)
    as Hcb.
  { unfold telegram_received_cb. rw Hdest /=.
    destruct (write_or_response_value (payload telegram)) as [payload_value|];
      last done.
    rw /mbind /M_bind /gets /= Hsel.
    by destruct (decode_value transcoder telegram payload_value e)
      as [[err|value] e']. }
  split; first done.
  intros payload_value v Hvalue Hdecode.
  rw Hcb Hvalue /mbind /M_bind /=.
  by rw /decode_value /try_except /lift_result /mbind /M_bind /= Hdecode.
Qed.

(** X2: whatever the telegram and the tables, the callback never changes
    the module nor anything of the host but the bus and the log, and it
    ends in one of two ways: it returns, having fired exactly one
    [knx2_event] that names the telegram's destination, source, direction
    and payload class, and having logged nothing or one warning (in which
    case the event's value is null); or it raises an exception other than
    the two decode errors, having fired and logged nothing. *)
Theorem telegram_callback_outcomes (telegram : Telegram) (e : Env) :
  let r := telegram_received_cb telegram e in
  self r.2 = self e
  ∧ data (hass r.2) = data (hass e)
  ∧ reloaded (hass r.2) = reloaded (hass e)
  ∧ connection (hass r.2) = connection (hass e)
  ∧ ((r.1 = inr ()
      ∧ ∃ data value,
          bus (hass r.2)
          = bus (hass e) ++ [knx2_event (knx2_event_data telegram data value)]
          ∧ (logger (hass r.2) = logger (hass e)
             ∨ value = None
               ∧ ∃ type_name err,
                   logger (hass r.2)
                   = logger (hass e) ++ [warning_decode_error type_name telegram err]))
     ∨ (∃ err, r.1 = inl err ∧ is_decode_error err = false ∧ r.2 = e)).
Proof.
  destruct e as [m h]. rw /telegram_received_cb /=.
  destruct (write_or_response_value (payload telegram)) as [payload_value|];
    last by (do 4 (split; first done); left; split; first done; eexists _, _;
             split; [done | by left]).
  destruct (as_device_group_address (destination_address telegram))
    as [destination|];
    last by (do 4 (split; first done); left; split; first done; eexists _, _;
             split; [done | by left]).
  rw /mbind /M_bind /gets /=.
  destruct (lookup_transcoder m destination) as [transcoder|];
    last by (do 4 (split; first done); left; split; first done; eexists _, _;
             split; [done | by left]).
  rw /decode_value /try_except /lift_result /mbind /M_bind /=.
  destruct (from_knx transcoder payload_value) as [err|v].
  - destruct err; rw /=;
      try (by do 4 (split; first done); right; eexists; split; first done).
    + do 4 (split; first done). left. split; first done. eexists _, _.
      split; first done. right. split; first done. by eexists _, _.
    + do 4 (split; first done). left. split; first done. eexists _, _.
      split; first done. right. split; first done. by eexists _, _.
  - do 4 (split; first done). left. split; first done. eexists _, _.
    split; [done | by left].
Qed.

End CallbackProperties.

Section ServiceProperties.
Context `{Collaborators}.

(** The reading loop queues, in order, one read request for each address. *)
Lemma for_each_read_telegram (address : list string) (e : Env) :
  for_each address (λ address,
      source ← gets (λ e, xknx_current_address (self e));
      telegrams_put
        (new_telegram (parse_device_group_address address) GroupValueRead source)) e
  = (inr (),
     {| self :=
          set_xknx_telegrams (λ q, q ++
            ((λ a, new_telegram (parse_device_group_address a) GroupValueRead
                     (xknx_current_address (self e))) <$> address))
            (self e);
        hass := hass e |}).
Proof.
  revert e. induction address as [|a address IH]; intros [m h].
  - by rw /= set_xknx_telegrams_id.
  - rw for_each_cons /mbind /M_bind /= IH /=.
    do 2 f_equal. destruct m. rw /set_xknx_telegrams /=. f_equal.
    by rw -app_assoc.
Qed.

(** X3: in a loaded integration the read service puts on the queue, in the
    order of the address list, exactly one [GroupValueRead] telegram per
    address, sent from the interface's current address; it changes nothing
    else, and for an empty list it changes nothing at all. *)
Theorem read_queues_one_request_per_address (h : HomeAssistant)
    (knx2_module : KNX2Module) (address : list string) :
  data h !! KNX2_MODULE_KEY = Some knx2_module →
  service_read_to_knx2_bus address h =
    (inr (),
     set_data (λ d, <[KNX2_MODULE_KEY :=
       set_xknx_telegrams (λ q, q ++
         ((λ a, new_telegram (parse_device_group_address a) GroupValueRead
                  (xknx_current_address knx2_module)) <$> address))
         knx2_module]> d) h)
  ∧ (address = [] → service_read_to_knx2_bus address h = (inr (), h)).
Proof.
  intros Hm.
  assert (service_read_to_knx2_bus address h =
    (inr (),
     set_data (λ d, <[KNX2_MODULE_KEY :=
       set_xknx_telegrams (λ q, q ++
         ((λ a, new_telegram (parse_device_group_address a) GroupValueRead
                  (xknx_current_address knx2_module)) <$> address))
         knx2_module]> d) h)) as Heq.
  { rw /service_read_to_knx2_bus (with_knx2_module_loaded _ _ _ Hm) /on_module.
    by rw for_each_read_telegram. }
  split; first done. intros ->.
  by rw Heq /= set_xknx_telegrams_id set_data_insert_id.
Qed.

(** X5: only a [ConversionError] of the encoder is turned into a
    [ServiceValidationError]: in a loaded integration, any other exception
    the transcoder raises on the payload reaches the caller of the send
    service as it is, and the host is left as it was. *)
Theorem send_other_exception_propagates (h : HomeAssistant)
    (knx2_module : KNX2Module) (address : list string) (attr_payload : Value)
    (type : string) (response : bool) (transcoder : Transcoder) (err : Exn) :
  data h !! KNX2_MODULE_KEY = Some knx2_module →
  parse_transcoder type = Some transcoder →
  to_knx2 transcoder attr_payload = inl err →
  (∀ msg, err ≠ ConversionError msg) →
  service_send_to_knx2_bus (send_typed address attr_payload type response) h
  = (inl err, h).
Proof.
  intros Hm Hparse Hencode Hother.
  rw /service_send_to_knx2_bus (with_knx2_module_loaded _ _ _ Hm).
  apply on_module_unchanged; first done.
  rw /mbind /M_bind /= Hparse /try_except /lift_result Hencode.
  destruct err; try done. by destruct (Hother msg).
Qed.

(** *** Adding to the subscription list *)

Lemma foldl_insert_lookup (transcoder : Transcoder)
    (addresses : list DeviceGroupAddress)
    (d : gmap DeviceGroupAddress Transcoder) (y : DeviceGroupAddress) :
  foldl (λ d _address, <[_address := transcoder]> d) d addresses !! y
  = if decide (y ∈ addresses) then Some transcoder else d !! y.
Proof.
  revert d. induction addresses as [|a addresses IH]; intros d; simpl.
  - done.
  - rw IH. destruct (decide (y = a)) as [->|Hne].
    + rw lookup_insert_eq. by repeat case_decide; try done; set_solver.
    + rw lookup_insert_ne; last done. repeat case_decide; try done; set_solver.
Qed.

Lemma foldl_insert_id (transcoder : Transcoder)
    (addresses : list DeviceGroupAddress)
    (d : gmap DeviceGroupAddress Transcoder) :
  (∀ a, a ∈ addresses → d !! a = Some transcoder) →
  foldl (λ d _address, <[_address := transcoder]> d) d addresses = d.
Proof.
  intros Hbound. apply map_eq. intros y. rw foldl_insert_lookup.
  case_decide; last done. symmetry. by apply Hbound.
Qed.

Lemma set_group_addresses_app_nil (m : KNX2Module) :
  set_group_addresses (λ l, l ++ []) m = m.
Proof.
  destruct m as [? ? ? ? [? ?] ? ? ? ? ?]. rw /set_group_addresses /=.
  by rw app_nil_r.
Qed.

(** The adding loop appends to the subscription list, in the order of the
    call and once each, the addresses that are not yet in it, and logs one
    record for each address it appends. *)
Lemma for_each_event_add_address_appends (addresses : list DeviceGroupAddress)
    (e : Env) :
  ∃ fresh log,
    for_each addresses event_add_address e =
      (inr (),
       {| self := set_group_addresses (λ l, l ++ fresh) (self e);
          hass := set_logger (λ l, l ++ log) (hass e) |})
    ∧ NoDup fresh
    ∧ length log = length fresh
    ∧ ∀ y, y ∈ fresh ↔
        y ∈ addresses ∧ y ∉ group_addresses (knx2_event_callback (self e)).
Proof.
  revert e. induction addresses as [|a addresses IH]; intros [m h].
  - exists [], []. split; last (split; first apply NoDup_nil_2; split; first done;
                                intros y; rw !elem_of_nil; tauto).
    by rw /= set_logger_id set_group_addresses_app_nil.
  - rw for_each_cons event_add_address_eq.
    case_decide as Hin.
    + destruct (IH {| self := m; hass := h |})
        as (fresh & log & Hloop & Hnodup & Hlen & Hmem).
      exists fresh, log. split; first done. split; first done. split; first done.
      intros y. rw Hmem elem_of_cons /=. split; first tauto.
      intros [[->|Hy] Hnot]; [done | tauto].
    + destruct (IH {| self := set_group_addresses (λ l, l ++ [a]) m;
                      hass := set_logger
                        (λ l, l ++ [debug_registered_event
                                      (address_str (GroupDestination a))]) h |})
        as (fresh & log & Hloop & Hnodup & Hlen & Hmem).
      exists (a :: fresh),
        (debug_registered_event (address_str (GroupDestination a)) :: log).
      simpl in Hmem.
      split; last split; last split.
      * rw Hloop /=. f_equal. f_equal.
        -- destruct m as [? ? ? ? [? ?] ? ? ? ? ?]. rw /set_group_addresses /=.
           do 2 f_equal. by rw -app_assoc.
        -- destruct h. rw /set_logger /=. f_equal. by rw -app_assoc.
      * apply NoDup_cons. split; last done. rw Hmem elem_of_app.
        intros [_ Hnot]. apply Hnot. right. by apply list_elem_of_singleton.
      * by rw /= Hlen.
      * intros y. rw !elem_of_cons Hmem elem_of_app list_elem_of_singleton /=.
        destruct (decide (y = a)) as [->|Hne]; first tauto. tauto.
Qed.

(** When every address is already subscribed the adding loop does nothing. *)
Lemma for_each_event_add_address_present (addresses : list DeviceGroupAddress)
    (e : Env) :
  (∀ a, a ∈ addresses → a ∈ group_addresses (knx2_event_callback (self e))) →
  for_each addresses event_add_address e = (inr (), e).
Proof.
  induction addresses as [|a addresses IH]; intros Hall; first done.
  rw for_each_cons event_add_address_eq decide_True.
  - apply IH. intros a' Ha'. apply Hall. by right.
  - apply Hall. by left.
Qed.

Lemma set_group_address_transcoder_fixed
    (f : gmap DeviceGroupAddress Transcoder → gmap DeviceGroupAddress Transcoder)
    (m : KNX2Module) :
  f (group_address_transcoder m) = group_address_transcoder m →
  set_group_address_transcoder f m = m.
Proof.
  intros Hfix. destruct m. rw /set_group_address_transcoder /=. f_equal.
  exact Hfix.
Qed.

(** The host after an adding call. *)
Lemma event_register_add_eq (h : HomeAssistant) (m : KNX2Module)
    (call : EventRegisterData) :
  data h !! KNX2_MODULE_KEY = Some m →
  event_remove call = false →
  ∃ fresh log,
    service_event_register_modify call h =
      (inr (),
       set_data (λ d, <[KNX2_MODULE_KEY :=
         set_group_addresses (λ l, l ++ fresh) (bound_by_call call m)]> d)
         (set_logger (λ l, l ++ log) h))
    ∧ NoDup fresh
    ∧ length log = length fresh
    ∧ ∀ y, y ∈ fresh ↔
        y ∈ parse_device_group_address <$> event_address call
        ∧ y ∉ group_addresses (knx2_event_callback m).
Proof.
  intros Hm Hremove.
  destruct (for_each_event_add_address_appends
              (parse_device_group_address <$> event_address call)
              {| self := bound_by_call call m; hass := h |})
    as (fresh & log & Hloop & Hnodup & Hlen & Hmem).
  exists fresh, log. split; last split; last split; try done.
  - rw /service_event_register_modify (with_knx2_module_loaded _ _ _ Hm) Hremove.
    rw /on_module. rw /bound_by_call in Hloop |- *.
    destruct (event_transcoder (event_type call)) as [transcoder|];
      by rw /mbind /M_bind /= Hloop.
  - intros y. rw Hmem /bound_by_call.
    by destruct (event_transcoder (event_type call)).
Qed.

(** X6: in a loaded integration an adding event_register call whose type
    names a transcoder returns with every listed address subscribed and
    bound to that transcoder in the direct mapping, whatever it was bound to
    before; addresses that are not listed keep their binding and their
    subscription; the addresses subscribed before keep their places, the
    new ones follow them, each once; and the filter table is as it was. *)
Theorem event_register_add_binds (h : HomeAssistant) (knx2_module : KNX2Module)
    (call : EventRegisterData) (transcoder : Transcoder) :
  data h !! KNX2_MODULE_KEY = Some knx2_module →
  event_remove call = false →
  event_transcoder (event_type call) = Some transcoder →
  ∃ h' knx2_module' fresh,
    service_event_register_modify call h = (inr (), h')
    ∧ data h' !! KNX2_MODULE_KEY = Some knx2_module'
    ∧ group_addresses (knx2_event_callback knx2_module')
      = group_addresses (knx2_event_callback knx2_module) ++ fresh
    ∧ NoDup fresh
    ∧ (∀ address, address ∈ event_address call →
         parse_device_group_address address
           ∈ group_addresses (knx2_event_callback knx2_module')
         ∧ group_address_transcoder knx2_module'
             !! parse_device_group_address address = Some transcoder)
    ∧ (∀ y, y ∉ parse_device_group_address <$> event_address call →
         (y ∈ group_addresses (knx2_event_callback knx2_module')
          ↔ y ∈ group_addresses (knx2_event_callback knx2_module))
         ∧ group_address_transcoder knx2_module' !! y
           = group_address_transcoder knx2_module !! y)
    ∧ _address_filter_transcoder knx2_module'
      = _address_filter_transcoder knx2_module.
Proof.
  intros Hm Hremove Htype.
  destruct (event_register_add_eq h knx2_module call Hm Hremove)
    as (fresh & log & Hcall & Hnodup & _ & Hmem).
  eexists _, _, fresh. split; first exact Hcall.
  split; first by rw /= lookup_insert_eq.
  rw /bound_by_call Htype /=.
  split; first done. split; first done. split; last split; last done.
  - intros address Hin.
    assert (parse_device_group_address address
            ∈ parse_device_group_address <$> event_address call) as Hin'
      by by apply list_elem_of_fmap_2.
    split.
    + rw elem_of_app Hmem.
      destruct (decide (parse_device_group_address address
                        ∈ group_addresses (knx2_event_callback knx2_module)));
        tauto.
    + by rw foldl_insert_lookup decide_True.
  - intros y Hy. split.
    + rw elem_of_app Hmem. tauto.
    + by rw foldl_insert_lookup decide_False.
Qed.

(** X7: a type that is missing, empty or names no transcoder is passed
    over without an error: in a loaded integration such an adding
    event_register call returns with every listed address subscribed and
    with the direct mapping exactly as it was, so an address bound earlier
    keeps its transcoder. *)
Theorem event_register_add_without_transcoder (h : HomeAssistant)
    (knx2_module : KNX2Module) (call : EventRegisterData) :
  data h !! KNX2_MODULE_KEY = Some knx2_module →
  event_remove call = false →
  event_transcoder (event_type call) = None →
  ∃ h' knx2_module',
    service_event_register_modify call h = (inr (), h')
    ∧ data h' !! KNX2_MODULE_KEY = Some knx2_module'
    ∧ group_address_transcoder knx2_module'
      = group_address_transcoder knx2_module
    ∧ ∀ address, address ∈ event_address call →
        parse_device_group_address address
          ∈ group_addresses (knx2_event_callback knx2_module').
Proof.
  intros Hm Hremove Htype.
  destruct (event_register_add_eq h knx2_module call Hm Hremove)
    as (fresh & log & Hcall & Hnodup & _ & Hmem).
  eexists _, _. split; first exact Hcall.
  split; first by rw /= lookup_insert_eq.
  rw /bound_by_call Htype /=. split; first done.
  intros address Hin.
  assert (parse_device_group_address address
          ∈ parse_device_group_address <$> event_address call) as Hin'
    by by apply list_elem_of_fmap_2.
  rw elem_of_app Hmem.
  destruct (decide (parse_device_group_address address
                    ∈ group_addresses (knx2_event_callback knx2_module)));
    tauto.
Qed.

(** X8: adding is idempotent: in a loaded integration, an adding
    event_register call made a second time on the host the first one left
    returns and leaves that host exactly as it is, logging nothing. *)
Theorem event_register_add_twice (h : HomeAssistant) (knx2_module : KNX2Module)
    (call : EventRegisterData) :
  data h !! KNX2_MODULE_KEY = Some knx2_module →
  event_remove call = false →
  let h' := (service_event_register_modify call h).2 in
  service_event_register_modify call h' = (inr (), h').
Proof.
  intros Hm Hremove.
  destruct (event_register_add_eq h knx2_module call Hm Hremove)
    as (fresh & log & Hcall & Hnodup & _ & Hmem).
  rw Hcall /=.
  set (m1 := set_group_addresses (λ l, l ++ fresh) (bound_by_call call knx2_module)).
  set (h1 := set_data _ _).
  assert (data h1 !! KNX2_MODULE_KEY = Some m1) as Hm1
    by by rw /h1 /= lookup_insert_eq.
  rw /service_event_register_modify (with_knx2_module_loaded _ _ _ Hm1) Hremove.
  apply on_module_unchanged; first done.
  assert (∀ a, a ∈ parse_device_group_address <$> event_address call →
               a ∈ group_addresses (knx2_event_callback m1)) as Hall.
  { intros a Ha. rw /m1 /= elem_of_app Hmem.
    assert (group_addresses (knx2_event_callback (bound_by_call call knx2_module))
            = group_addresses (knx2_event_callback knx2_module)) as ->
      by (rw /bound_by_call; by destruct (event_transcoder (event_type call))).
    destruct (decide (a ∈ group_addresses (knx2_event_callback knx2_module)));
      tauto. }
  destruct (event_transcoder (event_type call)) as [transcoder|] eqn:Htype;
    rw /mbind /M_bind /=.
  - rw (set_group_address_transcoder_fixed _ m1).
    + by apply for_each_event_add_address_present.
    + rw /m1 /= /bound_by_call Htype /=. apply foldl_insert_id.
      intros a Ha. by rw foldl_insert_lookup decide_True.
  - by apply for_each_event_add_address_present.
Qed.

(** Removing an address that is neither subscribed nor bound only logs. *)
Lemma event_remove_address_absent (group_address : DeviceGroupAddress) (e : Env) :
  group_address ∉ group_addresses (knx2_event_callback (self e)) →
  group_address_transcoder (self e) !! group_address = None →
  event_remove_address group_address e =
    (inr (),
     logged (warning_could_not_remove_event
               (address_str (GroupDestination group_address))) e).
Proof.
  intros Hnot%list_remove_None Hunbound. destruct e as [m h].
  rw /event_remove_address /try_except /mbind /M_bind /gets /= Hnot /=.
  case_decide as Hbound; last done.
  rw Hunbound in Hbound. by destruct Hbound.
Qed.

(** X9: removing what was never registered is no error: in a loaded
    integration, a removing event_register call whose addresses are
    neither subscribed nor bound returns, logs one warning per listed
    address, in order, and leaves the module as it was. *)
Theorem event_register_remove_absent (h : HomeAssistant)
    (knx2_module : KNX2Module) (call : EventRegisterData) :
  data h !! KNX2_MODULE_KEY = Some knx2_module →
  event_remove call = true →
  (∀ address, address ∈ event_address call →
     (parse_device_group_address address
        ∉ group_addresses (knx2_event_callback knx2_module))
     ∧ group_address_transcoder knx2_module
         !! parse_device_group_address address = None) →
  service_event_register_modify call h =
    (inr (),
     set_logger (λ l, l ++
       ((λ address, warning_could_not_remove_event
           (address_str (GroupDestination (parse_device_group_address address))))
          <$> event_address call)) h).
Proof.
  intros Hm Hremove Habsent.
  rw /service_event_register_modify (with_knx2_module_loaded _ _ _ Hm) Hremove.
  assert (∀ addresses h0,
            (∀ address, address ∈ addresses →
               (parse_device_group_address address
                  ∉ group_addresses (knx2_event_callback knx2_module))
               ∧ group_address_transcoder knx2_module
                   !! parse_device_group_address address = None) →
            for_each (parse_device_group_address <$> addresses)
              event_remove_address {| self := knx2_module; hass := h0 |}
            = (inr (),
               {| self := knx2_module;
                  hass := set_logger (λ l, l ++
                    ((λ address, warning_could_not_remove_event
                        (address_str (GroupDestination
                                        (parse_device_group_address address))))
                       <$> addresses)) h0 |})) as Hloop.
  { induction addresses as [|a addresses IH]; intros h0 Hall.
    - by rw /= set_logger_id.
    - destruct (Hall a) as [Hnot Hunbound]; first by left.
      rw fmap_cons for_each_cons event_remove_address_absent //.
      rw /logged /= IH.
      + do 2 f_equal. destruct h0. rw /set_logger /=. f_equal.
        by rw -app_assoc.
      + intros a' Ha'. apply Hall. by right. }
  rw /on_module (Hloop _ h Habsent) /=. f_equal.
  by apply (set_data_insert_id (set_logger _ h)).
Qed.

(** X10: adding and then removing is a round trip: in a loaded
    integration whose subscription list has no duplicates, after an adding
    event_register call for addresses that were neither subscribed nor
    bound, followed by the removing call for the same addresses, the
    direct mapping is the one before the two calls and the subscription
    list holds the same addresses as before. *)
Theorem event_register_add_then_remove (h : HomeAssistant)
    (knx2_module : KNX2Module) (address : list string) (type : option string) :
  data h !! KNX2_MODULE_KEY = Some knx2_module →
  NoDup (group_addresses (knx2_event_callback knx2_module)) →
  (∀ a, a ∈ address →
     (parse_device_group_address a
        ∉ group_addresses (knx2_event_callback knx2_module))
     ∧ group_address_transcoder knx2_module !! parse_device_group_address a
       = None) →
  let add := {| event_address := address; event_type := type;
                event_remove := false |} in
  let remove := {| event_address := address; event_type := type;
                   event_remove := true |} in
  ∃ h'' knx2_module'',
    service_event_register_modify remove
      (service_event_register_modify add h).2 = (inr (), h'')
    ∧ data h'' !! KNX2_MODULE_KEY = Some knx2_module''
    ∧ group_address_transcoder knx2_module''
      = group_address_transcoder knx2_module
    ∧ ∀ y, y ∈ group_addresses (knx2_event_callback knx2_module'')
           ↔ y ∈ group_addresses (knx2_event_callback knx2_module).
Proof.
  intros Hm Hnodup Habsent add remove.
  destruct (event_register_add_eq h knx2_module add Hm eq_refl)
    as (fresh & log & Hcall & Hnodup_fresh & _ & Hmem).
  rw Hcall /=.
  set (m1 := set_group_addresses (λ l, l ++ fresh) (bound_by_call add knx2_module)).
  set (h1 := set_data _ _).
  assert (data h1 !! KNX2_MODULE_KEY = Some m1) as Hm1
    by by rw /h1 /= lookup_insert_eq.
  assert (group_addresses (knx2_event_callback m1)
          = group_addresses (knx2_event_callback knx2_module) ++ fresh) as Hl1.
  { rw /m1 /= /bound_by_call. by destruct (event_transcoder (event_type add)). }
  assert (NoDup (group_addresses (knx2_event_callback m1))) as Hnodup1.
  { rw Hl1. apply NoDup_app. split; first done. split; last done.
    intros y Hy Hfresh. apply Hmem in Hfresh. tauto. }
  rw /service_event_register_modify (with_knx2_module_loaded _ _ _ Hm1) /=.
  destruct (for_each_event_remove_address
              (parse_device_group_address <$> address)
              {| self := m1; hass := h1 |} Hnodup1)
    as (l2 & g2 & log2 & Hloop & _ & Hmem2 & Hmap2).
  eexists _, _. split; first by rw /on_module Hloop.
  split; first by rw /= lookup_insert_eq.
  simpl in Hmem2, Hmap2. split.
  - rw /=. apply map_eq. intros y. rw Hmap2.
    case_decide as Hy.
    + apply list_elem_of_fmap in Hy as (a & -> & Ha).
      symmetry. by apply Habsent.
    + rw /m1 /= /bound_by_call.
      destruct (event_transcoder (event_type add)) as [transcoder|];
        last done.
      by rw /= foldl_insert_lookup decide_False.
  - intros y. rw /= Hmem2. change (y ∈ group_addresses (knx2_event_callback m1)
                                     ∧ (y ∉ parse_device_group_address <$> address)
                                   ↔ y ∈ group_addresses
                                           (knx2_event_callback knx2_module)).
    rw Hl1 elem_of_app Hmem. split; first tauto.
    intros Hy. split; first by left.
    intros (a & -> & Ha)%list_elem_of_fmap.
    by destruct (Habsent a Ha).
Qed.

(** *** What every service keeps *)

Lemma service_frame_refl (h : HomeAssistant) (m : KNX2Module) :
  service_frame h m h m.
Proof. by rw /service_frame. Qed.

Lemma service_frame_trans (h1 h2 h3 : HomeAssistant) (m1 m2 m3 : KNX2Module) :
  service_frame h1 m1 h2 m2 → service_frame h2 m2 h3 m3 →
  service_frame h1 m1 h3 m3.
Proof.
  intros (? & ? & ? & ? & ? & ? & ? & ? & ?) (? & ? & ? & ? & ? & ? & ? & ? & ?).
  rw /service_frame. do 4 (split; first congruence).
  split; first by etrans. do 3 (split; first congruence). by etrans.
Qed.

(** The outcome of a send call: the queue grows, or nothing changes. *)
Lemma send_step (h : HomeAssistant) (m : KNX2Module) (call : SendData) :
  data h !! KNX2_MODULE_KEY = Some m →
  ∃ r queued,
    service_send_to_knx2_bus call h =
      (r, set_data (λ d, <[KNX2_MODULE_KEY :=
            set_xknx_telegrams (λ q, q ++ queued) m]> d) h).
Proof.
  intros Hm.
  assert (∀ r, service_send_to_knx2_bus call h = (r, h) →
            ∃ r queued,
              service_send_to_knx2_bus call h =
                (r, set_data (λ d, <[KNX2_MODULE_KEY :=
                      set_xknx_telegrams (λ q, q ++ queued) m]> d) h))
    as Hunchanged.
  { intros r ->. exists r, [].
    by rw set_xknx_telegrams_id set_data_insert_id. }
  rw /service_send_to_knx2_bus (with_knx2_module_loaded _ _ _ Hm) in Hunchanged |- *.
  destruct call as [address attr_payload type response
                   | address [attr_payload|attr_payload] response].
  - destruct (parse_transcoder type) as [transcoder|] eqn:Hparse.
    + destruct (to_knx2 transcoder attr_payload) as [err|payload] eqn:Hencode.
      * destruct err; (eapply Hunchanged; apply on_module_unchanged;
                       first done);
          by rw /mbind /M_bind /= Hparse /try_except /lift_result Hencode.
      * eexists _, _.
        rw /on_module /mbind /M_bind /= Hparse /try_except /lift_result Hencode.
        by rw for_each_send_telegram.
    + eapply Hunchanged. apply on_module_unchanged; first done.
      by rw /mbind /M_bind /= Hparse.
  - destruct (decide (attr_payload > APCI_BITMASK)%Z) as [Hlarge|Hfits].
    + eapply Hunchanged. apply on_module_unchanged; first done.
      by rw /mbind /M_bind /= /lift_result /DPTBinary_init decide_True.
    + eexists _, _.
      rw /on_module /mbind /M_bind /= /lift_result /DPTBinary_init.
      by rw decide_False // for_each_send_telegram.
  - eexists _, _. by rw /on_module /mbind /M_bind /= for_each_send_telegram.
Qed.

(** One call of one of the four services in a loaded integration. *)
Lemma module_service_step (op : AdminOperation) (h : HomeAssistant)
    (m : KNX2Module) :
  is_module_service op = true →
  data h !! KNX2_MODULE_KEY = Some m →
  module_invariant m →
  ∃ m', data (run_operation op h).2 !! KNX2_MODULE_KEY = Some m'
        ∧ module_invariant m'
        ∧ service_frame h m (run_operation op h).2 m'.
Proof.
  intros Hop Hm [Hnodup Hinv].
  destruct op as [call|address|call|call| |func msg]; try done; rw /=.
  - destruct (send_step h m call Hm) as (r & queued & ->).
    eexists. split; first by rw /= lookup_insert_eq.
    split; first done.
    rw /service_frame /=. do 4 (split; first done).
    split; first by apply prefix_app_r.
    done.
  - rw /service_read_to_knx2_bus (with_knx2_module_loaded _ _ _ Hm) /on_module.
    rw for_each_read_telegram.
    eexists. split; first by rw /= lookup_insert_eq.
    split; first done.
    rw /service_frame /=. do 4 (split; first done).
    split; first by apply prefix_app_r.
    done.
  - destruct (event_remove call) eqn:Hremove.
    + rw /service_event_register_modify (with_knx2_module_loaded _ _ _ Hm) Hremove.
      destruct (for_each_event_remove_address
                  (parse_device_group_address <$> event_address call)
                  {| self := m; hass := h |} Hnodup)
        as (l' & g' & log & Hloop & Hnodup' & _).
      rw /on_module Hloop.
      eexists. split; first by rw /= lookup_insert_eq.
      split; first done.
      rw /service_frame /=. do 8 (split; first done).
      by apply prefix_app_r.
    + destruct (event_register_add_eq h m call Hm Hremove)
        as (fresh & log & -> & Hfresh & _ & Hmem).
      eexists. split; first by rw /= lookup_insert_eq.
      rw /module_invariant /service_frame /bound_by_call.
      destruct (event_transcoder (event_type call)); rw /=.
      * split.
        { split; last done. apply NoDup_app. split; first done.
          split; last done. intros y Hy Hin%Hmem. tauto. }
        do 8 (split; first done). by apply prefix_app_r.
      * split.
        { split; last done. apply NoDup_app. split; first done.
          split; last done. intros y Hy Hin%Hmem. tauto. }
        do 8 (split; first done). by apply prefix_app_r.
  - destruct (exposure_data_remove call) eqn:Hremove;
      destruct (service_exposures m !! exposure_data_address call)
        as [x|] eqn:Hx.
    + rw (exposure_register_remove_eq h m call x) //.
      eexists. split; first by rw /= lookup_insert_eq.
      split; first (split; [done | by apply exposures_consistent_remove]).
      by rw /service_frame.
    + assert (service_exposure_register_modify call h
              = (inl (ServiceValidationError
                        ("Could not find exposure for '"
                         +:+ exposure_data_address call +:+ "' to remove.")), h))
        as ->.
      { rw /service_exposure_register_modify (with_knx2_module_loaded _ _ _ Hm).
        apply on_module_unchanged; first done.
        by rw /mbind /M_bind /gets /= Hremove Hx. }
      exists m. split; first done. split; first done.
      apply service_frame_refl.
    + rw (exposure_register_replace_eq h m call x) //.
      eexists. split; first by rw /= lookup_insert_eq.
      split.
      * split; first done.
        pose proof (exposures_consistent_remove _ _ _ Hinv Hx) as Hinv1.
        apply (exposures_consistent_add _ call Hinv1).
        by rw /= lookup_delete_eq.
      * rw /service_frame /=. do 8 (split; first done).
        by apply prefix_app_r.
    + rw (exposure_register_add_eq h m call) //.
      eexists. split; first by rw /= lookup_insert_eq.
      split; first (split; [done | by apply exposures_consistent_add]).
      rw /service_frame /=. do 8 (split; first done).
      by apply prefix_app_r.
Qed.

(** What holds before a sequence of service calls, and is kept by each
    call, holds after the sequence. *)
Lemma after_operations_ind (P : HomeAssistant → Prop)
    (ops : list AdminOperation) (h : HomeAssistant) :
  (∀ op h, is_module_service op = true → P h → P (run_operation op h).2) →
  Forall (λ op, is_module_service op = true) ops →
  P h → P (after_operations ops h).
Proof.
  intros Hstep Hops. revert h.
  induction Hops as [|op ops Hop _ IH]; intros h Hh; first done.
  apply IH. by apply Hstep.
Qed.

(** X11: the services keep the integration loaded and in order: in a
    loaded integration whose subscription list is duplicate-free and whose
    exposure map is consistent, after any sequence of send, read,
    event_register and exposure_register calls, whether they returned or
    raised, the integration is still loaded, both invariants hold, entry,
    filter table, callback filters and interface address are as before, no
    bus event was fired, nothing was reloaded, nothing was sent on a
    websocket connection, and the telegram queue and the log have only been
    appended to. *)
Theorem services_keep_module_in_order (ops : list AdminOperation)
    (h : HomeAssistant) (knx2_module : KNX2Module) :
  Forall (λ op, is_module_service op = true) ops →
  data h !! KNX2_MODULE_KEY = Some knx2_module →
  module_invariant knx2_module →
  ∃ knx2_module',
    data (after_operations ops h) !! KNX2_MODULE_KEY = Some knx2_module'
    ∧ module_invariant knx2_module'
    ∧ service_frame h knx2_module (after_operations ops h) knx2_module'.
Proof.
  intros Hops Hm Hinv.
  apply (after_operations_ind
           (λ h', ∃ m', data h' !! KNX2_MODULE_KEY = Some m'
                        ∧ module_invariant m'
                        ∧ service_frame h knx2_module h' m'));
    [ | done | ].
  - intros op h1 Hop (m1 & Hm1 & Hinv1 & Hframe1).
    destruct (module_service_step op h1 m1 Hop Hm1 Hinv1)
      as (m2 & Hm2 & Hinv2 & Hframe2).
    exists m2. split; first done. split; first done.
    exact (service_frame_trans _ _ _ _ _ _ Hframe1 Hframe2).
  - exists knx2_module. split; first done. split; first done.
    apply service_frame_refl.
Qed.

(** *** Registering and removing exposures *)

Lemma filter_all {A} (P : A → Prop) `{∀ x, Decision (P x)} (l : list A) :
  (∀ x, x ∈ l → P x) → filter P l = l.
Proof.
  induction l as [|a l IH]; intros Hall; first done.
  rw filter_cons decide_True; last (apply Hall; by left).
  f_equal. apply IH. intros x Hx. apply Hall. by right.
Qed.

(** Detaching an exposure that is attached last and only there. *)
Lemma filter_detach_last (l : list Exposure) (x : Exposure) :
  x ∉ l → filter (λ y, y ≠ x) (l ++ [x]) = l.
Proof.
  intros Hnot. rw filter_app filter_cons decide_False; last tauto.
  rw filter_nil app_nil_r. apply filter_all. by intros y Hy ->.
Qed.

(** X12: registering and then removing is a round trip on the exposures:
    in a loaded integration with a consistent exposure map, registering an
    exposure for an address that has none and then removing the exposure of
    that address returns both times, and leaves the exposure map and the
    attached exposures as they were before the two calls; the exposure that
    was created is the one that was removed. *)
Theorem exposure_register_then_remove (h : HomeAssistant)
    (knx2_module : KNX2Module) (address name name' : string) :
  data h !! KNX2_MODULE_KEY = Some knx2_module →
  exposures_consistent knx2_module →
  service_exposures knx2_module !! address = None →
  let register := {| exposure_data_address := address;
                     exposure_data_remove := false;
                     exposure_data_name := name |} in
  let remove := {| exposure_data_address := address;
                   exposure_data_remove := true;
                   exposure_data_name := name' |} in
  ∃ h' h'' knx2_module'' exposure,
    service_exposure_register_modify register h = (inr (), h')
    ∧ service_exposure_register_modify remove h' = (inr (), h'')
    ∧ data h'' !! KNX2_MODULE_KEY = Some knx2_module''
    ∧ service_exposures knx2_module'' = service_exposures knx2_module
    ∧ xknx_exposures knx2_module'' = xknx_exposures knx2_module
    ∧ exposure_calls knx2_module''
      = exposure_calls knx2_module
          ++ [exposure_created exposure; exposure_removed exposure]
    ∧ device_name exposure = name.
Proof.
  intros Hm Hinv Hfree register remove.
  pose proof (exposure_register_add_eq h knx2_module register Hm eq_refl Hfree)
    as Hadd.
  simpl in Hadd.
  set (exposure := new_exposure register (exposures_created knx2_module)) in *.
  set (m1 := set_service_exposures _ _) in Hadd.
  set (h1 := set_data _ _) in Hadd.
  assert (data h1 !! KNX2_MODULE_KEY = Some m1) as Hm1
    by by rw /h1 /= lookup_insert_eq.
  assert (service_exposures m1 !! exposure_data_address remove = Some exposure)
    as Hx by by rw /m1 /= lookup_insert_eq.
  exists h1. eexists _, _, exposure.
  split; first exact Hadd.
  split; first exact (exposure_register_remove_eq h1 m1 remove exposure Hm1
                        eq_refl Hx).
  split; first by rw /= lookup_insert_eq.
  rw /=. split; first by apply delete_insert_id.
  split; last by rw -app_assoc.
  apply filter_detach_last. intros Hin.
  destruct Hinv as (_ & Hid & _). apply Hid in Hin. simpl in Hin. lia.
Qed.

(** X13: removing detaches that exposure and no other: in a loaded
    integration with a consistent exposure map, removing the exposure of an
    address that has one returns, logs nothing, removes the address from
    the map and leaves every other entry, detaches the exposure the map held
    and keeps every other exposure attached, in the same order. *)
Theorem exposure_remove_detaches_that_one (h : HomeAssistant)
    (knx2_module : KNX2Module) (call : ExposureData) (removed : Exposure) :
  data h !! KNX2_MODULE_KEY = Some knx2_module →
  exposures_consistent knx2_module →
  exposure_data_remove call = true →
  service_exposures knx2_module !! exposure_data_address call = Some removed →
  ∃ h' knx2_module',
    service_exposure_register_modify call h = (inr (), h')
    ∧ data h' !! KNX2_MODULE_KEY = Some knx2_module'
    ∧ logger h' = logger h
    ∧ service_exposures knx2_module'
      = delete (exposure_data_address call) (service_exposures knx2_module)
    ∧ exposure_calls knx2_module'
      = exposure_calls knx2_module ++ [exposure_removed removed]
    ∧ (∃ before after,
         xknx_exposures knx2_module = before ++ removed :: after
         ∧ xknx_exposures knx2_module' = before ++ after).
Proof.
  intros Hm Hinv Hremove Hx.
  eexists _, _. split; first by apply exposure_register_remove_eq.
  split; first by rw /= lookup_insert_eq.
  do 3 (split; first done). rw /=.
  destruct Hinv as (Hnodup & _ & _ & Hmap).
  destruct (Hmap _ _ Hx) as [_ Hin].
  apply list_elem_of_split in Hin as (before & after & Heq).
  exists before, after. split; first done.
  rw Heq in Hnodup |- *. apply NoDup_app in Hnodup as (_ & Hbefore & Hafter).
  apply NoDup_cons in Hafter as [Hafter _].
  rw filter_app filter_cons decide_False; last tauto.
  f_equal; apply filter_all; intros y Hy ->.
  - apply (Hbefore removed Hy). by left.
  - done.
Qed.

(** *** The services and the callback together *)

(** X14: a registered type decodes the events that follow: in a loaded
    integration, after an adding event_register call whose type names a
    transcoder, a write or response telegram to one of the listed
    addresses, carrying a value this transcoder decodes, makes the callback
    return, log nothing and fire one event with the raw payload as data and
    the decoded value as value, whatever the filter table holds. *)
Theorem registered_type_decodes_later_telegrams (h : HomeAssistant)
    (knx2_module : KNX2Module) (call : EventRegisterData)
    (transcoder : Transcoder) (address : string) (telegram : Telegram)
    (payload_value : DPTPayload) (v : Value) :
  data h !! KNX2_MODULE_KEY = Some knx2_module →
  event_remove call = false →
  event_transcoder (event_type call) = Some transcoder →
  address ∈ event_address call →
  destination_address telegram
  = GroupDestination (parse_device_group_address address) →
  write_or_response_value (payload telegram) = Some payload_value →
  from_knx transcoder payload_value = inr v →
  ∃ h' knx2_module',
    service_event_register_modify call h = (inr (), h')
    ∧ data h' !! KNX2_MODULE_KEY = Some knx2_module'
    ∧ let e := {| self := knx2_module'; hass := h' |} in
      telegram_received_cb telegram e =
        (inr (),
         fired (knx2_event (knx2_event_data telegram
                              (Some (dpt_value payload_value)) (Some v))) e).
Proof.
  intros Hm Hremove Htype Haddress Hdest Hvalue Hdecode.
  destruct (event_register_add_eq h knx2_module call Hm Hremove)
    as (fresh & log & -> & _).
  eexists _, _. split; first done.
  split; first by rw /= lookup_insert_eq.
  intros e. rw /e /telegram_received_cb Hvalue Hdest /mbind /M_bind /gets /=.
  rw /lookup_transcoder /bound_by_call Htype /= foldl_insert_lookup decide_True.
  - by rw /decode_value /try_except /lift_result /mbind /M_bind /= Hdecode.
  - apply list_elem_of_fmap. by exists address.
Qed.

(** X15: a removed address is decoded no more: in a loaded integration
    whose subscription list has no duplicates, after a removing event_register
    call, a write or response telegram with a value, sent to one of the
    listed addresses that no filter of the table matches, makes the
    callback return, log nothing and fire one event with the raw payload as
    data and no value, whatever the address was bound to before. *)
Theorem removed_address_gives_raw_events (h : HomeAssistant)
    (knx2_module : KNX2Module) (call : EventRegisterData)
    (address : string) (telegram : Telegram) (payload_value : DPTPayload) :
  data h !! KNX2_MODULE_KEY = Some knx2_module →
  NoDup (group_addresses (knx2_event_callback knx2_module)) →
  event_remove call = true →
  address ∈ event_address call →
  destination_address telegram
  = GroupDestination (parse_device_group_address address) →
  write_or_response_value (payload telegram) = Some payload_value →
  (∀ f t, (f, t) ∈ _address_filter_transcoder knx2_module →
          filter_match f (parse_device_group_address address) = false) →
  ∃ h' knx2_module',
    service_event_register_modify call h = (inr (), h')
    ∧ data h' !! KNX2_MODULE_KEY = Some knx2_module'
    ∧ let e := {| self := knx2_module'; hass := h' |} in
      telegram_received_cb telegram e =
        (inr (),
         fired (knx2_event (knx2_event_data telegram
                              (Some (dpt_value payload_value)) None)) e).
Proof.
  intros Hm Hnodup Hremove Haddress Hdest Hvalue Hfilters.
  rw /service_event_register_modify (with_knx2_module_loaded _ _ _ Hm) Hremove.
  destruct (for_each_event_remove_address
              (parse_device_group_address <$> event_address call)
              {| self := knx2_module; hass := h |} Hnodup)
    as (l' & g' & log & Hloop & _ & _ & Hmap).
  rw /on_module Hloop.
  eexists _, _. split; first done.
  split; first by rw /= lookup_insert_eq.
  rw /telegram_received_cb Hvalue Hdest /mbind /M_bind /gets /=.
  rw /lookup_transcoder /= Hmap decide_True.
  - by rw next_filter_transcoder_none.
  - apply list_elem_of_fmap. by exists address.
Qed.

End ServiceProperties.


(** ** Adding the restoring entities *)

Section RestoreProperties.
Context `{DateLibrary}.

Lemma known_state_spec (state : string) :
  known_state state = true ↔ state ≠ STATE_UNKNOWN ∧ state ≠ STATE_UNAVAILABLE.
Proof.
  rw /known_state bool_decide_eq_true !not_elem_of_cons.
  split; first tauto. intros [? ?]. split; [done | split; [done | ]].
  apply not_elem_of_nil.
Qed.

Lemma known_state_false (state : string) :
  state = STATE_UNKNOWN ∨ state = STATE_UNAVAILABLE → known_state state = false.
Proof.
  intros Hstate. destruct (known_state state) eqn:Hknown; last done.
  apply known_state_spec in Hknown. tauto.
Qed.

(** X16: a readable state address wins over the persisted state, except
    for the binary sensor: when a switch, text, date or datetime entity is
    added whose device can read its state from the bus, the persisted state
    is not looked at, so the device keeps its value and nothing is raised
    even for a state that is not a date; a binary sensor adopts a persisted
    state that is neither unknown nor unavailable also when its device is
    readable. *)
Theorem readable_device_is_not_seeded (c : RestoreEntityClass) (e : Entity)
    (last_state : option string) :
  readable (_device e) = true →
  (c ≠ KNX2BinarySensor →
   async_added_to_hass c e last_state
   = inr (_Knx2EntityBase_async_added_to_hass e))
  ∧ (∀ state,
       last_state = Some state →
       state ≠ STATE_UNKNOWN → state ≠ STATE_UNAVAILABLE →
       async_added_to_hass KNX2BinarySensor e last_state
       = inr (set_value (switch_value (bool_decide (state = STATE_ON)))
                (_Knx2EntityBase_async_added_to_hass e))).
Proof.
  intros Hreadable. split.
  - intros Hclass. rw async_added_to_hass_eq /= Hreadable. by destruct c.
  - intros state -> Hunknown Hunavailable.
    by rw async_added_to_hass_eq /= (known_state_true _ Hunknown Hunavailable).
Qed.

(** X17: a persisted state of unknown or unavailable is never adopted: an
    entity of any restoring class added with such a state is registered
    with its device, the device keeps the value it has, and nothing is
    raised, whether or not the state address is readable. *)
Theorem unknown_state_is_not_adopted (c : RestoreEntityClass) (e : Entity)
    (state : string) :
  state = STATE_UNKNOWN ∨ state = STATE_UNAVAILABLE →
  async_added_to_hass c e (Some state)
  = inr (_Knx2EntityBase_async_added_to_hass e).
Proof.
  intros Hknown%known_state_false.
  rw async_added_to_hass_eq /= Hknown.
  by destruct c, (readable (_device e)).
Qed.


(** X19: what adding an entity can do to it: whenever adding returns, the
    entity's callback is registered on the device, the device is among the
    devices of the interface, the device is as readable as before, and its
    value is either the one it had or the seed value of the persisted
    state; the latter only for a state that is neither unknown nor
    unavailable. *)
Theorem added_entity_outcomes (c : RestoreEntityClass) (e e' : Entity)
    (last_state : option string) :
  async_added_to_hass c e last_state = inr e' →
  device_updated_cb e' = true
  ∧ in_xknx_devices e' = true
  ∧ readable (_device e') = readable (_device e)
  ∧ (value (_device e') = value (_device e)
     ∨ ∃ state seed,
         last_state = Some state
         ∧ state ≠ STATE_UNKNOWN ∧ state ≠ STATE_UNAVAILABLE
         ∧ seed_value c state = Some seed
         ∧ value (_device e') = Some seed).
Proof.
  rw async_added_to_hass_eq /=. intros Hadded.
  assert (e' = _Knx2EntityBase_async_added_to_hass e
          ∨ ∃ state seed,
              last_state = Some state ∧ known_state state = true
              ∧ seed_value c state = Some seed
              ∧ e' = set_value seed (_Knx2EntityBase_async_added_to_hass e))
    as [->|(state & seed & Hlast & Hknown%known_state_spec & Hseed & ->)].
  { destruct last_state as [state|];
      last (left; destruct c, (readable (_device e)); by simplify_eq/=).
    destruct (known_state state) eqn:Hknown;
      last (left; destruct c, (readable (_device e)); by simplify_eq/=).
    destruct (seed_value c state) as [seed|] eqn:Hseed.
    - assert (e' = _Knx2EntityBase_async_added_to_hass e
              ∨ RemoteValue_value_setter seed
                  (_Knx2EntityBase_async_added_to_hass e) = inr e')
        as [->|Hset]
        by (destruct c, (readable (_device e)); simplify_eq/=; tauto);
        first by left.
      right. exists state, seed. do 3 (split; first done).
      rw /RemoteValue_value_setter in Hset.
      destruct (RemoteValue_to_knx seed); by simplify_eq.
    - left. destruct c, (readable (_device e)); by simplify_eq/=. }
  - do 3 (split; first done). by left.
  - do 3 (split; first done). right. exists state, seed. tauto.
Qed.

End RestoreProperties.

(** ** The event callback of the configuration *)

Section ConstructionProperties.
Context `{Collaborators} {filter_eq_dec : EqDecision AddressFilter}.

(** A key that is not in the dictionary goes to its end. *)
Lemma dict_set_fresh {K V} `{EqDecision K} (k : K) (v : V)
    (items : list (K * V)) :
  k ∉ items.*1 → dict_set k v items = items ++ [(k, v)].
Proof.
  induction items as [|[k0 v0] items IH]; intros Hfresh; first done.
  apply not_elem_of_cons in Hfresh as [Hne Hfresh]. simpl in Hne.
  rw /= decide_False // IH //.
Qed.

(** Keys that are new and distinct go to the end of the dictionary, in
    their order. *)
Lemma dict_update_all_fresh {K V} `{EqDecision K} (keys : list K) (v : V)
    (items : list (K * V)) :
  NoDup (items.*1 ++ keys) →
  dict_update_all keys v items = items ++ ((λ k, (k, v)) <$> keys).
Proof.
  revert items. induction keys as [|k keys IH]; intros items Hnodup.
  - by rw /= app_nil_r.
  - change (dict_update_all (k :: keys) v items)
      with (dict_update_all keys v (dict_set k v items)).
    apply NoDup_app in Hnodup as (Hitems & Hdisjoint & Hkeys).
    apply NoDup_cons in Hkeys as [Hk Hkeys].
    assert (k ∉ items.*1) as Hfresh
      by (intros Hin; apply (Hdisjoint k Hin); by left).
    rw (dict_set_fresh k v items Hfresh) IH.
    + by rw -app_assoc.
    + rw fmap_app /=. apply NoDup_app. split; last split; last done.
      * apply NoDup_app. split; first done. split; last apply NoDup_singleton.
        by intros x Hx ->%list_elem_of_singleton.
      * intros x [Hx| ->%list_elem_of_singleton]%elem_of_app Hin; last done.
        apply (Hdisjoint x Hx). by right.
Qed.

(** The filters a filter set binds are filters it lists. *)
Lemma filter_set_bindings_keys (filter_set : EventFilterSet) (f : AddressFilter) :
  f ∈ (filter_set_bindings filter_set).*1 → f ∈ filter_set_filters filter_set.
Proof.
  rw /filter_set_bindings.
  destruct (event_transcoder (filter_set_type filter_set)); last by rw elem_of_nil.
  rw -list_fmap_compose. by rw list_fmap_id.
Qed.

(** The loop of [register_event_callback] when the filters of the
    configuration are objects of their own, none of them in the table:
    the bindings are appended to the table in the order of the
    configuration. *)
Lemma register_filter_sets_fresh (config_event : list EventFilterSet)
    (acc : list AddressFilter * list (AddressFilter * Transcoder)) :
  NoDup (acc.2.*1 ++ concat (filter_set_filters <$> config_event)) →
  foldl register_filter_set acc config_event
  = (acc.1 ++ concat (filter_set_filters <$> config_event),
     acc.2 ++ concat (filter_set_bindings <$> config_event)).
Proof.
  revert acc.
  induction config_event as [|filter_set config_event IH];
    intros [filters table] Hnodup.
  - by rw /= !app_nil_r.
  - simpl in Hnodup |- *. rw app_assoc in Hnodup.
    apply NoDup_app in Hnodup as (Hhere & Hdisjoint & Hrest).
    assert ((register_filter_set (filters, table) filter_set).2
            = table ++ filter_set_bindings filter_set) as Htable.
    { rw /register_filter_set /filter_set_bindings /=.
      destruct (event_transcoder (filter_set_type filter_set));
        last by rw app_nil_r.
      by apply dict_update_all_fresh. }
    rw IH.
    + by rw Htable /= -!app_assoc.
    + rw Htable fmap_app. apply NoDup_app. split; last split; last done.
      * apply NoDup_app in Hhere as (Htable' & Hdisjoint' & Hfilters).
        apply NoDup_app. split; first done. split.
        -- intros x Hx Hin%filter_set_bindings_keys. by apply (Hdisjoint' x).
        -- rw /filter_set_bindings.
           destruct (event_transcoder (filter_set_type filter_set));
             last apply NoDup_nil_2.
           rw -list_fmap_compose. by rw list_fmap_id.
      * intros x [Hx|Hx%filter_set_bindings_keys]%elem_of_app;
          apply Hdisjoint; apply elem_of_app; tauto.
Qed.

(** X20: the callback and the table follow the configuration: when the
    filters of the configuration are objects of their own, none of them
    in the filter table yet, [register_event_callback] returns a callback
    that subscribes to the filters of all filter sets, in the order of the
    configuration, and to no single group address, and it appends to the
    filter table, in the same order, every filter of a filter set whose
    type names a transcoder, bound to that transcoder; filter sets with a
    type that is missing, empty or names no transcoder add no binding, and
    nothing else of the module changes. *)
Theorem register_event_callback_follows_configuration
    (config_event : list EventFilterSet) (m : KNX2Module) :
  NoDup ((_address_filter_transcoder m).*1
         ++ concat (filter_set_filters <$> config_event)) →
  register_event_callback config_event m =
    ({| address_filters := concat (filter_set_filters <$> config_event);
        group_addresses := [] |},
     set_address_filter_transcoder
       (λ table, table ++ concat (filter_set_bindings <$> config_event)) m).
Proof.
  intros Hnodup. rw /register_event_callback.
  by rw (register_filter_sets_fresh config_event
           ([], _address_filter_transcoder m) Hnodup).
Qed.

(** The same as an equation on the module alone, for the proofs below. *)
Lemma register_event_callback_follows_table
    (config_event : list EventFilterSet) (m : KNX2Module) :
  NoDup ((_address_filter_transcoder m).*1
         ++ concat (filter_set_filters <$> config_event)) →
  (register_event_callback config_event m).2 =
    set_address_filter_transcoder
      (λ table, table ++ concat (filter_set_bindings <$> config_event)) m.
Proof.
  intros Hnodup. rw /register_event_callback.
  by rw (register_filter_sets_fresh config_event
           ([], _address_filter_transcoder m) Hnodup).
Qed.

Lemma next_filter_transcoder_app (before after : list (AddressFilter * Transcoder))
    (address : DeviceGroupAddress) :
  next_filter_transcoder (before ++ after) address =
    match next_filter_transcoder before address with
    | Some transcoder => Some transcoder
    | None => next_filter_transcoder after address
    end.
Proof.
  induction before as [|[f t] before IH]; first done.
  simpl. by destruct (filter_match f address).
Qed.

Lemma elem_of_concat {A} (x : A) (ls : list (list A)) :
  x ∈ concat ls ↔ ∃ l, x ∈ l ∧ l ∈ ls.
Proof.
  induction ls as [|l ls IH]; simpl.
  - rw elem_of_nil. split; first done. by intros (l & _ & ?%elem_of_nil).
  - rw elem_of_app IH. split.
    + intros [Hx|(l' & Hx & Hl')].
      * exists l. split; first done. by left.
      * exists l'. split; first done. by right.
    + intros (l' & Hx & [->|Hl']%elem_of_cons); first by left.
      right. by exists l'.
Qed.

(** No binding of a configuration matches an address that only filters of
    filter sets without a usable type match. *)
Lemma next_filter_transcoder_untyped (config_event : list EventFilterSet)
    (address : DeviceGroupAddress) :
  (∀ filter_set f,
     filter_set ∈ config_event → f ∈ filter_set_filters filter_set →
     filter_match f address = true →
     event_transcoder (filter_set_type filter_set) = None) →
  next_filter_transcoder (concat (filter_set_bindings <$> config_event)) address
  = None.
Proof.
  intros Huntyped. apply next_filter_transcoder_none.
  intros f t (bindings & Hin & (filter_set & -> & Hset)%list_elem_of_fmap)
    %elem_of_concat.
  destruct (filter_match f address) eqn:Hmatch; last done.
  rw /filter_set_bindings in Hin.
  destruct (event_transcoder (filter_set_type filter_set)) eqn:Htype;
    last by apply elem_of_nil in Hin.
  apply list_elem_of_fmap in Hin as (f' & [= -> ->] & Hf).
  by rw (Huntyped filter_set f' Hset Hf Hmatch) in Htype.
Qed.

(** X21: filter sets without a type give raw events: on a module whose
    filter table [register_event_callback] has filled from empty, a write
    or response telegram with a value, sent to a group address that has no
    direct binding and that only filters of filter sets without a usable
    type match, makes the callback return, log nothing and fire one event
    that carries the raw payload as data and no value. *)
Theorem untyped_filters_give_raw_events (config_event : list EventFilterSet)
    (m : KNX2Module) (h : HomeAssistant) (telegram : Telegram)
    (payload_value : DPTPayload) (destination : DeviceGroupAddress) :
  _address_filter_transcoder m = [] →
  group_address_transcoder m !! destination = None →
  NoDup (concat (filter_set_filters <$> config_event)) →
  write_or_response_value (payload telegram) = Some payload_value →
  destination_address telegram = GroupDestination destination →
  (∀ filter_set f,
     filter_set ∈ config_event → f ∈ filter_set_filters filter_set →
     filter_match f destination = true →
     event_transcoder (filter_set_type filter_set) = None) →
  let e := {| self := (register_event_callback config_event m).2; hass := h |} in
  telegram_received_cb telegram e =
    (inr (),
     fired (knx2_event (knx2_event_data telegram
                          (Some (dpt_value payload_value)) None)) e).
Proof.
  intros Hempty Hdirect Hnodup Hvalue Hdest Huntyped e.
  rw /e register_event_callback_follows_table; last by rw Hempty.
  rw /telegram_received_cb Hvalue Hdest /mbind /M_bind /gets /=.
  rw /lookup_transcoder /= Hdirect Hempty /=.
  by rw next_filter_transcoder_untyped.
Qed.

(** X22: among the filter sets, the order of the configuration decides:
    on a module whose filter table [register_event_callback] has filled
    from empty, for a destination without a direct binding, when a filter
    set whose type names a transcoder has a filter that matches the
    destination, and no filter set before it in the configuration has both
    a usable type and a matching filter, a write or response telegram
    whose value this transcoder decodes makes the callback return, log
    nothing and fire one event with the raw payload as data and the decoded
    value as value, whatever filter sets follow. *)
Theorem typed_filters_decode_events
    (before after : list EventFilterSet) (typed : EventFilterSet)
    (m : KNX2Module) (h : HomeAssistant) (telegram : Telegram)
    (payload_value : DPTPayload) (destination : DeviceGroupAddress)
    (_filter : AddressFilter) (transcoder : Transcoder) (v : Value) :
  _address_filter_transcoder m = [] →
  group_address_transcoder m !! destination = None →
  NoDup (concat (filter_set_filters <$> before ++ typed :: after)) →
  write_or_response_value (payload telegram) = Some payload_value →
  destination_address telegram = GroupDestination destination →
  (∀ filter_set f,
     filter_set ∈ before → f ∈ filter_set_filters filter_set →
     filter_match f destination = true →
     event_transcoder (filter_set_type filter_set) = None) →
  _filter ∈ filter_set_filters typed →
  filter_match _filter destination = true →
  event_transcoder (filter_set_type typed) = Some transcoder →
  from_knx transcoder payload_value = inr v →
  let e := {| self := (register_event_callback (before ++ typed :: after) m).2;
              hass := h |} in
  telegram_received_cb telegram e =
    (inr (),
     fired (knx2_event (knx2_event_data telegram
                          (Some (dpt_value payload_value)) (Some v))) e).
Proof.
  intros Hempty Hdirect Hnodup Hvalue Hdest Hbefore Hfilter Hmatch Htype
    Hdecode e.
  rw /e register_event_callback_follows_table; last by rw Hempty.
  rw /telegram_received_cb Hvalue Hdest /mbind /M_bind /gets /=.
  rw /lookup_transcoder /= Hdirect Hempty /=.
  rw fmap_app fmap_cons concat_app /= next_filter_transcoder_app.
  rw (next_filter_transcoder_untyped before destination Hbefore).
  rw next_filter_transcoder_app.
  assert (next_filter_transcoder (filter_set_bindings typed) destination
          = Some transcoder) as ->.
  { rw /filter_set_bindings Htype.
    induction (filter_set_filters typed) as [|f filters IH];
      first by apply elem_of_nil in Hfilter.
    simpl. destruct (filter_match f destination) eqn:Hf; first done.
    apply IH. apply elem_of_cons in Hfilter as [->|Hin]; last done.
    congruence. }
  by rw /decode_value /try_except /lift_result /mbind /M_bind /= Hdecode.
Qed.

End ConstructionProperties.

(** ** The connection configuration *)

Section ConnectionProperties.
Context `{ConnectionConstants}.

Lemma entry_item_inl (entry_data : gmap string ConfigValue) (key : string)
    (err : Exn) :
  entry_item entry_data key = inl err →
  err = KeyError key ∧ entry_data !! key = None.
Proof. rw /entry_item. destruct (entry_data !! key); by intros [= <-]. Qed.

(** The branches of [connection_config], by the keys it reads with
    [entry.data[...]]. *)
Ltac connection_cases entry_data :=
  rw /connection_config /mbind /Exn_bind /mret /Exn_ret;
  destruct (entry_item entry_data CONF_KNX2_CONNECTION_TYPE)
    as [?|?] eqn:Htype;
  [ | repeat case_decide;
      destruct (entry_item entry_data CONF_KNX2_INDIVIDUAL_ADDRESS)
        as [?|?] eqn:Hindividual;
      destruct (entry_item entry_data CONF_KNX2_MCAST_GRP) as [?|?] eqn:Hgroup;
      destruct (entry_item entry_data CONF_KNX2_MCAST_PORT) as [?|?] eqn:Hport;
      destruct (entry_item entry_data CONF_HOST) as [?|?] eqn:Hhost;
      destruct (entry_item entry_data CONF_PORT) as [?|?] eqn:Hgateway ].

(** X24: with the [SecureConfig] of [xknx] the connection configuration
    is never made: when the constructor of [SecureConfig] refuses the
    keyword [knx2keys_password] with a [TypeError], as the one of [xknx]
    does, [connection_config] returns for no entry.  It raises the
    [KeyError] of a key the entry's data does not have, which is then the
    connection type, the individual address, the multicast group or port,
    the host or the port, or else the [TypeError] of the constructor; for
    an entry that has these six keys it is the [TypeError]. *)
Theorem connection_config_never_returns (entry_data : gmap string ConfigValue) :
  (∀ kwargs, is_Some (knx2keys_password kwargs) →
             ∃ msg, SecureConfig_init kwargs = inl (TypeError msg)) →
  ((∃ key, connection_config entry_data = inl (KeyError key)
           ∧ entry_data !! key = None
           ∧ key ∈ [CONF_KNX2_CONNECTION_TYPE; CONF_KNX2_INDIVIDUAL_ADDRESS;
                    CONF_KNX2_MCAST_GRP; CONF_KNX2_MCAST_PORT;
                    CONF_HOST; CONF_PORT])
   ∨ ∃ msg, connection_config entry_data = inl (TypeError msg))
  ∧ ((∀ key, key ∈ [CONF_KNX2_CONNECTION_TYPE; CONF_KNX2_INDIVIDUAL_ADDRESS;
                    CONF_KNX2_MCAST_GRP; CONF_KNX2_MCAST_PORT;
                    CONF_HOST; CONF_PORT] → is_Some (entry_data !! key)) →
     ∃ msg, connection_config entry_data = inl (TypeError msg)).
Proof.
  intros Hrefused.
  assert (∀ (A : Type) (x : A), is_Some (Some x)) as Hsome
    by (intros; by eexists).
  assert (∀ key err,
            entry_item entry_data key = inl err →
            key ∈ [CONF_KNX2_CONNECTION_TYPE; CONF_KNX2_INDIVIDUAL_ADDRESS;
                   CONF_KNX2_MCAST_GRP; CONF_KNX2_MCAST_PORT;
                   CONF_HOST; CONF_PORT] →
            ∃ key', (inl err : Exn + ConnectionConfig) = inl (KeyError key')
                    ∧ entry_data !! key' = None
                    ∧ key' ∈ [CONF_KNX2_CONNECTION_TYPE;
                              CONF_KNX2_INDIVIDUAL_ADDRESS;
                              CONF_KNX2_MCAST_GRP; CONF_KNX2_MCAST_PORT;
                              CONF_HOST; CONF_PORT]) as Hmissing.
  { intros key err [-> Hnone]%entry_item_inl Hkey. by exists key. }
  split.
  - connection_cases entry_data;
      repeat match goal with
             | |- context [SecureConfig_init ?kwargs] =>
                 destruct (Hrefused kwargs (Hsome _ _)) as [? ->]
             end;
      try (right; by eexists);
      left;
      match goal with
      | Hitem : entry_item entry_data ?key = inl ?err |- _ =>
          apply (Hmissing key err Hitem); rw !elem_of_cons; tauto
      end.
  - intros Hkeys.
    assert (∀ key err, entry_item entry_data key = inl err →
              key ∈ [CONF_KNX2_CONNECTION_TYPE; CONF_KNX2_INDIVIDUAL_ADDRESS;
                     CONF_KNX2_MCAST_GRP; CONF_KNX2_MCAST_PORT;
                     CONF_HOST; CONF_PORT] → False) as Hpresent.
    { intros key err [_ Hnone]%entry_item_inl [v Hv]%Hkeys. congruence. }
    connection_cases entry_data;
      repeat match goal with
             | |- context [SecureConfig_init ?kwargs] =>
                 destruct (Hrefused kwargs (Hsome _ _)) as [? ->]
             end;
      try (by eexists);
      (exfalso;
       match goal with
       | Hitem : entry_item entry_data ?key = inl _ |- _ =>
           apply (Hpresent _ _ Hitem); rw !elem_of_cons; tauto
       end).
Qed.

End ConnectionProperties.
(** * The properties on the sample installation *)

#[local] Existing Instance sample.
#[local] Existing Instance sample_dates.

(** A switch write to 1/2/5, which the filter 1/2/* bound to the percentage
    type also matches, is decoded by the switch type bound to the address
    itself. *)
Lemma exact_binding_takes_priority_witness :
  next_filter_transcoder sample_filters ga_1_2_5 = Some DPTScaling
  ∧ telegram_received_cb (write_1_2_5 (DPTBinary 1)) sample_env =
      (inr (),
       fired (knx2_event
                {| ev_data := Some (RawInt 1);
                   ev_destination := "2565";
                   ev_direction := "Incoming";
                   ev_value := Some 1%Z;
                   ev_source := "device 4359";
                   ev_telegramtype := "GroupValueWrite" |})
         sample_env).
Proof.
  split; first reflexivity.
  destruct (exact_binding_takes_priority (write_1_2_5 (DPTBinary 1)) sample_env
              ga_1_2_5 DPTSwitch eq_refl eq_refl) as (_ & _ & Hvalue & _).
  exact (Hvalue (DPTBinary 1) 1%Z eq_refl eq_refl).
Defined.

(** A byte written to 1/2/5 is no switch value: the event is fired with the
    byte as data and no value, and the failure is logged. *)
Lemma decode_failure_is_recovered_witness :
  telegram_received_cb (write_1_2_5 (DPTArray [128%Z])) sample_env =
    (inr (),
     fired (knx2_event
              {| ev_data := Some (RawTuple [128%Z]);
                 ev_destination := "2565";
                 ev_direction := "Incoming";
                 ev_value := None;
                 ev_source := "device 4359";
                 ev_telegramtype := "GroupValueWrite" |})
       (logged (warning_decode_error "DPTSwitch" (write_1_2_5 (DPTArray [128%Z]))
                  (CouldNotParseTelegram "Invalid payload"))
          sample_env)).
Proof.
  apply (decode_failure_is_recovered (write_1_2_5 (DPTArray [128%Z])) sample_env
           (DPTArray [128%Z]) ga_1_2_5 DPTSwitch
           (CouldNotParseTelegram "Invalid payload"));
    reflexivity.
Defined.

Lemma ineligible_telegram_has_null_data_witness :
  telegram_received_cb read_1_2_5 sample_env =
    (inr (),
     fired (knx2_event
              {| ev_data := None;
                 ev_destination := "2565";
                 ev_direction := "Incoming";
                 ev_value := None;
                 ev_source := "device 4359";
                 ev_telegramtype := "GroupValueRead" |})
       sample_env).
Proof.
  apply (ineligible_telegram_has_null_data read_1_2_5 sample_env).
  left. reflexivity.
Defined.

Lemma unbound_destination_keeps_raw_data_witness :
  telegram_received_cb response_0_0_7 sample_env =
    (inr (),
     fired (knx2_event
              {| ev_data := Some (RawTuple [12; 34]%Z);
                 ev_destination := "7";
                 ev_direction := "Incoming";
                 ev_value := None;
                 ev_source := "device 4359";
                 ev_telegramtype := "GroupValueResponse" |})
       sample_env).
Proof.
  apply (unbound_destination_keeps_raw_data response_0_0_7 sample_env
           (GroupAddress 7)); try reflexivity.
  intros f t Hin. apply list_elem_of_singleton in Hin.
  injection Hin as -> ->. reflexivity.
Defined.

(** The scenario of the specification: a send call without a type and with
    the integer payload 1 queues a one-bit write for each address; with the
    payload 64 the call raises and leaves the host as it was. *)
Lemma send_without_type_witness :
  service_send_to_knx2_bus (send_raw ["2565"; "lamp"] (inl 1%Z) false) sample_hass
  = (inr (),
     set_data (λ d, <["knx2" :=
       set_xknx_telegrams (λ _,
         [new_telegram ga_1_2_5 (GroupValueWrite (Some (DPTBinary 1)))
            (IndividualAddress 4353);
          new_telegram (InternalGroupAddress "lamp")
            (GroupValueWrite (Some (DPTBinary 1))) (IndividualAddress 4353)])
         sample_module]> d) sample_hass)
  ∧ ∃ msg,
      service_send_to_knx2_bus (send_raw ["2565"; "lamp"] (inl 64%Z) false)
        sample_hass
      = (inl (ConversionError msg), sample_hass).
Proof.
  split.
  - rw (proj1 (send_without_type sample_hass sample_module ["2565"; "lamp"]
                 (inl 1%Z) false eq_refl)); last (rw /APCI_BITMASK; lia).
    reflexivity.
  - apply (proj2 (send_without_type sample_hass sample_module ["2565"; "lamp"]
                    (inl 64%Z) false eq_refl) 64%Z eq_refl).
    rw /APCI_BITMASK; lia.
Defined.

(** The integer payload 64 does not fit the six bits of a [DPTBinary]: in
    the loaded sample integration, whose queue is empty, the send call for
    1/2/5 raises and leaves the host, and so the queue, as it was. *)
Lemma send_without_type_counterexample :
  data sample_hass !! "knx2" = Some sample_module
  ∧ xknx_telegrams sample_module = []
  ∧ service_send_to_knx2_bus (send_raw ["2565"] (inl 64%Z) false) sample_hass
    = (inl (ConversionError "Could not init DPTBinary"), sample_hass).
Proof.
  split; first reflexivity. split; first reflexivity.
  rw /service_send_to_knx2_bus
     (with_knx2_module_loaded _ sample_hass sample_module eq_refl).
  apply on_module_unchanged; reflexivity.
Qed.

(** "colour" names no transcoder; "percent" names one, and neither 101,
    which is no percentage, nor 50 gets as far as being encoded. *)
Lemma typed_send_fails_at_the_encoder_witness :
  (∃ msg, service_send_to_knx2_bus
            (send_typed ["2565"] 50%Z "colour" false) sample_hass
          = (inl (ServiceValidationError msg), sample_hass))
  ∧ service_send_to_knx2_bus
      (send_typed ["2565"] 101%Z "percent" false) sample_hass
    = (inl (AttributeError
              "type object 'DPTScaling' has no attribute 'to_knx2'"),
       sample_hass)
  ∧ service_send_to_knx2_bus
      (send_typed ["2565"] 50%Z "percent" false) sample_hass
    = (inl (AttributeError
              "type object 'DPTScaling' has no attribute 'to_knx2'"),
       sample_hass).
Proof.
  split; last split.
  - apply (proj1 (typed_send_fails_at_the_encoder sample_hass sample_module
                    ["2565"] 50%Z "colour" false eq_refl)).
    reflexivity.
  - apply (proj2 (typed_send_fails_at_the_encoder sample_hass sample_module
                    ["2565"] 101%Z "percent" false eq_refl) DPTScaling);
      reflexivity.
  - apply (proj2 (typed_send_fails_at_the_encoder sample_hass sample_module
                    ["2565"] 50%Z "percent" false eq_refl) DPTScaling);
      reflexivity.
Defined.

Lemma not_loaded_operation_fails_witness :
  run_operation (op_send (send_raw ["2565"] (inl 1%Z) false)) unloaded_hass
  = (inl (HomeAssistantError "KNX2 entry not loaded"), unloaded_hass)
  ∧ run_operation
      (op_websocket (λ _, telegrams_put read_1_2_5)
         {| ws_id := 3; ws_type := "knx2/info" |}) unloaded_hass
    = (inr (),
       set_connection (λ _,
         [send_error 3 "home_assistant_error" "KNX2 integration not loaded."])
         unloaded_hass).
Proof.
  split.
  - apply (not_loaded_operation_fails
             (op_send (send_raw ["2565"] (inl 1%Z) false)) unloaded_hass).
    reflexivity.
  - apply (not_loaded_operation_fails
             (op_websocket (λ _, telegrams_put read_1_2_5)
                {| ws_id := 3; ws_type := "knx2/info" |}) unloaded_hass).
    reflexivity.
Defined.

Lemma event_register_remove_unbinds_witness :
  ∃ h' knx2_module',
    service_event_register_modify
      {| event_address := ["2565"]; event_type := None; event_remove := true |}
      sample_hass = (inr (), h')
    ∧ data h' !! "knx2" = Some knx2_module'
    ∧ (ga_1_2_5 ∉ group_addresses (knx2_event_callback knx2_module'))
    ∧ group_address_transcoder knx2_module' !! ga_1_2_5 = None.
Proof.
  destruct (event_register_remove_unbinds sample_hass sample_module
              {| event_address := ["2565"]; event_type := None;
                 event_remove := true |})
    as (h' & knx2_module' & Hcall & Hdata & Hgone & _ & _).
  - reflexivity.
  - apply NoDup_singleton.
  - reflexivity.
  - exists h', knx2_module'. split; first exact Hcall. split; first exact Hdata.
    apply (Hgone "2565"). apply list_elem_of_singleton. reflexivity.
Defined.



Lemma exposing_module_consistent : exposures_consistent exposing_module.
Proof.
  split; last split; last split.
  - apply NoDup_singleton.
  - intros x ->%list_elem_of_singleton. simpl. lia.
  - intros x ->%list_elem_of_singleton. reflexivity.
  - intros a x Hx. change (({[ "2565" := sample_exposure ]} : gmap string Exposure)
                           !! a = Some x) in Hx.
    apply lookup_singleton_Some in Hx as [<- <-]. split; first reflexivity.
    by apply list_elem_of_singleton.
Defined.

(** Registering again for 1/2/5 replaces the exposure; removing for an
    address without one is refused. *)
Lemma service_exposures_one_per_address_witness :
  (∃ h' knx2_module' exposure,
     service_exposure_register_modify
       {| exposure_data_address := "2565"; exposure_data_remove := false;
          exposure_data_name := "moon" |} exposing_hass = (inr (), h')
     ∧ data h' !! "knx2" = Some knx2_module'
     ∧ service_exposures knx2_module'
       = <["2565" := exposure]> {[ "2565" := sample_exposure ]}
     ∧ exposure_calls knx2_module'
       = [exposure_created sample_exposure; exposure_removed sample_exposure;
          exposure_created exposure]
     ∧ (sample_exposure ∉ xknx_exposures knx2_module')
     ∧ exposure ∈ xknx_exposures knx2_module')
  ∧ (∃ msg,
       service_exposure_register_modify
         {| exposure_data_address := "7"; exposure_data_remove := true;
            exposure_data_name := "" |} exposing_hass
       = (inl (ServiceValidationError msg), exposing_hass)).
Proof.
  split.
  - destruct (service_exposures_one_per_address exposing_hass exposing_module
                {| exposure_data_address := "2565"; exposure_data_remove := false;
                   exposure_data_name := "moon" |} eq_refl
                exposing_module_consistent)
      as (_ & Hreplace & _).
    exact (Hreplace eq_refl sample_exposure eq_refl).
  - destruct (service_exposures_one_per_address exposing_hass exposing_module
                {| exposure_data_address := "7"; exposure_data_remove := true;
                   exposure_data_name := "" |} eq_refl
                exposing_module_consistent)
      as (_ & _ & Hmissing).
    exact (Hmissing eq_refl eq_refl).
Defined.


(** * The further properties on the sample installations *)

(** A byte written to 1/2/6, which 1/2/* and the later filter 2000-3000
    both match, is decoded as a percentage. *)
Lemma first_matching_filter_decides_witness :
  telegram_received_cb (write_1_2_6 (DPTArray [255%Z])) layered_env =
    (inr (),
     fired (knx2_event
              {| ev_data := Some (RawTuple [255%Z]);
                 ev_destination := "2566";
                 ev_direction := "Incoming";
                 ev_value := Some 100%Z;
                 ev_source := "device 4359";
                 ev_telegramtype := "GroupValueWrite" |})
       layered_env).
Proof.
  assert (∀ f t, (f, t) ∈ [((0, 100)%N, DPTSwitch)] →
                 sample_filter_match f (GroupAddress 2566) = false) as Hbefore.
  { intros f t Hin. apply list_elem_of_singleton in Hin.
    injection Hin as -> ->. reflexivity. }
  destruct (first_matching_filter_decides (write_1_2_6 (DPTArray [255%Z]))
              layered_env (GroupAddress 2566)
              [((0, 100)%N, DPTSwitch)] [((2000, 3000)%N, DPTSwitch)]
              filter_1_2 DPTScaling eq_refl eq_refl eq_refl Hbefore eq_refl)
    as [_ Hvalue].
  exact (Hvalue (DPTArray [255%Z]) 100%Z eq_refl eq_refl).
Defined.

(** A read of 1/2/5 and of the internal address "lamp". *)
Lemma read_queues_one_request_per_address_witness :
  service_read_to_knx2_bus ["2565"; "lamp"] sample_hass
  = (inr (),
     set_data (λ d, <["knx2" :=
       set_xknx_telegrams (λ _,
         [new_telegram ga_1_2_5 GroupValueRead (IndividualAddress 4353);
          new_telegram (InternalGroupAddress "lamp") GroupValueRead
            (IndividualAddress 4353)])
         sample_module]> d) sample_hass).
Proof.
  rw (proj1 (read_queues_one_request_per_address sample_hass sample_module
               ["2565"; "lamp"] eq_refl)).
  reflexivity.
Defined.

(** The [AttributeError] of the missing encoder reaches the caller. *)
Lemma send_other_exception_propagates_witness :
  service_send_to_knx2_bus (send_typed ["2565"] 50%Z "switch" true) sample_hass
  = (inl (AttributeError "type object 'DPTSwitch' has no attribute 'to_knx2'"),
     sample_hass).
Proof.
  apply (send_other_exception_propagates sample_hass sample_module
           ["2565"] 50%Z "switch" true DPTSwitch
           (AttributeError "type object 'DPTSwitch' has no attribute 'to_knx2'"));
    try reflexivity.
  intros msg. discriminate.
Defined.

(** Registering 1/2/6 and 1/2/5 as percentages rebinds 1/2/5, a switch
    before, and subscribes to 1/2/6 after 1/2/5. *)
Lemma event_register_add_binds_witness :
  ∃ h' knx2_module',
    service_event_register_modify
      {| event_address := ["2566"; "2565"]; event_type := Some "percent";
         event_remove := false |} sample_hass = (inr (), h')
    ∧ data h' !! "knx2" = Some knx2_module'
    ∧ group_address_transcoder knx2_module' !! ga_1_2_5 = Some DPTScaling
    ∧ group_address_transcoder knx2_module' !! GroupAddress 2566
      = Some DPTScaling
    ∧ GroupAddress 2566 ∈ group_addresses (knx2_event_callback knx2_module')
    ∧ _address_filter_transcoder knx2_module' = sample_filters.
Proof.
  destruct (event_register_add_binds sample_hass sample_module
              {| event_address := ["2566"; "2565"]; event_type := Some "percent";
                 event_remove := false |} DPTScaling eq_refl eq_refl eq_refl)
    as (h' & knx2_module' & fresh & Hcall & Hdata & _ & _ & Hbound & _ & Htable).
  exists h', knx2_module'.
  split; first exact Hcall. split; first exact Hdata.
  split; first (apply (Hbound "2565"); right; left).
  split; first (apply (Hbound "2566"); left).
  split; first (apply (Hbound "2566"); left).
  exact Htable.
Defined.

(** A type that names no transcoder: 1/2/6 is subscribed and 1/2/5 stays a
    switch. *)
Lemma event_register_add_without_transcoder_witness :
  ∃ h' knx2_module',
    service_event_register_modify
      {| event_address := ["2566"; "2565"]; event_type := Some "colour";
         event_remove := false |} sample_hass = (inr (), h')
    ∧ data h' !! "knx2" = Some knx2_module'
    ∧ group_address_transcoder knx2_module' = sample_bindings
    ∧ GroupAddress 2566 ∈ group_addresses (knx2_event_callback knx2_module').
Proof.
  destruct (event_register_add_without_transcoder sample_hass sample_module
              {| event_address := ["2566"; "2565"]; event_type := Some "colour";
                 event_remove := false |} eq_refl eq_refl eq_refl)
    as (h' & knx2_module' & Hcall & Hdata & Hmap & Hsubscribed).
  exists h', knx2_module'.
  split; first exact Hcall. split; first exact Hdata.
  split; first exact Hmap.
  apply (Hsubscribed "2566"). left.
Defined.

(** The same registration made twice. *)
Lemma event_register_add_twice_witness :
  let call := {| event_address := ["2566"; "2565"]; event_type := Some "percent";
                 event_remove := false |} in
  service_event_register_modify call
    (service_event_register_modify call sample_hass).2
  = (inr (), (service_event_register_modify call sample_hass).2).
Proof.
  exact (event_register_add_twice sample_hass sample_module
           {| event_address := ["2566"; "2565"]; event_type := Some "percent";
              event_remove := false |} eq_refl eq_refl).
Defined.

(** 0/0/7 and "lamp" were never registered. *)
Lemma event_register_remove_absent_witness :
  service_event_register_modify
    {| event_address := ["7"; "lamp"]; event_type := None;
       event_remove := true |} sample_hass
  = (inr (),
     set_logger (λ _, [warning_could_not_remove_event "7";
                       warning_could_not_remove_event "lamp"]) sample_hass).
Proof.
  rw (event_register_remove_absent sample_hass sample_module
        {| event_address := ["7"; "lamp"]; event_type := None;
           event_remove := true |} eq_refl eq_refl).
  - reflexivity.
  - intros address Hin.
    apply elem_of_cons in Hin as [->|Hin];
      last apply list_elem_of_singleton in Hin as ->.
    + split; last reflexivity.
      intros Hsub. apply list_elem_of_singleton in Hsub. discriminate Hsub.
    + split; last reflexivity.
      intros Hsub. apply list_elem_of_singleton in Hsub. discriminate Hsub.
Defined.

(** Registering 0/0/7 as a switch and removing it again. *)
Lemma event_register_add_then_remove_witness :
  ∃ h'' knx2_module'',
    service_event_register_modify
      {| event_address := ["7"]; event_type := Some "switch";
         event_remove := true |}
      (service_event_register_modify
         {| event_address := ["7"]; event_type := Some "switch";
            event_remove := false |} sample_hass).2 = (inr (), h'')
    ∧ data h'' !! "knx2" = Some knx2_module''
    ∧ group_address_transcoder knx2_module'' = sample_bindings
    ∧ ∀ y, y ∈ group_addresses (knx2_event_callback knx2_module'')
           ↔ y ∈ [ga_1_2_5].
Proof.
  apply (event_register_add_then_remove sample_hass sample_module ["7"]
           (Some "switch") eq_refl).
  - apply NoDup_singleton.
  - intros a Ha. apply list_elem_of_singleton in Ha as ->.
    split; last reflexivity.
    intros Hsub. apply list_elem_of_singleton in Hsub. discriminate Hsub.
Defined.

Lemma sample_module_consistent : exposures_consistent sample_module.
Proof.
  split; last split; last split.
  - apply NoDup_nil_2.
  - intros x Hx. by apply elem_of_nil in Hx.
  - intros x Hx. by apply elem_of_nil in Hx.
  - intros a x Hx. change ((∅ : gmap string Exposure) !! a = Some x) in Hx.
    by rw lookup_empty in Hx.
Defined.

Lemma sample_operations_are_services :
  Forall (λ op, is_module_service op = true) sample_operations.
Proof. repeat constructor. Defined.

(** After the four calls the sample integration is loaded and in order,
    and no event was fired. *)
Lemma services_keep_module_in_order_witness :
  ∃ knx2_module',
    data (after_operations sample_operations sample_hass) !! "knx2"
    = Some knx2_module'
    ∧ module_invariant knx2_module'
    ∧ _address_filter_transcoder knx2_module' = sample_filters
    ∧ bus (after_operations sample_operations sample_hass) = [].
Proof.
  destruct (services_keep_module_in_order sample_operations sample_hass
              sample_module sample_operations_are_services eq_refl
              (conj (NoDup_singleton ga_1_2_5) sample_module_consistent))
    as (knx2_module' & Hdata & Hinv & _ & Htable & _ & _ & _ & Hbus & _).
  exists knx2_module'. split; first exact Hdata. split; first exact Hinv.
  split; [exact Htable | exact Hbus].
Defined.

(** An exposure registered for 1/2/5 and removed again. *)
Lemma exposure_register_then_remove_witness :
  ∃ h' h'' knx2_module'' exposure,
    service_exposure_register_modify
      {| exposure_data_address := "2565"; exposure_data_remove := false;
         exposure_data_name := "sun" |} sample_hass = (inr (), h')
    ∧ service_exposure_register_modify
        {| exposure_data_address := "2565"; exposure_data_remove := true;
           exposure_data_name := "" |} h' = (inr (), h'')
    ∧ data h'' !! "knx2" = Some knx2_module''
    ∧ service_exposures knx2_module'' = ∅
    ∧ xknx_exposures knx2_module'' = []
    ∧ exposure_calls knx2_module''
      = [exposure_created exposure; exposure_removed exposure]
    ∧ device_name exposure = "sun".
Proof.
  exact (exposure_register_then_remove sample_hass sample_module "2565" "sun" ""
           eq_refl sample_module_consistent eq_refl).
Defined.

(** The exposure of 1/2/5 removed from the exposing module. *)
Lemma exposure_remove_detaches_that_one_witness :
  ∃ h' knx2_module',
    service_exposure_register_modify
      {| exposure_data_address := "2565"; exposure_data_remove := true;
         exposure_data_name := "" |} exposing_hass = (inr (), h')
    ∧ data h' !! "knx2" = Some knx2_module'
    ∧ logger h' = []
    ∧ service_exposures knx2_module'
      = delete "2565" ({[ "2565" := sample_exposure ]} : gmap string Exposure)
    ∧ exposure_calls knx2_module'
      = [exposure_created sample_exposure; exposure_removed sample_exposure]
    ∧ (∃ before after,
         [sample_exposure] = before ++ sample_exposure :: after
         ∧ xknx_exposures knx2_module' = before ++ after).
Proof.
  exact (exposure_remove_detaches_that_one exposing_hass exposing_module
           {| exposure_data_address := "2565"; exposure_data_remove := true;
              exposure_data_name := "" |} sample_exposure
           eq_refl exposing_module_consistent eq_refl eq_refl).
Defined.

(** After 1/2/6 is registered as a switch, a bit written to it is decoded
    as one, although the filter 1/2/* reads percentages. *)
Lemma registered_type_decodes_later_telegrams_witness :
  ∃ h' knx2_module',
    service_event_register_modify
      {| event_address := ["2566"]; event_type := Some "switch";
         event_remove := false |} sample_hass = (inr (), h')
    ∧ data h' !! "knx2" = Some knx2_module'
    ∧ telegram_received_cb (write_1_2_6 (DPTBinary 1))
        {| self := knx2_module'; hass := h' |} =
        (inr (),
         fired (knx2_event
                  {| ev_data := Some (RawInt 1);
                     ev_destination := "2566";
                     ev_direction := "Incoming";
                     ev_value := Some 1%Z;
                     ev_source := "device 4359";
                     ev_telegramtype := "GroupValueWrite" |})
           {| self := knx2_module'; hass := h' |}).
Proof.
  exact (registered_type_decodes_later_telegrams sample_hass sample_module
           {| event_address := ["2566"]; event_type := Some "switch";
              event_remove := false |} DPTSwitch "2566"
           (write_1_2_6 (DPTBinary 1)) (DPTBinary 1) 1%Z
           eq_refl eq_refl eq_refl (list_elem_of_here "2566" []) eq_refl eq_refl
           eq_refl).
Defined.

(** After 0/0/7 is removed, a switch written to it is not decoded. *)
Lemma removed_address_gives_raw_events_witness :
  ∃ h' knx2_module',
    service_event_register_modify
      {| event_address := ["7"]; event_type := None;
         event_remove := true |} lonely_hass = (inr (), h')
    ∧ data h' !! "knx2" = Some knx2_module'
    ∧ telegram_received_cb (write_0_0_7 (DPTBinary 1))
        {| self := knx2_module'; hass := h' |} =
        (inr (),
         fired (knx2_event
                  {| ev_data := Some (RawInt 1);
                     ev_destination := "7";
                     ev_direction := "Incoming";
                     ev_value := None;
                     ev_source := "device 4359";
                     ev_telegramtype := "GroupValueWrite" |})
           {| self := knx2_module'; hass := h' |}).
Proof.
  apply (removed_address_gives_raw_events lonely_hass lonely_module
           {| event_address := ["7"]; event_type := None;
              event_remove := true |} "7"
           (write_0_0_7 (DPTBinary 1)) (DPTBinary 1)
           eq_refl (NoDup_singleton (GroupAddress 7)) eq_refl
           (list_elem_of_here "7" []) eq_refl eq_refl).
  intros f t Hin. apply list_elem_of_singleton in Hin.
  injection Hin as -> ->. reflexivity.
Defined.

(** A date entity with a readable state address ignores a persisted state
    that is no date; a binary sensor adopts "on" all the same. *)
Lemma readable_device_is_not_seeded_witness :
  async_added_to_hass KNX2DateEntity readable_entity (Some "yesterday")
  = inr (_Knx2EntityBase_async_added_to_hass readable_entity)
  ∧ async_added_to_hass KNX2BinarySensor readable_entity (Some "on")
    = inr (set_value (switch_value true)
             (_Knx2EntityBase_async_added_to_hass readable_entity)).
Proof.
  split.
  - apply (readable_device_is_not_seeded KNX2DateEntity readable_entity
             (Some "yesterday") eq_refl).
    discriminate.
  - apply (proj2 (readable_device_is_not_seeded KNX2BinarySensor readable_entity
                    (Some "on") eq_refl) "on" eq_refl); discriminate.
Defined.

(** "unknown" is no date, and is not read as one. *)
Lemma unknown_state_is_not_adopted_witness :
  async_added_to_hass KNX2DateEntity sample_entity (Some "unknown")
  = inr (_Knx2EntityBase_async_added_to_hass sample_entity).
Proof.
  apply (unknown_state_is_not_adopted KNX2DateEntity sample_entity "unknown").
  left. reflexivity.
Defined.

(** A text entity restored to "hello". *)
Lemma added_entity_outcomes_witness :
  let e' := set_value (text_value "hello")
              (_Knx2EntityBase_async_added_to_hass sample_entity) in
  device_updated_cb e' = true
  ∧ in_xknx_devices e' = true
  ∧ readable (_device e') = false
  ∧ (value (_device e') = None
     ∨ ∃ state seed,
         Some "hello" = Some state
         ∧ state ≠ STATE_UNKNOWN ∧ state ≠ STATE_UNAVAILABLE
         ∧ seed_value KNX2Text state = Some seed
         ∧ value (_device e') = Some seed).
Proof.
  exact (added_entity_outcomes KNX2Text sample_entity
           (set_value (text_value "hello")
              (_Knx2EntityBase_async_added_to_hass sample_entity))
           (Some "hello") eq_refl).
Defined.

(** The sample configuration on the empty module: four filters
    subscribed, three of them bound. *)
Lemma register_event_callback_follows_configuration_witness :
  register_event_callback sample_config_event empty_module =
    ({| address_filters :=
          ([(1000, 3000)%N; (0, 100)%N; (0, 50)%N; (2000, 3000)%N]
             : list (@AddressFilter sample));
        group_addresses := [] |},
     set_address_filter_transcoder
       (λ _, [((0, 100)%N, DPTSwitch); ((0, 50)%N, DPTScaling);
              ((2000, 3000)%N, DPTScaling)])
       empty_module).
Proof.
  rw (register_event_callback_follows_configuration sample_config_event
        empty_module);
    last (apply (bool_decide_unpack _); vm_compute; exact I).
  reflexivity.
Defined.

(** A bit written to 0/5/220, which only the filter of the set without a
    type matches, is not decoded. *)
Lemma untyped_filters_give_raw_events_witness :
  let e := {| self := (register_event_callback sample_config_event
                         empty_module).2;
              hass := empty_hass |} in
  telegram_received_cb (write_0_5_220 (DPTBinary 1)) e =
    (inr (),
     fired (knx2_event
              {| ev_data := Some (RawInt 1);
                 ev_destination := "1500";
                 ev_direction := "Incoming";
                 ev_value := None;
                 ev_source := "device 4359";
                 ev_telegramtype := "GroupValueWrite" |}) e).
Proof.
  apply (untyped_filters_give_raw_events sample_config_event empty_module
           empty_hass (write_0_5_220 (DPTBinary 1)) (DPTBinary 1)
           (GroupAddress 1500) eq_refl eq_refl).
  - apply (bool_decide_unpack _). vm_compute. exact I.
  - reflexivity.
  - reflexivity.
  - intros filter_set f Hset Hf Hmatch.
    rw !elem_of_cons in Hset. destruct Hset as [->|[->|[->|Hset]]].
    + reflexivity.
    + apply list_elem_of_singleton in Hf as ->. discriminate Hmatch.
    + rw !elem_of_cons in Hf. destruct Hf as [->|[->|Hf]].
      * discriminate Hmatch.
      * discriminate Hmatch.
      * by apply elem_of_nil in Hf.
    + by apply elem_of_nil in Hset.
Defined.

(** A bit written to 0/0/7, which the filter of the switch set matches
    before the first filter of the percentage set does, is decoded as a
    switch. *)
Lemma typed_filters_decode_events_witness :
  let e := {| self := (register_event_callback sample_config_event
                         empty_module).2;
              hass := empty_hass |} in
  telegram_received_cb (write_0_0_7 (DPTBinary 1)) e =
    (inr (),
     fired (knx2_event
              {| ev_data := Some (RawInt 1);
                 ev_destination := "7";
                 ev_direction := "Incoming";
                 ev_value := Some 1%Z;
                 ev_source := "device 4359";
                 ev_telegramtype := "GroupValueWrite" |}) e).
Proof.
  apply (typed_filters_decode_events
           [ {| filter_set_filters :=
                  ([(1000, 3000)%N] : list (@AddressFilter sample));
                filter_set_type := None |} ]
           [ {| filter_set_filters :=
                  ([(0, 50)%N; (2000, 3000)%N] : list (@AddressFilter sample));
                filter_set_type := Some "percent" |} ]
           {| filter_set_filters := ([(0, 100)%N] : list (@AddressFilter sample));
              filter_set_type := Some "switch" |}
           empty_module empty_hass (write_0_0_7 (DPTBinary 1)) (DPTBinary 1)
           (GroupAddress 7) ((0, 100)%N : @AddressFilter sample) DPTSwitch 1%Z
           eq_refl eq_refl).
  - apply (bool_decide_unpack _). vm_compute. exact I.
  - reflexivity.
  - reflexivity.
  - intros filter_set f Hset Hf Hmatch.
    apply list_elem_of_singleton in Hset as ->. reflexivity.
  - left.
  - reflexivity.
  - reflexivity.
  - reflexivity.
Defined.

#[local] Existing Instance sample_constants.

(** With the constructor of [xknx], the routing entry fails at the
    multicast port it lacks or in [SecureConfig], and so does the entry of
    the secure tunnel; the entry that has the six keys fails in
    [SecureConfig]. *)
Lemma connection_config_never_returns_witness :
  ((∃ key, connection_config routing_entry = inl (KeyError key)
           ∧ routing_entry !! key = None
           ∧ key ∈ ["connection_type"; "individual_address";
                    "multicast_group"; "multicast_port"; "host"; "port"])
   ∨ ∃ msg, connection_config routing_entry = inl (TypeError msg))
  ∧ ((∃ key, connection_config secure_tunnel_entry = inl (KeyError key)
             ∧ secure_tunnel_entry !! key = None
             ∧ key ∈ ["connection_type"; "individual_address";
                      "multicast_group"; "multicast_port"; "host"; "port"])
     ∨ ∃ msg, connection_config secure_tunnel_entry = inl (TypeError msg))
  ∧ ∃ msg, connection_config complete_entry = inl (TypeError msg).
Proof.
  assert (∀ kwargs, is_Some (knx2keys_password kwargs) →
                    ∃ msg, SecureConfig_init kwargs = inl (TypeError msg))
    as Hrefused.
  { intros kwargs Hpassword. eexists.
    rw /SecureConfig_init /= /sample_SecureConfig_init decide_True; done. }
  split; last split.
  - exact (proj1 (connection_config_never_returns routing_entry Hrefused)).
  - exact (proj1 (connection_config_never_returns secure_tunnel_entry Hrefused)).
  - apply (proj2 (connection_config_never_returns complete_entry Hrefused)).
    intros key Hkey. rw !elem_of_cons in Hkey.
    destruct Hkey as [->|[->|[->|[->|[->|[->|Hkey]]]]]];
      try (apply (bool_decide_unpack _); vm_compute; exact I).
    by apply elem_of_nil in Hkey.
Defined.
